(** * QA automation LTI: the task execution orchestrator

    A shallow embedding of the worker orchestration code of
    [qa-automation-lti.js]: the [/execute] and [/execute-approved] request
    handlers, [analyzeTask], [executeApprovedActions] and the task table
    [QA_TASKS].  The repository holds two revisions of that file, and both
    are embedded, each in a module of its own:

    - [Phase2]: [qa-automation-lti.js], the file the Dockerfile starts;
    - [V3]: the revision headed "Definitive V3".

    JavaScript strings are sequences of UTF-16 code units, so text is a
    [list N] here; [lit] turns an ASCII literal of the source into such a
    sequence.  Node's child-process, timer, promise and file-system
    behaviour is modelled in [Node]; a worker is the sequence of events it
    makes Node deliver to the listeners the code registered. *)

From Stdlib Require Import NArith ZArith String Ascii DecimalString.
From stdpp Require Import gmap list.

Set Warnings "-register-all".

Local Open Scope N_scope.

(** ** JavaScript strings *)

Module Js.

Definition jstring := list N.

Definition lit (s : string) : jstring :=
  map N_of_ascii (list_ascii_of_string s).
Arguments lit s%_string.

(** [dq s] is [lit s] with every apostrophe turned into a double quote:
    JSON text reads better written this way. *)
Definition dq (s : string) : jstring :=
  map (fun c => if c =? 39 then 34 else c) (lit s).
Arguments dq s%_string.

Definition eqs (a b : jstring) : bool := bool_decide (a = b).

(** [strip_prefix p s] is the rest of [s] after its prefix [p]. *)
Fixpoint strip_prefix (p s : jstring) : option jstring :=
  match p, s with
  | [], _ => Some s
  | c :: p', d :: s' => if c =? d then strip_prefix p' s' else None
  | _ :: _, [] => None
  end.

(** [String.prototype.includes]. *)
Fixpoint includes (s needle : jstring) : bool :=
  match strip_prefix needle s with
  | Some _ => true
  | None => match s with
            | [] => false
            | _ :: s' => includes s' needle
            end
  end.

(** [s.substring(0, n)]. *)
Definition substring0 (n : nat) (s : jstring) : jstring := take n s.

(** Decimal text of an integer, as a template literal prints it. *)
Definition of_Z (z : Z) : jstring :=
  lit (NilEmpty.string_of_int (Z.to_int z)).

(** *** The regular expressions of the source

    The fragment the source uses: literals, a greedy star or plus over a
    character class, concatenation and capture groups.  [rmatch r s] lists
    the ways [r] matches a prefix of [s] in the order a backtracking
    matcher tries them: (matched text, captures, rest). *)

Inductive regex :=
| RLit (l : jstring)
| RStar (p : N -> bool)
| RPlus (p : N -> bool)
| RCat (r1 r2 : regex)
| RGroup (r : regex).

(** The splits of [s] after a prefix in class [p], longest prefix first. *)
Fixpoint splits_greedy (p : N -> bool) (s : jstring) : list (jstring * jstring) :=
  match s with
  | c :: s' =>
      if p c
      then map (fun ab => (c :: fst ab, snd ab)) (splits_greedy p s') ++ [([], s)]
      else [([], s)]
  | [] => [([], [])]
  end.

Definition match_result : Type := jstring * list jstring * jstring.

(** A match of [r2] after the text [a] and the captures [g1] of [r1]. *)
Definition join (a : jstring) (g1 : list jstring) (m2 : match_result) : match_result :=
  let '(b, g2, rest) := m2 in (a ++ b, g1 ++ g2, rest).

(** A match one code unit further to the left. *)
Definition push (c : N) (m : match_result) : match_result :=
  let '(a, g, rest) := m in (c :: a, g, rest).

Fixpoint rmatch (r : regex) (s : jstring) : list match_result :=
  match r with
  | RLit l =>
      match strip_prefix l s with
      | Some rest => [(l, [], rest)]
      | None => []
      end
  | RStar p => map (fun ab => (fst ab, [], snd ab)) (splits_greedy p s)
  | RPlus p =>
      match s with
      | c :: s' =>
          if p c
          then map (fun ab => (c :: fst ab, [], snd ab)) (splits_greedy p s')
          else []
      | [] => []
      end
  | RCat r1 r2 =>
      flat_map (fun m1 : match_result =>
                  let '(a, g1, rest) := m1 in map (join a g1) (rmatch r2 rest))
               (rmatch r1 s)
  | RGroup r' =>
      map (fun m : match_result => let '(a, g, rest) := m in (a, a :: g, rest))
          (rmatch r' s)
  end.

(** [s.match(r)] for a regex without flags: the leftmost start position
    with a match, and there the first match in backtracking order.  The
    result is the matched text and the captures. *)
Fixpoint re_match (r : regex) (s : jstring) : option (jstring * list jstring) :=
  match rmatch r s with
  | (a, g, _) :: _ => Some (a, g)
  | [] => match s with
          | [] => None
          | _ :: s' => re_match r s'
          end
  end.

(** [m[1]] of a match result. *)
Definition group1 (m : jstring * list jstring) : jstring :=
  match snd m with
  | g :: _ => g
  | [] => []
  end.

(** Character classes.  [\s] is the white space and the line terminators
    of ECMAScript; [.] is every code unit that is no line terminator. *)
Definition is_line_terminator (c : N) : bool :=
  (c =? 10) || (c =? 13) || (c =? 0x2028) || (c =? 0x2029).

Definition cls_space (c : N) : bool :=
  (c =? 9) || (c =? 10) || (c =? 11) || (c =? 12) || (c =? 13) || (c =? 32)
  || (c =? 0xA0) || (c =? 0x1680) || ((0x2000 <=? c) && (c <=? 0x200A))
  || (c =? 0x2028) || (c =? 0x2029) || (c =? 0x202F) || (c =? 0x205F)
  || (c =? 0x3000) || (c =? 0xFEFF).

Definition cls_dot (c : N) : bool := negb (is_line_terminator c).

(** [[\s\S]]. *)
Definition cls_any (c : N) : bool := true.

(** [[^']]. *)
Definition cls_not_quote (c : N) : bool := negb (c =? 39).

(** [/[\s\S]*\}/], the tail of the pattern below. *)
Definition to_last_close : regex := RCat (RStar cls_any) (RLit (lit "}")).

(** The ways [/\}/] matches after a split of the text. *)
Definition close_after (ab : jstring * jstring) : list match_result :=
  map (join (fst ab) []) (rmatch (RLit (lit "}")) (snd ab)).

(** What [/\{[\s\S]*\}/] selects, written as a scan: [last_close s]
    splits [s] at its last closing brace, and [greedy_brace_span s] runs
    from the first opening brace of [s] that has a closing brace after it
    to the last closing brace of [s]. *)
Fixpoint last_close (s : jstring) : option (jstring * jstring) :=
  match s with
  | [] => None
  | c :: t =>
      match last_close t with
      | Some (a, b) => Some (c :: a, b)
      | None => if c =? 125 then Some ([], t) else None
      end
  end.

Fixpoint greedy_brace_span (s : jstring) : option jstring :=
  match s with
  | [] => None
  | c :: t =>
      if c =? 123 then
        match last_close t with
        | Some (a, _) => Some (c :: a ++ [125])
        | None => greedy_brace_span t
        end
      else greedy_brace_span t
  end.

End Js.

(** ** JavaScript values and [JSON.parse] *)

Module Json.
Import Js.

(** The values the code handles: what [JSON.parse] produces, request
    bodies, and the objects the code builds with object literals.
    [JNum m e] is the number [m * 10^e] (a JSON number literal is kept
    exactly; rounding to a double is not modelled).  An object is its
    list of properties in insertion order. *)
Inductive jsval :=
| JUndefined
| JNull
| JBool (b : bool)
| JNum (m e : Z)
| JStr (s : jstring)
| JArr (l : list jsval)
| JObj (fields : list (jstring * jsval)).

Definition num (z : Z) : jsval := JNum z 0.

(** ToBoolean. *)
Definition truthy (v : jsval) : bool :=
  match v with
  | JUndefined | JNull => false
  | JBool b => b
  | JNum m _ => negb (m =? 0)%Z
  | JStr s => negb (eqs s [])
  | JArr _ | JObj _ => true
  end.

(** [a || b]. *)
Definition or_else (a b : jsval) : jsval := if truthy a then a else b.

(** The own property [k] of an object; of two equal keys in a JSON text
    the later one wins. *)
Definition lookup_field (k : jstring) (fields : list (jstring * jsval)) : option jsval :=
  fold_left (fun acc kv => if eqs (fst kv) k then Some (snd kv) else acc) fields None.

(** [v.k] for the property names the source reads (none of them is
    inherited, and none is an index).  [None] is the [TypeError] of a
    property read on [undefined] or [null]. *)
Definition get (v : jsval) (k : jstring) : option jsval :=
  match v with
  | JUndefined | JNull => None
  | JObj fs => Some (default JUndefined (lookup_field k fs))
  | JArr l => Some (if eqs k (lit "length") then num (Z.of_nat (length l)) else JUndefined)
  | JStr s => Some (if eqs k (lit "length") then num (Z.of_nat (length s)) else JUndefined)
  | JBool _ | JNum _ _ => Some JUndefined
  end.

(** [v?.k]. *)
Definition get_opt (v : jsval) (k : jstring) : jsval :=
  match v with
  | JUndefined | JNull => JUndefined
  | _ => default JUndefined (get v k)
  end.

(** [v > 0] for the values a [length] property holds in practice:
    numbers, and [undefined] where there is no such property. *)
Definition gt0 (v : jsval) : bool :=
  match v with
  | JNum m _ => bool_decide (0 < m)%Z
  | JBool b => b
  | _ => false
  end.

(** [v === 0]. *)
Definition is_zero (v : jsval) : bool :=
  match v with
  | JNum m _ => (m =? 0)%Z
  | _ => false
  end.

Definition is_array (v : jsval) : bool :=
  match v with JArr _ => true | _ => false end.

(** *** [JSON.parse] *)

Definition is_ws (c : N) : bool :=
  (c =? 32) || (c =? 9) || (c =? 10) || (c =? 13).

Fixpoint skip_ws (s : jstring) : jstring :=
  match s with
  | c :: s' => if is_ws c then skip_ws s' else s
  | [] => []
  end.

Definition is_digit (c : N) : bool := (48 <=? c) && (c <=? 57).

Definition hex_digit (c : N) : option N :=
  if is_digit c then Some (c - 48)
  else if (97 <=? c) && (c <=? 102) then Some (c - 87)
  else if (65 <=? c) && (c <=? 70) then Some (c - 55)
  else None.

(** The character an escape [\c] stands for ([\u] apart). *)
Definition unescape (c : N) : option N :=
  if c =? 34 then Some 34           (* double quote *)
  else if c =? 92 then Some 92      (* backslash *)
  else if c =? 47 then Some 47      (* slash *)
  else if c =? 98 then Some 8       (* b: backspace *)
  else if c =? 102 then Some 12     (* f: form feed *)
  else if c =? 110 then Some 10     (* n: line feed *)
  else if c =? 114 then Some 13     (* r: carriage return *)
  else if c =? 116 then Some 9      (* t: tab *)
  else None.

(** The characters of a string after its opening quote, up to the closing
    quote. *)
Fixpoint parse_chars (s : jstring) : option (jstring * jstring) :=
  match s with
  | [] => None
  | c :: r =>
      if c =? 34 then Some ([], r)
      else if c =? 92 then
        match r with
        | [] => None
        | d :: r' =>
            if d =? 117 then
              match r' with
              | h1 :: h2 :: h3 :: h4 :: r'' =>
                  match hex_digit h1, hex_digit h2, hex_digit h3, hex_digit h4 with
                  | Some a, Some b, Some c', Some d' =>
                      match parse_chars r'' with
                      | Some (str, rest) =>
                          Some ((a * 4096 + b * 256 + c' * 16 + d') :: str, rest)
                      | None => None
                      end
                  | _, _, _, _ => None
                  end
              | _ => None
              end
            else
              match unescape d with
              | Some u =>
                  match parse_chars r' with
                  | Some (str, rest) => Some (u :: str, rest)
                  | None => None
                  end
              | None => None
              end
        end
      else if c <? 32 then None
      else
        match parse_chars r with
        | Some (str, rest) => Some (c :: str, rest)
        | None => None
        end
  end.

Fixpoint take_digits (s : jstring) : list N * jstring :=
  match s with
  | c :: r =>
      if is_digit c
      then let '(ds, rest) := take_digits r in (c - 48 :: ds, rest)
      else ([], s)
  | [] => ([], [])
  end.

Definition digits_value (ds : list N) : Z :=
  fold_left (fun acc d => acc * 10 + Z.of_N d)%Z ds 0%Z.

(** A number literal: an optional minus sign; then 0, or a digit from 1
    to 9 and any digits; then optionally a point and one digit or more;
    then optionally e or E, an optional sign and one digit or more. *)
Definition parse_sign (s : jstring) : bool * jstring :=
  match s with
  | c :: r => if c =? 45 then (true, r) else (false, s)
  | [] => (false, s)
  end.

Definition parse_int (s : jstring) : option (list N * jstring) :=
  match s with
  | c :: r =>
      if c =? 48 then Some ([0], r)
      else if is_digit c then Some (take_digits s)
      else None
  | [] => None
  end.

Definition parse_frac (s : jstring) : option (list N * jstring) :=
  match s with
  | c :: r =>
      if c =? 46
      then match take_digits r with
           | ([], _) => None
           | (fds, rest) => Some (fds, rest)
           end
      else Some ([], s)
  | [] => Some ([], s)
  end.

Definition parse_exp (s : jstring) : option (Z * jstring) :=
  match s with
  | c :: r =>
      if (c =? 101) || (c =? 69) then
        let '(eneg, r1) :=
          match r with
          | d :: r' =>
              if d =? 45 then (true, r')
              else if d =? 43 then (false, r')
              else (false, r)
          | [] => (false, r)
          end in
        match take_digits r1 with
        | ([], _) => None
        | (eds, rest) =>
            Some (if eneg then (- digits_value eds)%Z else digits_value eds, rest)
        end
      else Some (0%Z, s)
  | [] => Some (0%Z, s)
  end.

Definition parse_number (s : jstring) : option (jsval * jstring) :=
  let '(neg, s1) := parse_sign s in
  '(ids, s2) ← parse_int s1;
  '(fds, s3) ← parse_frac s2;
  '(ex, s4) ← parse_exp s3;
  let m := digits_value (ids ++ fds) in
  Some (JNum (if neg then (- m)%Z else m) (ex - Z.of_nat (length fds))%Z, s4).

Definition parse_literal (s : jstring) : option (jsval * jstring) :=
  match strip_prefix (lit "true") s with
  | Some r => Some (JBool true, r)
  | None =>
      match strip_prefix (lit "false") s with
      | Some r => Some (JBool false, r)
      | None =>
          match strip_prefix (lit "null") s with
          | Some r => Some (JNull, r)
          | None => None
          end
      end
  end.

(** The result of a parser that runs on fuel: a value and the rest of
    the text, a syntax error, or no answer for lack of fuel. *)
Inductive parsed :=
| Parsed (v : jsval) (rest : jstring)
| SyntaxError
| OutOfFuel.

Definition of_option (o : option (jsval * jstring)) : parsed :=
  match o with
  | Some (v, rest) => Parsed v rest
  | None => SyntaxError
  end.

(** A value, the elements of an array after its first bracket and the
    members of an object after its first brace.  Every call uses up one
    unit of [fuel]; a text of [n] code units never needs more than
    [2 * n + 1] ([parse_value_fuel] below). *)
Fixpoint parse_value (fuel : nat) (s : jstring) {struct fuel} : parsed :=
  match fuel with
  | O => OutOfFuel
  | S f =>
      match skip_ws s with
      | [] => SyntaxError
      | c :: r =>
          if c =? 123 then
            match skip_ws r with
            | d :: r' => if d =? 125 then Parsed (JObj []) r' else parse_members f r []
            | [] => SyntaxError
            end
          else if c =? 91 then
            match skip_ws r with
            | d :: r' => if d =? 93 then Parsed (JArr []) r' else parse_elements f r []
            | [] => SyntaxError
            end
          else if c =? 34 then
            match parse_chars r with
            | Some (str, rest) => Parsed (JStr str) rest
            | None => SyntaxError
            end
          else if (c =? 45) || is_digit c then of_option (parse_number (c :: r))
          else of_option (parse_literal (c :: r))
      end
  end
with parse_elements (fuel : nat) (s : jstring) (acc : list jsval) {struct fuel} : parsed :=
  match fuel with
  | O => OutOfFuel
  | S f =>
      match parse_value f s with
      | Parsed v rest =>
          match skip_ws rest with
          | c :: r =>
              if c =? 44 then parse_elements f r (acc ++ [v])
              else if c =? 93 then Parsed (JArr (acc ++ [v])) r
              else SyntaxError
          | [] => SyntaxError
          end
      | SyntaxError => SyntaxError
      | OutOfFuel => OutOfFuel
      end
  end
with parse_members (fuel : nat) (s : jstring) (acc : list (jstring * jsval)) {struct fuel}
  : parsed :=
  match fuel with
  | O => OutOfFuel
  | S f =>
      match skip_ws s with
      | c :: r =>
          if c =? 34 then
            match parse_chars r with
            | Some (k, rest) =>
                match skip_ws rest with
                | d :: r2 =>
                    if d =? 58 then
                      match parse_value f r2 with
                      | Parsed v rest2 =>
                          match skip_ws rest2 with
                          | e :: r3 =>
                              if e =? 44 then parse_members f r3 (acc ++ [(k, v)])
                              else if e =? 125 then Parsed (JObj (acc ++ [(k, v)])) r3
                              else SyntaxError
                          | [] => SyntaxError
                          end
                      | SyntaxError => SyntaxError
                      | OutOfFuel => OutOfFuel
                      end
                    else SyntaxError
                | [] => SyntaxError
                end
            | None => SyntaxError
            end
          else SyntaxError
      | [] => SyntaxError
      end
  end.

(** [JSON.parse(text)]: one value, white space around it, nothing else.
    [None] is the [SyntaxError] (the fuel given is enough for every text:
    [JSON_parse_total] below). *)
Definition JSON_parse (text : jstring) : option jsval :=
  match parse_value (2 * length text + 1) text with
  | Parsed v rest =>
      match skip_ws rest with
      | [] => Some v
      | _ :: _ => None
      end
  | SyntaxError | OutOfFuel => None
  end.

End Json.

(** ** Node: promises, the file system, child processes and timers *)

Module Node.
Import Js Json.

(** A promise settles once: [resolve] and [reject] on a settled promise
    do nothing.  A rejection carries the message of its [Error]. *)
Inductive promise :=
| Pending
| Resolved (v : jsval)
| Rejected (message : jstring).

Definition resolve (v : jsval) (p : promise) : promise :=
  match p with Pending => Resolved v | _ => p end.

Definition reject (message : jstring) (p : promise) : promise :=
  match p with Pending => Rejected message | _ => p end.

(** What a [close] listener decides to do with the promise. *)
Inductive outcome :=
| Resolve (v : jsval)
| Reject (message : jstring).

Definition settle (o : outcome) (p : promise) : promise :=
  match o with
  | Resolve v => resolve v p
  | Reject m => reject m p
  end.

(** What the process can observe and change outside itself.  The file
    system is the set of the paths that exist (the text of a file plays no
    role below); [spawned] lists the argument vectors of the [python3]
    processes spawned so far, [signals] the signals sent to them with
    [kill], [warnings] the lines of [console.warn]; [crashed] is set when
    an exception reaches the event loop uncaught, which ends the process. *)
Record world := World {
  paths : gset jstring;
  spawned : list (list jstring);
  signals : list jstring;
  warnings : list jstring;
  crashed : bool
}.

Definition set_paths (ps : gset jstring) (w : world) : world :=
  World ps (spawned w) (signals w) (warnings w) (crashed w).

Definition spawn (args : list jstring) (w : world) : world :=
  World (paths w) (spawned w ++ [args]) (signals w) (warnings w) (crashed w).

Definition kill (signal : jstring) (w : world) : world :=
  World (paths w) (spawned w) (signals w ++ [signal]) (warnings w) (crashed w).

Definition console_warn (line : jstring) (w : world) : world :=
  World (paths w) (spawned w) (signals w) (warnings w ++ [line]) (crashed w).

Definition uncaught (w : world) : world :=
  World (paths w) (spawned w) (signals w) (warnings w) true.

Definition existsSync (p : jstring) (w : world) : bool :=
  bool_decide (p ∈ paths w).

(** [path.join] and [path.dirname] of POSIX.  [path.join] joins the
    parts that are not empty with a slash and normalises the result: empty
    segments and [.] segments go, a [..] segment removes the segment
    before it (an absolute path never rises above the root, a relative
    one keeps the [..] it cannot resolve), and a trailing slash stays. *)
Fixpoint segments (p : jstring) : list jstring :=
  match p with
  | [] => [[]]
  | c :: p' =>
      if c =? 47 then [] :: segments p'
      else match segments p' with
           | seg :: rest => (c :: seg) :: rest
           | [] => [[c]]
           end
  end.

(** One step of the scan of [normalize]; [res] holds the segments kept
    so far, the last one first. *)
Definition normalize_step (allowAboveRoot : bool) (res : list jstring) (seg : jstring)
  : list jstring :=
  if eqs seg [] || eqs seg (lit ".") then res
  else if eqs seg (lit "..") then
    match res with
    | top :: below =>
        if eqs top (lit "..") then (if allowAboveRoot then seg :: res else res) else below
    | [] => if allowAboveRoot then [seg] else []
    end
  else seg :: res.

Fixpoint join_segments (segs : list jstring) : jstring :=
  match segs with
  | [] => []
  | [seg] => seg
  | seg :: rest => seg ++ lit "/" ++ join_segments rest
  end.

Definition path_normalize (p : jstring) : jstring :=
  match p with
  | [] => lit "."
  | c :: _ =>
      let isAbsolute := c =? 47 in
      let trailingSeparator := match last p with Some d => d =? 47 | None => false end in
      let body := join_segments
                    (rev (fold_left (normalize_step (negb isAbsolute)) (segments p) [])) in
      if eqs body [] then
        if isAbsolute then lit "/" else if trailingSeparator then lit "./" else lit "."
      else
        (if isAbsolute then lit "/" else []) ++ body
        ++ (if trailingSeparator then lit "/" else [])
  end.

Definition path_join (parts : list jstring) : jstring :=
  match filter (fun part => part ≠ []) parts with
  | [] => lit "."
  | joined => path_normalize (join_segments joined)
  end.

(** [path.dirname], on the paths [path.join] returns: no trailing slash
    and no repeated slash. *)
Fixpoint dir_part (p : jstring) : jstring :=
  match p with
  | [] => []
  | c :: p' => if includes p' (lit "/") then c :: dir_part p' else []
  end.

Definition path_dirname (p : jstring) : jstring :=
  match dir_part p with
  | [] => match p with
          | c :: _ => if c =? 47 then lit "/" else lit "."
          | [] => lit "."
          end
  | d => d
  end.

(** [fs.mkdirSync(p, { recursive: true })] creates the directory [p] and
    every directory on the way to it that is missing: [directories p]
    lists them, from [p] up to, and without, the root or the working
    directory. *)
Fixpoint directories_from (fuel : nat) (p : jstring) : list jstring :=
  if eqs p (lit "/") || eqs p (lit ".") then []
  else
    match fuel with
    | O => [p]
    | S fuel' => p :: directories_from fuel' (path_dirname p)
    end.

Definition directories (p : jstring) : list jstring := directories_from (length p) p.

Definition mkdirSync (p : jstring) (w : world) : world :=
  set_paths (list_to_set (directories p) ∪ paths w) w.

(** The root and the working directory exist in every world. *)
Definition has_directory (d : jstring) (w : world) : bool :=
  eqs d (lit "/") || eqs d (lit ".") || existsSync d w.

(** [fs.writeFileSync(p, data)] with a string for [data]: creates or
    replaces the file, or throws ([None]) with [ENOENT] when the directory
    of [p] does not exist. *)
Definition writeFileSync (p : jstring) (w : world) : option world :=
  if has_directory (path_dirname p) w then Some (set_paths ({[p]} ∪ paths w) w) else None.

Definition enoent_open (p : jstring) : jstring :=
  lit "ENOENT: no such file or directory, open '" ++ p ++ lit "'".

(** [fs.unlinkSync]: removes the path, or throws ([None]) when there is
    no such file. *)
Definition unlinkSync (p : jstring) (w : world) : option world :=
  if existsSync p w then Some (set_paths (paths w ∖ {[p]}) w) else None.

Definition enoent_unlink (p : jstring) : jstring :=
  lit "ENOENT: no such file or directory, unlink '" ++ p ++ lit "'".

(** What the configuration of the process fixes: [process.env] and
    [__dirname]. *)
Record config := Config {
  env : gmap jstring jstring;
  dirname : jstring
}.

(** [process.env.NAME || fallback]. *)
Definition env_or (cfg : config) (name fallback : jstring) : jstring :=
  match env cfg !! name with
  | Some v => if eqs v [] then fallback else v
  | None => fallback
  end.

(** What a spawned worker makes Node deliver.  [Stdout chunk] and
    [Stderr chunk] are [data] events: [chunk] is the text that
    [data.toString()] returns for the Buffer of the event, each Buffer
    being decoded on its own (the bytes, and a character that a chunk
    boundary cuts in two, are not modelled).  [Close None] is a close
    with code [null] (the worker was ended by a signal).  [Elapsed ms]
    is the moment [ms] milliseconds after the call, with the worker still
    running: a timer set for a delay of at most [ms] fires then, unless it
    fired before or was cleared.  What the worker itself does to the file
    system is no event; a world it has changed is given as such. *)
Inductive event :=
| Stdout (chunk : jstring)
| Stderr (chunk : jstring)
| Close (code : option Z)
| SpawnError (code message : jstring)
| Elapsed (ms : Z).

(** The events of a worker that is still running: output only. *)
Definition is_output (e : event) : bool :=
  match e with
  | Stdout _ | Stderr _ => true
  | _ => false
  end.

(** The state of one call of [analyzeTask] or [executeApprovedActions]:
    the world, the promise the call returned, and the variables its
    listeners close over.  [live] tells whether a process was spawned (so
    that there are listeners at all), [timer] whether a timeout is
    pending. *)
Record run := Run {
  rworld : world;
  rpromise : promise;
  live : bool;
  output : jstring;
  error : jstring;
  timer : bool;
  actionsFile : jstring
}.

(** A call that settled its promise without spawning. *)
Definition settled (w : world) (p : promise) : run :=
  Run w p false [] [] false [].

Definition with_world (w : world) (r : run) : run :=
  Run w (rpromise r) (live r) (output r) (error r) (timer r) (actionsFile r).

Definition with_promise (p : promise) (r : run) : run :=
  Run (rworld r) p (live r) (output r) (error r) (timer r) (actionsFile r).

Definition with_output (s : jstring) (r : run) : run :=
  Run (rworld r) (rpromise r) (live r) s (error r) (timer r) (actionsFile r).

Definition with_error (s : jstring) (r : run) : run :=
  Run (rworld r) (rpromise r) (live r) (output r) s (timer r) (actionsFile r).

Definition clearTimeout (r : run) : run :=
  Run (rworld r) (rpromise r) (live r) (output r) (error r) false (actionsFile r).

(** Events reach listeners only while there is a child process and the
    Node process itself is alive. *)
Definition listening (r : run) : bool :=
  live r && negb (crashed (rworld r)).

(** Request fields: [taskId] and [courseId] are strings, or absent
    ([None], read as [undefined]); the dashboard sends strings. *)
Definition falsy_field (f : option jstring) : bool :=
  match f with
  | None => true
  | Some s => eqs s []
  end.

(** A field inside a template literal. *)
Definition display (f : option jstring) : jstring :=
  match f with
  | None => lit "undefined"
  | Some s => s
  end.

(** [taskId === name]. *)
Definition field_is (f : option jstring) (name : jstring) : bool :=
  match f with
  | None => false
  | Some s => eqs s name
  end.

Record request := Request {
  taskId : option jstring;
  courseId : option jstring;
  userId : jsval;
  approvedActions : jsval
}.

(** A response: the status and the JSON body ([res.json], and
    [res.status(500).json]).  The [debug] property of an error body, which
    repeats the request and adds a time stamp, is left out. *)
Record response := Response {
  status : Z;
  body : jsval
}.

Definition field_value (f : option jstring) : jsval :=
  match f with
  | None => JUndefined
  | Some s => JStr s
  end.

(** [await] and the [try]/[catch] around it: the response, once the
    promise has settled. *)
Definition respond (ok : jsval -> response) (failed : jstring -> response) (r : run)
  : option response :=
  if crashed (rworld r) then None else
  match rpromise r with
  | Resolved v => Some (ok v)
  | Rejected m => Some (failed m)
  | Pending => None
  end.

End Node.

(** ** [qa-automation-lti.js] (Phase 2) *)

Module Phase2.
Import Js Json Node.

Record task := Task {
  name : jstring;
  description : jstring;
  category : jstring;
  mvp : bool
}.

Definition QA_TASKS : gmap jstring task :=
  {[ lit "find-duplicate-pages" :=
       Task (lit "Find and Remove Duplicate Pages")
            (lit "Identify and remove duplicate page content using Canvas API and content analysis")
            (lit "Content Management")
            true ]}.

Definition scriptPath (cfg : config) : jstring :=
  path_join [dirname cfg; lit "scripts"; lit "duplicate_page_cleaner.py"].

(** *** The [close] listener of [analyzeTask]: exit code 0 *)

(** [/ENHANCED_ANALYSIS_JSON:\s*(.+)/] *)
Definition enhanced_re : regex :=
  RCat (RLit (lit "ENHANCED_ANALYSIS_JSON:")) (RCat (RStar cls_space) (RGroup (RPlus cls_dot))).

(** [/JSON_OUTPUT:\s*(.+)/] *)
Definition regular_re : regex :=
  RCat (RLit (lit "JSON_OUTPUT:")) (RCat (RStar cls_space) (RGroup (RPlus cls_dot))).

(** [/\{[\s\S]*\}/] *)
Definition jsonPattern : regex :=
  RCat (RLit (lit "{")) to_last_close.

(** The object strategy 1 resolves with.  Reading a property of
    [analysisResults] throws when the document is [null]; the [catch]
    around strategy 1 takes that like a parse error. *)
Definition enhanced_result (analysisResults : jsval) : option jsval :=
  risk_assessment ← get analysisResults (lit "risk_assessment");
  findings ← get analysisResults (lit "findings");
  let safe_actions := or_else (get_opt findings (lit "safe_actions")) (JArr []) in
  let requires_manual_review :=
    or_else (get_opt findings (lit "requires_manual_review")) (JArr []) in
  safe_actions_count ← get safe_actions (lit "length");
  manual_review_count ← get requires_manual_review (lit "length");
  Some (JObj [
    (lit "phase", num 2);
    (lit "mode", JStr (lit "preview_first"));
    (lit "analyzed_only", JBool true);
    (lit "executed", JBool false);
    (lit "findings", analysisResults);
    (lit "user_approval_required", JBool true);
    (lit "risk_assessment", risk_assessment);
    (lit "safe_actions", safe_actions);
    (lit "requires_manual_review", requires_manual_review);
    (lit "inbound_links_checked", JBool true);
    (lit "next_steps", JObj [
      (lit "safe_actions_count", safe_actions_count);
      (lit "manual_review_count", manual_review_count);
      (lit "can_proceed_with_safe_actions", JBool (gt0 safe_actions_count))])]).

Definition fallback_result (fallbackResults : jsval) : jsval :=
  JObj [
    (lit "phase", num 2);
    (lit "mode", JStr (lit "preview_first"));
    (lit "analyzed_only", JBool true);
    (lit "executed", JBool false);
    (lit "findings", fallbackResults);
    (lit "user_approval_required", JBool true);
    (lit "fallback_mode", JBool true)].

Definition extracted_result (extractedResults : jsval) : jsval :=
  JObj [
    (lit "phase", num 2);
    (lit "mode", JStr (lit "preview_first"));
    (lit "analyzed_only", JBool true);
    (lit "executed", JBool false);
    (lit "findings", extractedResults);
    (lit "user_approval_required", JBool true);
    (lit "extracted_mode", JBool true)].

Definition parsing_error_result (output : jstring) : jsval :=
  JObj [
    (lit "phase", num 2);
    (lit "mode", JStr (lit "preview_first"));
    (lit "analyzed_only", JBool true);
    (lit "executed", JBool false);
    (lit "findings", JObj [
      (lit "message", JStr (lit "Analysis completed but results parsing failed"));
      (lit "raw_output", JStr (substring0 1000 output))]);
    (lit "user_approval_required", JBool false);
    (lit "parsing_error", JBool true)].

(** Each strategy gives the value to resolve with, or [None] when the
    code goes on to the next one. *)
Definition strategy1 (output : jstring) : option jsval :=
  enhancedMatch ← re_match enhanced_re output;
  analysisResults ← JSON_parse (group1 enhancedMatch);
  enhanced_result analysisResults.

Definition strategy2 (output : jstring) : option jsval :=
  regularMatch ← re_match regular_re output;
  fallbackResults ← JSON_parse (group1 regularMatch);
  Some (fallback_result fallbackResults).

Definition strategy3 (output : jstring) : option jsval :=
  jsonMatch ← re_match jsonPattern output;
  extractedResults ← JSON_parse (fst jsonMatch);
  Some (extracted_result extractedResults).

Definition success_indicator (output : jstring) : bool :=
  includes output (lit "Enhanced analysis complete")
  || includes output (lit "Found")
  || includes output (lit "analysis")
  || includes output (0x2705 :: lit " Phase 2 Enhanced Analysis completed")
  || includes output (lit "Analysis and cleanup completed").

Definition strategy4 (output : jstring) : option jsval :=
  if success_indicator output then Some (parsing_error_result output) else None.

(** The branch [code === 0].  Nothing outside the inner [try] blocks can
    throw, so the outer [catch] is never entered. *)
Definition extract (output : jstring) : outcome :=
  match strategy1 output with
  | Some v => Resolve v
  | None =>
  match strategy2 output with
  | Some v => Resolve v
  | None =>
  match strategy3 output with
  | Some v => Resolve v
  | None =>
  match strategy4 output with
  | Some v => Resolve v
  | None =>
      Reject (lit "Analysis completed but no recognizable results were found. Raw output: "
              ++ substring0 500 output)
  end end end end.

(** *** The [close] listener of [analyzeTask]: any other exit code *)

(** The branches of the [if] chain that builds [errorMessage]. *)
Inductive error_class :=
| MissingPackage (module : option jstring)
| AuthenticationFailed
| AccessForbidden
| NotFound
| NetworkTimeout
| ImportError
| ScriptError (excerpt : jstring)
| ExitCode (code : option Z).

(** [/No module named '([^']+)'/] *)
Definition missingModule_re : regex :=
  RCat (RLit (lit "No module named '")) (RCat (RGroup (RPlus cls_not_quote)) (RLit (lit "'"))).

Definition classify (code : option Z) (error : jstring) : error_class :=
  if includes error (lit "ModuleNotFoundError") then
    MissingPackage (group1 <$> re_match missingModule_re error)
  else if includes error (lit "401") || includes error (lit "Unauthorized") then
    AuthenticationFailed
  else if includes error (lit "403") || includes error (lit "Forbidden") then
    AccessForbidden
  else if includes error (lit "404") then
    NotFound
  else if includes error (lit "timeout") || includes error (lit "ConnectionError") then
    NetworkTimeout
  else if includes error (lit "ImportError") then
    ImportError
  else if negb (eqs error []) then
    ScriptError (substring0 200 error)
  else
    ExitCode code.

Definition code_text (code : option Z) : jstring :=
  match code with
  | Some z => of_Z z
  | None => lit "null"
  end.

Definition message_of (c : error_class) : jstring :=
  match c with
  | MissingPackage (Some m) =>
      lit "Missing Python package: " ++ m ++ lit ". Please install it with: pip3 install " ++ m
  | MissingPackage None =>
      lit "Missing Python packages. Please install required dependencies."
  | AuthenticationFailed =>
      lit "Canvas API authentication failed. Please check your API token."
  | AccessForbidden =>
      lit "Canvas API access forbidden. Please check your API token permissions."
  | NotFound =>
      lit "Course not found or API endpoint invalid. Please check the course ID."
  | NetworkTimeout =>
      lit "Network timeout connecting to Canvas. Please try again."
  | ImportError =>
      lit "Python script import error. Please check script dependencies."
  | ScriptError excerpt => lit "Python script error: " ++ excerpt
  | ExitCode code => lit "Analysis failed with exit code " ++ code_text code
  end.

Definition errorMessage (code : option Z) (error : jstring) : jstring :=
  message_of (classify code error).

(** *** [analyzeTask] *)

Definition timeoutMs : Z := 300000.

Definition analysis_timeout_message : jstring :=
  lit "Analysis timed out after 5 minutes. This may indicate a network issue or large course size.".

(** The call itself: validation, then the timer and the child process. *)
Definition analyzeTask (cfg : config) (taskId courseId : option jstring) (userId : jsval)
    (w : world) : run :=
  if field_is taskId (lit "find-duplicate-pages") then
    let canvasUrl := env_or cfg (lit "CANVAS_URL") (lit "aculeo.test.instructure.com") in
    let apiToken := env_or cfg (lit "CANVAS_API_TOKEN") [] in
    if eqs apiToken [] then
      settled w (Rejected (lit
        "Canvas API token not configured. Please set CANVAS_API_TOKEN in your environment."))
    else if eqs canvasUrl [] then
      settled w (Rejected (lit
        "Canvas URL not configured. Please set CANVAS_URL in your environment."))
    else if negb (existsSync (scriptPath cfg) w) then
      settled w (Rejected (lit "Python script not found at: " ++ scriptPath cfg))
    else
      let args := [
        scriptPath cfg;
        lit "--canvas-url"; canvasUrl;
        lit "--api-token"; apiToken;
        lit "--course-id"; display courseId;
        lit "--similarity-threshold"; lit "0.9";
        lit "--analyze-only"] in
      Run (spawn args w) Pending true [] [] true []
  else
    settled w (Rejected (lit "Unknown task: " ++ display taskId)).

(** The listeners of [analyzeTask] and its timeout callback, which runs
    once, [timeoutMs] after the call, unless [clearTimeout] came first. *)
Definition analyze_on (r : run) (e : event) : run :=
  if negb (listening r) then r else
  match e with
  | Stdout chunk => with_output (output r ++ chunk) r
  | Stderr chunk => with_error (error r ++ chunk) r
  | Elapsed ms =>
      if timer r && (timeoutMs <=? ms)%Z then
        clearTimeout
          (with_promise (reject analysis_timeout_message (rpromise r))
             (with_world (kill (lit "SIGTERM") (rworld r)) r))
      else r
  | Close code =>
      let r := clearTimeout r in
      match code with
      | Some 0%Z => with_promise (settle (extract (output r)) (rpromise r)) r
      | _ => with_promise (reject (errorMessage code (error r)) (rpromise r)) r
      end
  | SpawnError code message =>
      let r := clearTimeout r in
      if eqs code (lit "ENOENT") then
        with_promise (reject (dq
          "Python3 not found. Please ensure Python 3 is installed and accessible via 'python3' command.")
          (rpromise r)) r
      else
        with_promise (reject (lit "Failed to start analysis process: " ++ message) (rpromise r)) r
  end.

(** *** [executeApprovedActions] *)

(** [/EXECUTION_RESULTS_JSON: (.+)/] *)
Definition execution_re : regex :=
  RCat (RLit (lit "EXECUTION_RESULTS_JSON: ")) (RGroup (RPlus cls_dot)).

Definition invalid_data_message : jstring :=
  dq "The 'data' argument must be of type string or an instance of Buffer, TypedArray, or DataView. Received undefined".

(** The object the [try] block resolves with; a property read on [null]
    throws ([None]) and the [catch] takes over. *)
Definition execution_result (approvedActions executionResults : jsval) : option jsval :=
  actions_requested ← get approvedActions (lit "length");
  successful_deletions ← get executionResults (lit "successful_deletions");
  failed_deletions ← get executionResults (lit "failed_deletions");
  Some (JObj [
    (lit "phase", num 2);
    (lit "mode", JStr (lit "execution_complete"));
    (lit "executed", JBool true);
    (lit "results", executionResults);
    (lit "summary", JObj [
      (lit "actions_requested", actions_requested);
      (lit "actions_completed", or_else (get_opt successful_deletions (lit "length")) (num 0));
      (lit "actions_failed", or_else (get_opt failed_deletions (lit "length")) (num 0))])]).

Definition execution_completed (output : jstring) : jsval :=
  JObj [
    (lit "phase", num 2);
    (lit "mode", JStr (lit "execution_complete"));
    (lit "executed", JBool true);
    (lit "message", JStr (lit "Execution completed"));
    (lit "output", JStr output)].

(** What the [close] listener does with the promise, after the clean-up. *)
Definition execution_outcome (approvedActions : jsval) (code : option Z)
    (output error : jstring) : outcome :=
  match code with
  | Some 0%Z =>
      match re_match execution_re output with
      | Some jsonMatch =>
          match JSON_parse (group1 jsonMatch) ≫= execution_result approvedActions with
          | Some v => Resolve v
          | None => Resolve (execution_completed output)
          end
      | None => Resolve (execution_completed output)
      end
  | _ => Reject (lit "Execution failed: " ++ error)
  end.

(** The call itself.  [now] is the value of [Date.now()].
    [JSON.stringify(undefined)] is [undefined], which [writeFileSync]
    refuses with a [TypeError] before it opens the file; that exception
    and the [ENOENT] of a missing directory are thrown inside the promise
    executor, and so reject the promise. *)
Definition executeApprovedActions (cfg : config) (now : Z) (taskId courseId : option jstring)
    (userId approvedActions : jsval) (w : world) : run :=
  if field_is taskId (lit "find-duplicate-pages") then
    let canvasUrl := env_or cfg (lit "CANVAS_URL") (lit "aculeo.test.instructure.com") in
    let apiToken := env_or cfg (lit "CANVAS_API_TOKEN") [] in
    if eqs apiToken [] then
      settled w (Rejected (lit "Canvas API token not configured"))
    else
      let actionsFile := path_join [dirname cfg; lit "temp";
        lit "approved_actions_" ++ display courseId ++ lit "_" ++ of_Z now ++ lit ".json"] in
      let tempDir := path_dirname actionsFile in
      let w := if existsSync tempDir w then w else mkdirSync tempDir w in
      match approvedActions with
      | JUndefined => settled w (Rejected invalid_data_message)
      | _ =>
          match writeFileSync actionsFile w with
          | None => settled w (Rejected (enoent_open actionsFile))
          | Some w =>
              let args := [
                scriptPath cfg;
                lit "--canvas-url"; canvasUrl;
                lit "--api-token"; apiToken;
                lit "--course-id"; display courseId;
                lit "--execute-approved"; actionsFile] in
              Run (spawn args w) Pending true [] [] false actionsFile
          end
      end
  else
    settled w (Rejected (lit "Unknown task: " ++ display taskId)).

(** The listeners of [executeApprovedActions]: [data] on both streams
    and [close].  No timeout is set, and there is no [error] listener: an
    [error] event without a listener is thrown, and nothing catches it. *)
Definition execute_on (approvedActions : jsval) (r : run) (e : event) : run :=
  if negb (listening r) then r else
  match e with
  | Stdout chunk => with_output (output r ++ chunk) r
  | Stderr chunk => with_error (error r ++ chunk) r
  | Elapsed ms => r
  | Close code =>
      let w :=
        match unlinkSync (actionsFile r) (rworld r) with
        | Some w' => w'
        | None =>
            console_warn (lit "Could not clean up temp file: " ++ enoent_unlink (actionsFile r))
              (rworld r)
        end in
      with_promise
        (settle (execution_outcome approvedActions code (output r) (error r)) (rpromise r))
        (with_world w r)
  | SpawnError code message => with_world (uncaught (rworld r)) r
  end.

(** *** The request handlers *)

Definition analysis_failed (message : jstring) : response :=
  Response 500 (JObj [
    (lit "success", JBool false);
    (lit "error", JStr message);
    (lit "phase", num 2)]).

(** [POST /execute].  [events] is what the worker does, if one is
    spawned. *)
Definition post_execute (cfg : config) (req : request) (events : list event) (w : world)
  : world * option response :=
  if falsy_field (taskId req) then (w, Some (analysis_failed (lit "Task ID is required")))
  else if falsy_field (courseId req) then (w, Some (analysis_failed (lit "Course ID is required")))
  else
    let r := fold_left analyze_on events (analyzeTask cfg (taskId req) (courseId req) (userId req) w) in
    (rworld r,
     respond
       (fun analysisResult => Response 200 (JObj [
          (lit "success", JBool true);
          (lit "phase", num 2);
          (lit "mode", JStr (lit "preview_first"));
          (lit "taskId", field_value (taskId req));
          (lit "result", analysisResult)]))
       analysis_failed r).

(** [POST /execute-approved]. *)
Definition post_execute_approved (cfg : config) (now : Z) (req : request)
    (events : list event) (w : world) : world * option response :=
  let r := fold_left (execute_on (approvedActions req)) events
             (executeApprovedActions cfg now (taskId req) (courseId req) (userId req)
                (approvedActions req) w) in
  (rworld r,
   respond
     (fun result => Response 200 (JObj [
        (lit "success", JBool true);
        (lit "phase", num 2);
        (lit "mode", JStr (lit "execute_approved"));
        (lit "taskId", field_value (taskId req));
        (lit "result", result)]))
     (fun message => Response 200 (JObj [
        (lit "success", JBool false);
        (lit "error", JStr message)]))
     r).

End Phase2.

(** ** The revision "Definitive V3" *)

Module V3.
Import Js Json Node.

Record task := Task {
  name : jstring;
  description : jstring;
  category : jstring;
  script : jstring
}.

Definition QA_TASKS : gmap jstring task :=
  list_to_map [
    (lit "find-duplicate-pages",
     Task (lit "Find and Remove Duplicate Pages")
          (lit "Scans for duplicate pages, prioritizing safety by checking for inbound links before recommending actions.")
          (lit "Content Management") (lit "duplicate_page_cleaner.py"));
    (lit "validate-assignment-settings",
     Task (lit "Validate Assignment Settings")
          (lit "Checks assignments for common QA issues like incorrect points, grading types, and confusing dates.")
          (lit "Assessment") (lit "assignment_settings_validator.py"));
    (lit "title-alignment-checker",
     Task (lit "Title Alignment Checker")
          (lit "Analyzes course modules for consistency between syllabus schedule and module titles, enforcing stylistic rules and validating welcome messages.")
          (lit "Content Management") (lit "title_alignment_checker.py"));
    (lit "assessment-date-updater",
     Task (lit "Assessment Date Updater")
          (lit "Replaces hard-coded dates in assessment reminder wells with week-based deadlines for consistency.")
          (lit "Content Management") (lit "assessment_date_updater.py"));
    (lit "table-caption-checker",
     Task (lit "Table Caption Checker")
          (lit "Checks table captions for compliance with ACU Online Design Library standards, ensuring proper styling and accessibility.")
          (lit "Media") (lit "table_caption_checker.py"));
    (lit "remove-empty-groups-modules",
     Task (lit "Remove Empty Groups & Modules")
          (lit "Identifies empty assignment groups and modules; preview safe deletions and execute only approved items.")
          (lit "Cleanup") (lit "empty_groups_modules_cleaner.py"));
    (lit "rubric-cleanup",
     Task (lit "Rubric Cleanup")
          (lit "Identifies unnecessary or unused rubrics and stages safe deletions for approval.")
          (lit "Assessment") (lit "rubric_cleanup_analyzer.py"));
    (lit "syllabus-acuo-attribution-remover",
     Task (lit "Remove Syllabus ACUO Attribution")
          (dq "Finds and safely removes '(ACU Online, YYYY)' attributions from the course syllabus with preview and approval.")
          (lit "Syllabus") (lit "syllabus_acuo_attribution_remover.py"))].

(** [QA_TASKS[taskId]?.script]; an absent [taskId] reads the key
    [undefined]. *)
Definition scriptName (taskId : option jstring) : option jstring :=
  script <$> QA_TASKS !! display taskId.

(** [canvasUrl.replace(/^https?:\/\//, '')] *)
Definition strip_scheme (canvasUrl : jstring) : jstring :=
  match strip_prefix (lit "http://") canvasUrl with
  | Some rest => rest
  | None =>
      match strip_prefix (lit "https://") canvasUrl with
      | Some rest => rest
      | None => canvasUrl
      end
  end.

(** [/ENHANCED_ANALYSIS_JSON:\s*(\{[\s\S]*\})/] *)
Definition analysis_re : regex :=
  RCat (RLit (lit "ENHANCED_ANALYSIS_JSON:"))
    (RCat (RStar cls_space)
       (RGroup (RCat (RLit (lit "{")) (RCat (RStar cls_any) (RLit (lit "}")))))).

(** [/EXECUTION_RESULTS_JSON:\s*(\{[\s\S]*\})/] *)
Definition execution_re : regex :=
  RCat (RLit (lit "EXECUTION_RESULTS_JSON:"))
    (RCat (RStar cls_space)
       (RGroup (RCat (RLit (lit "{")) (RCat (RStar cls_any) (RLit (lit "}")))))).

(** The message of the [SyntaxError] of [JSON.parse]; the wording of the
    engine is not modelled. *)
Definition syntax_error_message : jstring := lit "Unexpected token in JSON".

(** The branch [code === 0] of [analyzeTask]. *)
Definition extract (output : jstring) : outcome :=
  match re_match analysis_re output with
  | Some jsonMatch =>
      match JSON_parse (group1 jsonMatch) with
      | Some v => Resolve v
      | None => Reject (lit "Analysis completed but result processing failed.")
      end
  | None =>
      Reject (lit "Analysis completed, but no recognizable results were found in the output. Raw output: "
              ++ output)
  end.

Inductive error_class :=
| MissingPackage (module : option jstring)
| AuthenticationFailed
| AccessForbidden
| NotFound
| ScriptError (excerpt : jstring)
| ExitCode (code : option Z).

Definition classify (code : option Z) (error : jstring) : error_class :=
  if includes error (lit "ModuleNotFoundError") then
    MissingPackage (group1 <$> re_match Phase2.missingModule_re error)
  else if includes error (lit "401") || includes error (lit "Unauthorized") then
    AuthenticationFailed
  else if includes error (lit "403") || includes error (lit "Forbidden") then
    AccessForbidden
  else if includes error (lit "404") then
    NotFound
  else if negb (eqs error []) then
    ScriptError (substring0 300 error)
  else
    ExitCode code.

Definition message_of (c : error_class) : jstring :=
  match c with
  | MissingPackage (Some m) =>
      lit "Missing Python package: " ++ m ++ lit ". Please run: pip install " ++ m
  | MissingPackage None => lit "Missing Python dependencies."
  | AuthenticationFailed =>
      lit "Canvas API authentication failed (401). Please check your API token."
  | AccessForbidden =>
      lit "Canvas API access forbidden (403). Please check your API token permissions."
  | NotFound =>
      lit "Course not found or API endpoint invalid (404). Please check the course ID."
  | ScriptError excerpt => lit "The script encountered an error: " ++ excerpt ++ lit "..."
  | ExitCode code =>
      lit "Analysis script failed with exit code " ++ Phase2.code_text code ++ lit "."
  end.

Definition errorMessage (code : option Z) (error : jstring) : jstring :=
  message_of (classify code error).

Definition timeoutMs : Z := 300000.

Definition analysis_timeout_message : jstring :=
  lit "Analysis timed out after 5 minutes. This may indicate a large course or network issue.".

Definition analyzeTask (cfg : config) (taskId courseId : option jstring) (userId : jsval)
    (w : world) : run :=
  match scriptName taskId with
  | None => settled w (Rejected (lit "Unknown or misconfigured task: " ++ display taskId))
  | Some scriptName =>
      if eqs scriptName [] then
        settled w (Rejected (lit "Unknown or misconfigured task: " ++ display taskId))
      else
      let scriptPath := path_join [dirname cfg; lit "scripts"; scriptName] in
      let canvasUrl := env_or cfg (lit "CANVAS_URL") (lit "aculeo.test.instructure.com") in
      let apiToken := env_or cfg (lit "CANVAS_API_TOKEN") [] in
      if eqs apiToken [] then
        settled w (Rejected (lit "Canvas API token not configured in environment."))
      else if negb (existsSync scriptPath w) then
        settled w (Rejected (lit "Required script not found at: " ++ scriptPath))
      else
        let args := [
          scriptPath;
          lit "--canvas-url"; strip_scheme canvasUrl;
          lit "--api-token"; apiToken;
          lit "--course-id"; display courseId;
          lit "--analyze-only"] in
        Run (spawn args w) Pending true [] [] true []
  end.

Definition analyze_on (r : run) (e : event) : run :=
  if negb (listening r) then r else
  match e with
  | Stdout data => with_output (output r ++ data) r
  | Stderr data => with_error (error r ++ data) r
  | Elapsed ms =>
      if timer r && (timeoutMs <=? ms)%Z then
        clearTimeout
          (with_promise (reject analysis_timeout_message (rpromise r))
             (with_world (kill (lit "SIGTERM") (rworld r)) r))
      else r
  | Close code =>
      let r := clearTimeout r in
      match code with
      | Some 0%Z => with_promise (settle (extract (output r)) (rpromise r)) r
      | _ => with_promise (reject (errorMessage code (error r)) (rpromise r)) r
      end
  | SpawnError code message =>
      let r := clearTimeout r in
      if eqs code (lit "ENOENT") then
        with_promise (reject
          (lit "Python 3 not found. Please ensure " ++ dq "'python3'"
           ++ lit " is in your system's PATH.") (rpromise r)) r
      else
        with_promise
          (reject (lit "Failed to start the analysis process: " ++ message) (rpromise r)) r
  end.

(** *** [executeApprovedActions] *)

Definition no_structured_results (output : jstring) : jsval :=
  JObj [
    (lit "summary", JObj [(lit "successful", num 0); (lit "failed", num 0)]);
    (lit "message", JStr (lit "Execution ran but did not return structured results."));
    (lit "raw_output", JStr (substring0 500 output))].

Definition execution_outcome (code : option Z) (output error : jstring) : outcome :=
  match code with
  | Some 0%Z =>
      match re_match execution_re output with
      | Some jsonMatch =>
          match JSON_parse (group1 jsonMatch) with
          | Some parsedResult => Resolve parsedResult
          | None =>
              Reject (lit "Execution completed, but failed to parse results: "
                      ++ syntax_error_message)
          end
      | None => Resolve (no_structured_results output)
      end
  | _ =>
      Reject (lit "Execution script failed: "
              ++ (if eqs error [] then lit "Unknown error" else error))
  end.

Definition executeApprovedActions (cfg : config) (now : Z) (taskId courseId : option jstring)
    (userId approvedActions : jsval) (w : world) : run :=
  match scriptName taskId with
  | None => settled w (Rejected (lit "Misconfigured task: " ++ display taskId))
  | Some scriptName =>
      if eqs scriptName [] then
        settled w (Rejected (lit "Misconfigured task: " ++ display taskId))
      else
      let scriptPath := path_join [dirname cfg; lit "scripts"; scriptName] in
      let canvasUrl := env_or cfg (lit "CANVAS_URL") (lit "aculeo.test.instructure.com") in
      let apiToken := env_or cfg (lit "CANVAS_API_TOKEN") [] in
      if eqs apiToken [] then
        settled w (Rejected (lit "Canvas API token not configured."))
      else
        let tempDir := path_join [dirname cfg; lit "temp"] in
        let w := if existsSync tempDir w then w else mkdirSync tempDir w in
        let actionsFile := path_join [tempDir;
          lit "approved_actions_" ++ display courseId ++ lit "_" ++ of_Z now ++ lit ".json"] in
        match approvedActions with
        | JUndefined => settled w (Rejected Phase2.invalid_data_message)
        | _ =>
            match writeFileSync actionsFile w with
            | None => settled w (Rejected (enoent_open actionsFile))
            | Some w =>
                let args := [
                  scriptPath;
                  lit "--canvas-url"; strip_scheme canvasUrl;
                  lit "--api-token"; apiToken;
                  lit "--course-id"; display courseId;
                  lit "--execute-from-json"; actionsFile] in
                Run (spawn args w) Pending true [] [] false actionsFile
            end
        end
  end.

(** The listeners of [executeApprovedActions].  [unlinkSync] is not
    guarded here: when it throws, the exception leaves the listener
    uncaught. *)
Definition execute_on (r : run) (e : event) : run :=
  if negb (listening r) then r else
  match e with
  | Stdout data => with_output (output r ++ data) r
  | Stderr data => with_error (error r ++ data) r
  | Elapsed ms => r
  | Close code =>
      match unlinkSync (actionsFile r) (rworld r) with
      | Some w =>
          with_promise (settle (execution_outcome code (output r) (error r)) (rpromise r))
            (with_world w r)
      | None => with_world (uncaught (rworld r)) r
      end
  | SpawnError code message => with_world (uncaught (rworld r)) r
  end.

(** *** The request handlers *)

Definition failed (message : jstring) : response :=
  Response 500 (JObj [(lit "success", JBool false); (lit "error", JStr message)]).

Definition analysis_failed (message : jstring) : response :=
  Response 500 (JObj [
    (lit "success", JBool false);
    (lit "error", JStr message);
    (lit "phase", num 3)]).

Definition post_execute (cfg : config) (req : request) (events : list event) (w : world)
  : world * option response :=
  if falsy_field (taskId req) || falsy_field (courseId req) then
    (w, Some (analysis_failed (lit "Task ID and Course ID are required.")))
  else
    let r := fold_left analyze_on events (analyzeTask cfg (taskId req) (courseId req) (userId req) w) in
    (rworld r,
     respond
       (fun analysisResult => Response 200 (JObj [
          (lit "success", JBool true);
          (lit "phase", num 3);
          (lit "mode", JStr (lit "preview_first"));
          (lit "taskId", field_value (taskId req));
          (lit "result", analysisResult)]))
       analysis_failed r).

(** [POST /execute-approved].  The first statement of the [try] block
    logs [approvedActions.length], which throws on [undefined] and
    [null]. *)
Definition post_execute_approved (cfg : config) (now : Z) (req : request)
    (events : list event) (w : world) : world * option response :=
  match get (approvedActions req) (lit "length") with
  | None =>
      (w, Some (failed (lit "Cannot read properties of "
                        ++ (match approvedActions req with
                            | JNull => lit "null"
                            | _ => lit "undefined"
                            end)
                        ++ lit " (reading 'length')")))
  | Some len =>
      if falsy_field (taskId req) || falsy_field (courseId req)
         || negb (is_array (approvedActions req)) then
        (w, Some (failed (lit "Task ID, Course ID, and a valid actions array are required.")))
      else if is_zero len then
        (w, Some (Response 200 (JObj [
               (lit "success", JBool true);
               (lit "message", JStr (lit "No actions were selected for execution."))])))
      else
        let r := fold_left execute_on events
                   (executeApprovedActions cfg now (taskId req) (courseId req) (userId req)
                      (approvedActions req) w) in
        (rworld r,
         respond
           (fun result => Response 200 (JObj [
              (lit "success", JBool true);
              (lit "phase", num 3);
              (lit "mode", JStr (lit "execute_approved"));
              (lit "taskId", field_value (taskId req));
              (lit "result", result)]))
           failed r)
  end.

End V3.

(** ** The wording of the specification, where a claim is compared
       with the code *)

Module Spec.
Import Js Json Node.



(** The error taxonomy of the classifier, and the classifier as the
    specification words it: five patterns in priority order, else a
    generic error with the first [n] code units of stderr. *)
Inductive error_kind :=
| MissingDependency (name : option jstring)
| AuthenticationFailure
| PermissionDenied
| NotFound
| NetworkTimeout
| GenericWorkerError (excerpt : jstring).

Definition classify (n : nat) (stderrText : jstring) : error_kind :=
  if includes stderrText (lit "ModuleNotFoundError") then
    MissingDependency (group1 <$> re_match Phase2.missingModule_re stderrText)
  else if includes stderrText (lit "401") || includes stderrText (lit "Unauthorized") then
    AuthenticationFailure
  else if includes stderrText (lit "403") || includes stderrText (lit "Forbidden") then
    PermissionDenied
  else if includes stderrText (lit "404") then
    NotFound
  else if includes stderrText (lit "timeout") || includes stderrText (lit "ConnectionError") then
    NetworkTimeout
  else
    GenericWorkerError (substring0 n stderrText).

(** The classifier as the amended wording has it: after the missing
    module, a list of rules in priority order, each a set of texts to
    look for in stderr and the message that answers them; the first rule
    with a text that stderr holds decides. *)
Definition rule : Type := list jstring * jstring.

Definition phase2_rules : list rule := [
  ([lit "401"; lit "Unauthorized"],
   lit "Canvas API authentication failed. Please check your API token.");
  ([lit "403"; lit "Forbidden"],
   lit "Canvas API access forbidden. Please check your API token permissions.");
  ([lit "404"],
   lit "Course not found or API endpoint invalid. Please check the course ID.");
  ([lit "timeout"; lit "ConnectionError"],
   lit "Network timeout connecting to Canvas. Please try again.");
  ([lit "ImportError"],
   lit "Python script import error. Please check script dependencies.")].

Definition v3_rules : list rule := [
  ([lit "401"; lit "Unauthorized"],
   lit "Canvas API authentication failed (401). Please check your API token.");
  ([lit "403"; lit "Forbidden"],
   lit "Canvas API access forbidden (403). Please check your API token permissions.");
  ([lit "404"],
   lit "Course not found or API endpoint invalid (404). Please check the course ID.")].

Definition first_rule (rules : list rule) (stderrText : jstring) : option jstring :=
  snd <$> List.find (fun r : rule => existsb (includes stderrText) (fst r)) rules.

(** An exit code inside a message: its decimal digits, or [null] when
    the worker was ended by a signal. *)
Definition exit_code_text (code : option Z) : jstring :=
  match code with
  | Some z => of_Z z
  | None => lit "null"
  end.

(** The kind each branch of the code stands for.  The two branches with
    a fixed message are generic errors that carry nothing of stderr. *)
Definition kind_of_phase2 (c : Phase2.error_class) : error_kind :=
  match c with
  | Phase2.MissingPackage m => MissingDependency m
  | Phase2.AuthenticationFailed => AuthenticationFailure
  | Phase2.AccessForbidden => PermissionDenied
  | Phase2.NotFound => NotFound
  | Phase2.NetworkTimeout => NetworkTimeout
  | Phase2.ImportError => GenericWorkerError []
  | Phase2.ScriptError excerpt => GenericWorkerError excerpt
  | Phase2.ExitCode _ => GenericWorkerError []
  end.

Definition kind_of_v3 (c : V3.error_class) : error_kind :=
  match c with
  | V3.MissingPackage m => MissingDependency m
  | V3.AuthenticationFailed => AuthenticationFailure
  | V3.AccessForbidden => PermissionDenied
  | V3.NotFound => NotFound
  | V3.ScriptError excerpt => GenericWorkerError excerpt
  | V3.ExitCode _ => GenericWorkerError []
  end.

End Spec.

(** ** Concrete configurations, requests and worker outputs *)

Module Examples.
Import Js Json Node.

(** A process with the credential set and the worker script in place. *)
Definition cfg : config :=
  Config (<[ lit "CANVAS_API_TOKEN" := lit "secret" ]> ∅) (lit "/app").

Definition world0 : world :=
  World {[ lit "/app/scripts/duplicate_page_cleaner.py" ]} [] [] [] false.

Definition now : Z := 1700000000000.

Definition artifact : jstring :=
  lit "/app/temp/approved_actions_101_1700000000000.json".

Definition one_action : jsval :=
  JArr [JObj [(lit "id", num 1); (lit "reason", JStr (lit "r"))]].

Definition approve (actions : jsval) : request :=
  Request (Some (lit "find-duplicate-pages")) (Some (lit "101")) JUndefined actions.

(** An analyze-mode call of the Phase 2 revision, just after the worker
    was spawned. *)
Definition phase2_analyze_start : run :=
  Phase2.analyzeTask cfg (Some (lit "find-duplicate-pages")) (Some (lit "101")) JUndefined world0.

(** The worker line of the specification's example. *)
Definition sample_stdout : jstring :=
  lit "ENHANCED_ANALYSIS_JSON: "
  ++ dq "{'findings':{'safeActions':[{'id':1,'reason':'r'}],'manualReviewActions':[]},'summary':{}}".

(** The same document with the property names the workers of this
    repository print. *)
Definition sample_stdout_snake : jstring :=
  lit "ENHANCED_ANALYSIS_JSON: "
  ++ dq "{'findings':{'safe_actions':[{'id':1,'reason':'r'}],'requires_manual_review':[]},'summary':{}}".

Definition sample_item : jsval :=
  JObj [(lit "id", num 1); (lit "reason", JStr (lit "r"))].

(** Two JSON documents on one line, and no sentinel. *)
Definition two_blobs : jstring := dq "{'a':1} {'b':2}".


(** An execute-mode call of each revision, just after the worker was
    spawned. *)
Definition phase2_execute_start : run :=
  Phase2.executeApprovedActions cfg now (taskId (approve one_action))
    (courseId (approve one_action)) JUndefined one_action world0.

Definition v3_execute_start : run :=
  V3.executeApprovedActions cfg now (taskId (approve one_action))
    (courseId (approve one_action)) JUndefined one_action world0.

(** The same call in a world where the staged file is gone already (the
    worker removed it). *)
Definition artifact_lost (r : run) : run :=
  with_world (set_paths (paths (rworld r) ∖ {[actionsFile r]}) (rworld r)) r.

(** [python3] cannot be started. *)
Definition spawn_fails : list event :=
  [SpawnError (lit "ENOENT") (lit "spawn python3 ENOENT")].

(** The worker prints a line and is still running five minutes after
    the call, and an hour after it. *)
Definition worker_hangs : list event :=
  [Stdout (lit "Deleting page 1 of 3"); Elapsed 300000; Elapsed 3600000].

(** A request for approved actions that names no course. *)
Definition no_course : request :=
  Request (Some (lit "find-duplicate-pages")) None JUndefined one_action.


End Examples.

(** ** What a worker printed *)

Module Trace.
Import Js Json Node.

(** The text of all [stdout] chunks of a trace, and of all [stderr]
    chunks, in the order of arrival. *)
Fixpoint stdout_text (events : list event) : jstring :=
  match events with
  | [] => []
  | Stdout chunk :: rest => chunk ++ stdout_text rest
  | _ :: rest => stdout_text rest
  end.

Fixpoint stderr_text (events : list event) : jstring :=
  match events with
  | [] => []
  | Stderr chunk :: rest => chunk ++ stderr_text rest
  | _ :: rest => stderr_text rest
  end.


(** Events of a worker that is running and has not reached the
    deadline of analyze mode. *)
Definition before_deadline (e : event) : bool :=
  match e with
  | Stdout _ | Stderr _ => true
  | Elapsed ms => (ms <? 300000)%Z
  | Close _ | SpawnError _ _ => false
  end.

(** The end of a worker: its [close], or the [error] of a failed spawn. *)
Definition is_end (e : event) : bool :=
  match e with
  | Close _ | SpawnError _ _ => true
  | _ => false
  end.

End Trace.

(** ** The launch: what the dashboard shows of the LTI token *)

Module Lti.
Import Js Json Node.

(** The claims of the token the helpers read.  Each is a string, or
    absent ([None]: the property, or an object on the way to it, is
    missing, which the optional chaining of the source reads as
    [undefined]); [roles] is an array of strings, or absent. *)
Record token := Token {
  roles : option (list jstring);
  return_url : option jstring;
  launch_url : option jstring;
  canvas_course_id : option jstring;
  course_id : option jstring;
  context_id : option jstring;
  context_label : option jstring;
  lineitems : option jstring;
  context_memberships_url : option jstring;
  userInfo_name : option jstring;
  userInfo_given_name : option jstring;
  userInfo_family_name : option jstring;
  given_name : option jstring;
  family_name : option jstring;
  name : option jstring;
  nickname : option jstring;
  preferred_username : option jstring;
  email : option jstring;
  person_sourcedid : option jstring
}.

(** [a || b] on such fields, and [a || 'text'] at the end of a chain. *)
Definition or_field (a b : option jstring) : option jstring :=
  if falsy_field a then b else a.

Definition or_text (a : option jstring) (b : jstring) : jstring :=
  match a with
  | Some s => if eqs s [] then b else s
  | None => b
  end.

(** [/\/courses\/(\d+)\//] *)
Definition courses_re : regex :=
  RCat (RLit (lit "/courses/")) (RCat (RGroup (RPlus is_digit)) (RLit (lit "/"))).

(** [if (url) { const match = url.match(...); if (match) ... match[1] }]:
    the captured digits, when the field is set and the pattern matches. *)
Definition course_in (url : option jstring) : option jstring :=
  match url with
  | Some u => if eqs u [] then None else group1 <$> re_match courses_re u
  | None => None
  end.

(** [/^\d+$/.test(s)] *)
Definition all_digits (s : jstring) : bool :=
  negb (eqs s []) && forallb is_digit s.

(** [roles.some(role => role.includes(text))] *)
Definition some_includes (text : jstring) (roles : list jstring) : bool :=
  existsb (fun role => includes role text) roles.

(** [[a, b].filter(n => n).join(' ')] *)
Definition full_name (a b : option jstring) : jstring :=
  match falsy_field a, falsy_field b with
  | false, false => display a ++ lit " " ++ display b
  | false, true => display a
  | true, false => display b
  | true, true => []
  end.

(** [s.split('@')[0]] *)
Fixpoint before_at (s : jstring) : jstring :=
  match s with
  | [] => []
  | c :: s' => if c =? 64 then [] else c :: before_at s'
  end.

End Lti.

(** The helpers of [qa-automation-lti.js].  It declares [getRealCourseId]
    twice; a later function declaration replaces an earlier one, so that
    every call runs the second. *)
Module Phase2Launch.
Import Js Json Node Lti.

Definition getRealCourseId (t : token) : jstring :=
  match course_in (return_url t) with
  | Some id => id
  | None =>
  match course_in (launch_url t) with
  | Some id => id
  | None =>
      if negb (falsy_field (canvas_course_id t)) then display (canvas_course_id t)
      else if negb (falsy_field (context_id t)) && all_digits (display (context_id t))
      then display (context_id t)
      else lit "280"
  end end.

Definition getUserRole (t : token) : jstring :=
  match roles t with
  | None => lit "User"
  | Some roles =>
      if some_includes (lit "Administrator") roles then lit "Administrator"
      else if some_includes (lit "Instructor") roles then lit "Instructor"
      else if some_includes (lit "TeachingAssistant") roles then lit "Teaching Assistant"
      else if some_includes (lit "Designer") roles then lit "Course Designer"
      else if some_includes (lit "Student") roles then lit "Student"
      else lit "Canvas User"
  end.

End Phase2Launch.

Module V3Launch.
Import Js Json Node Lti.

Definition getRealCourseId (t : token) : jstring :=
  let numericCourseId := course_in (lineitems t) in
  let numericCourseId :=
    if falsy_field numericCourseId && negb (falsy_field (context_memberships_url t)) then
      match course_in (context_memberships_url t) with
      | Some id => Some id
      | None => numericCourseId
      end
    else numericCourseId in
  or_text
    (or_field numericCourseId
       (or_field (context_id t)
          (or_field (canvas_course_id t)
             (or_field (course_id t) (context_label t)))))
    (lit "unknown").

Definition getUserRole (t : token) : jstring :=
  let roles := default [] (roles t) in
  if some_includes (lit "membership#Instructor") roles then lit "Editing Lecturer"
  else if some_includes (lit "membership#ContentDeveloper") roles then lit "Designer"
  else if existsb (fun role => includes role (lit "membership#TeachingAssistant")
                               || includes role (lit "membership#TA")) roles then lit "TA"
  else if some_includes (lit "membership#Student") roles then lit "Student"
  else if some_includes (lit "membership#Administrator") roles then lit "Administrator"
  else if existsb (fun role => includes role (lit "institution")
                               && includes role (lit "Instructor")) roles
  then lit "Editing Lecturer"
  else if existsb (fun role => includes role (lit "institution")
                               && includes role (lit "TeachingAssistant")) roles
  then lit "TA"
  else if existsb (fun role => includes role (lit "institution")
                               && includes role (lit "Student")) roles
  then lit "Student"
  else if existsb (fun role => includes role (lit "institution")
                               && includes role (lit "Administrator")) roles
  then lit "Administrator"
  else if some_includes (lit "Instructor") roles then lit "Editing Lecturer"
  else if some_includes (lit "Student") roles then lit "Student"
  else lit "User".

(** The value the promise of the [async] function resolves with; the
    function awaits nothing and throws nothing. *)
Definition getRealUserName (t : token) : jstring :=
  if negb (falsy_field (userInfo_name t)) then display (userInfo_name t)
  else
    let fullName :=
      if negb (falsy_field (userInfo_given_name t)) || negb (falsy_field (userInfo_family_name t))
      then full_name (userInfo_given_name t) (userInfo_family_name t)
      else [] in
    if negb (eqs fullName []) then fullName
    else
      let legacyFullName := full_name (given_name t) (family_name t) in
      let emailName :=
        if negb (falsy_field (email t)) then Some (before_at (display (email t))) else None in
      or_text
        (or_field (Some legacyFullName)
           (or_field (name t)
              (or_field (nickname t)
                 (or_field (preferred_username t)
                    (or_field emailName (person_sourcedid t))))))
        (lit "User").

End V3Launch.

(** ** More scenarios *)

Module Lines.
Import Js.

(** The text is at its end, or goes on with a line terminator. *)
Definition ends_line (rest : jstring) : bool :=
  match rest with
  | [] => true
  | c :: _ => is_line_terminator c
  end.

(** No closing brace in the text. *)
Definition no_close (s : jstring) : bool := forallb (fun c => negb (c =? 125)) s.

End Lines.

Module Scenarios.
Import Js Json Node Examples.

(** The worker line of [sample_stdout_snake], delivered in two chunks
    that cut the sentinel in two, with a warning on [stderr] in between. *)
Definition chunked_output : list event :=
  [ Stdout (lit "ENHANCED_ANA");
    Stderr (lit "DeprecationWarning: pkg_resources");
    Stdout (lit "LYSIS_JSON: "
            ++ dq "{'findings':{'safe_actions':[{'id':1,'reason':'r'}],'requires_manual_review':[]},'summary':{}}") ].

(** A path of the application that no call stages. *)
Definition worker_script : jstring := lit "/app/scripts/duplicate_page_cleaner.py".

(** What a worker prints around its result line. *)
Definition progress_lines : jstring :=
  lit "Scanning course 101" ++ [10] ++ lit "Found 3 candidate pages" ++ [10].

Definition result_document : jstring :=
  dq "{'risk_assessment':{},'findings':{'safe_actions':[{'id':1,'reason':'r'}],'requires_manual_review':[]}}".

Definition closing_lines : jstring := [10] ++ lit "Done." ++ [10].

(** The claims of a launch from a Canvas course: an instructor of course
    280 who is a student elsewhere in the institution. *)
Definition canvas_launch : Lti.token :=
  Lti.Token
    (Some [lit "http://purl.imsglobal.org/vocab/lis/v2/institution/person#Student";
           lit "http://purl.imsglobal.org/vocab/lis/v2/membership#Instructor"])
    (Some (lit "https://canvas.test/courses/280/external_content/success/external_tool_redirect"))
    None None None
    (Some (lit "4dde05e8ca1973bcca9bffc13e1548820eee93a3"))
    (Some (lit "QA101"))
    (Some (lit "https://canvas.test/api/lti/courses/280/line_items"))
    (Some (lit "https://canvas.test/api/lti/courses/280/names_and_roles"))
    None (Some (lit "Ada")) None
    None None None None None (Some (lit "ada@example.org")) None.

(** The same launch with the roles in the other order. *)
Definition canvas_launch_reordered : Lti.token :=
  Lti.Token
    (Some [lit "http://purl.imsglobal.org/vocab/lis/v2/membership#Instructor";
           lit "http://purl.imsglobal.org/vocab/lis/v2/institution/person#Student"])
    (Lti.return_url canvas_launch) None None None
    (Lti.context_id canvas_launch) (Lti.context_label canvas_launch)
    (Lti.lineitems canvas_launch) (Lti.context_memberships_url canvas_launch)
    None (Some (lit "Ada")) None
    None None None None None (Some (lit "ada@example.org")) None.

(** A launch that brings a return URL and nothing else. *)
Definition return_url_only : Lti.token :=
  Lti.Token None
    (Some (lit "https://canvas.test/courses/280/external_content/success/external_tool_redirect"))
    None None None None None None None None None None None None None None None None None.

End Scenarios.

(** * Properties *)

(** ** General facts about the model *)

Section Runs.
Import Js Json Node.

Lemma eqs_true (a b : jstring) : eqs a b = true ↔ a = b.
Proof. unfold eqs. apply bool_decide_eq_true. Qed.

Lemma eqs_false (a b : jstring) : eqs a b = false ↔ a ≠ b.
Proof. unfold eqs. apply bool_decide_eq_false. Qed.

Lemma field_is_display (f : option jstring) (name : jstring) :
  field_is f name = true → display f = name.
Proof.
  destruct f as [s|]; simpl; [|discriminate].
  intros H. by apply eqs_true.
Qed.

(** A run without listeners ignores every event. *)
Lemma fold_left_fixed {A B} (step : A → B → A) (a : A) (l : list B) :
  (∀ b, step a b = a) → fold_left step l a = a.
Proof.
  intros H. induction l as [|b l IH]; simpl; [done|]. by rewrite H.
Qed.

Lemma settled_ignores_events (step : run → event → run) (w : world) (p : promise)
    (events : list event) :
  (∀ r e, listening r = false → step r e = r) →
  fold_left step events (settled w p) = settled w p.
Proof. intros H. apply fold_left_fixed. intros e. by apply H. Qed.

(** After [mkdirSync] the directory is there, and so a file can be
    written into the directory that [executeApprovedActions] of
    [qa-automation-lti.js] has just looked for. *)
Lemma mkdirSync_has_directory (d : jstring) (w : world) :
  has_directory d (mkdirSync d w) = true.
Proof.
  unfold has_directory.
  destruct (eqs d (lit "/")) eqn:E1; [done|].
  destruct (eqs d (lit ".")) eqn:E2; [done|]. simpl.
  unfold existsSync. apply bool_decide_eq_true. simpl.
  apply elem_of_union_l, elem_of_list_to_set.
  unfold directories. destruct (length d); simpl; rewrite E1, E2; simpl; set_solver.
Qed.

Lemma phase2_staging (file : jstring) (w : world) :
  let w' := if existsSync (path_dirname file) w then w else mkdirSync (path_dirname file) w in
  writeFileSync file w' = Some (set_paths ({[file]} ∪ paths w') w').
Proof.
  cbv zeta. unfold writeFileSync.
  destruct (existsSync (path_dirname file) w) eqn:E.
  - unfold has_directory. by rewrite E, orb_true_r.
  - by rewrite mkdirSync_has_directory.
Qed.

Lemma phase2_analyze_deaf r e : listening r = false → Phase2.analyze_on r e = r.
Proof. intros H. unfold Phase2.analyze_on. by rewrite H. Qed.

Lemma phase2_execute_deaf a r e : listening r = false → Phase2.execute_on a r e = r.
Proof. intros H. unfold Phase2.execute_on. by rewrite H. Qed.

Lemma v3_analyze_deaf r e : listening r = false → V3.analyze_on r e = r.
Proof. intros H. unfold V3.analyze_on. by rewrite H. Qed.

Lemma v3_execute_deaf r e : listening r = false → V3.execute_on r e = r.
Proof. intros H. unfold V3.execute_on. by rewrite H. Qed.

End Runs.

(** ** [JSON.parse] never lacks fuel *)

Section ParserFuel.
Import Js Json.
Local Open Scope nat_scope.

Lemma skip_ws_length (s : jstring) : length (skip_ws s) ≤ length s.
Proof.
  induction s as [|c s IH]; simpl; [done|]. destruct (is_ws c); simpl; lia.
Qed.

Lemma skip_ws_cons (s r : jstring) (c : N) : skip_ws s = c :: r → length r < length s.
Proof. intros H. pose proof (skip_ws_length s) as L. rewrite H in L. simpl in L. lia. Qed.

Lemma strip_prefix_length (p s r : jstring) :
  strip_prefix p s = Some r → length s = length p + length r.
Proof.
  revert s. induction p as [|c p IH]; intros s; simpl.
  - by intros [= ->].
  - destruct s as [|d s]; [done|]. destruct (N.eqb c d); [|done].
    intros H. simpl. by rewrite (IH s H).
Qed.

Lemma parse_chars_length (s str rest : jstring) :
  parse_chars s = Some (str, rest) → length rest < length s.
Proof.
  remember (length s) as n eqn:Hn. revert s str rest Hn.
  induction n as [n IH] using lt_wf_ind. intros s str rest -> H.
  destruct s as [|c r]; [done|]. simpl in H.
  destruct (N.eqb c 34); [injection H as _ <-; simpl; lia|].
  destruct (N.eqb c 92).
  - destruct r as [|d r']; [done|].
    destruct (N.eqb d 117).
    + destruct r' as [|h1 [|h2 [|h3 [|h4 r'']]]]; try done.
      destruct (hex_digit h1), (hex_digit h2), (hex_digit h3), (hex_digit h4); try done.
      destruct (parse_chars r'') as [[str' rest']|] eqn:E; [|done].
      injection H as _ <-.
      pose proof (IH (length r'') ltac:(simpl; lia) r'' str' rest' eq_refl E). simpl. lia.
    + destruct (unescape d); [|done].
      destruct (parse_chars r') as [[str' rest']|] eqn:E; [|done].
      injection H as _ <-.
      pose proof (IH (length r') ltac:(simpl; lia) r' str' rest' eq_refl E). simpl. lia.
  - destruct (N.ltb c 32); [done|].
    destruct (parse_chars r) as [[str' rest']|] eqn:E; [|done].
    injection H as _ <-.
    pose proof (IH (length r) ltac:(simpl; lia) r str' rest' eq_refl E). simpl. lia.
Qed.

Lemma take_digits_length (s : jstring) : length (snd (take_digits s)) ≤ length s.
Proof.
  induction s as [|c s IH]; simpl; [done|].
  destruct (is_digit c); simpl; [|lia].
  destruct (take_digits s); simpl in *. lia.
Qed.

Lemma take_digits_rest (s rest : jstring) ds :
  take_digits s = (ds, rest) → length rest ≤ length s.
Proof. intros H. pose proof (take_digits_length s) as L. by rewrite H in L. Qed.

Lemma parse_sign_length (s rest : jstring) (neg : bool) :
  parse_sign s = (neg, rest) → length rest ≤ length s.
Proof.
  destruct s as [|c r]; simpl; [by intros [= _ <-]|].
  destruct (N.eqb c 45); intros [= _ <-]; simpl; lia.
Qed.

Lemma parse_int_length (s rest : jstring) ds :
  parse_int s = Some (ds, rest) → length rest < length s.
Proof.
  destruct s as [|c r]; [done|]. unfold parse_int.
  destruct (N.eqb c 48); [intros [= _ <-]; simpl; lia|].
  destruct (is_digit c) eqn:Hd; [|done]. intros [= H].
  simpl in H. rewrite Hd in H.
  destruct (take_digits r) as [ds' rest'] eqn:E. apply take_digits_rest in E.
  injection H as _ <-. simpl. lia.
Qed.

Lemma parse_frac_length (s rest : jstring) ds :
  parse_frac s = Some (ds, rest) → length rest ≤ length s.
Proof.
  destruct s as [|c r]; simpl; [by intros [= _ <-]|].
  destruct (N.eqb c 46); [|by intros [= _ <-]].
  destruct (take_digits r) as [[|d ds'] rest'] eqn:E; [done|].
  apply take_digits_rest in E. intros [= _ <-]. simpl. lia.
Qed.

Lemma parse_exp_length (s rest : jstring) (ex : Z) :
  parse_exp s = Some (ex, rest) → length rest ≤ length s.
Proof.
  destruct s as [|c r]; simpl; [by intros [= _ <-]|].
  destruct (N.eqb c 101 || N.eqb c 69); [|by intros [= _ <-]].
  destruct r as [|d r'].
  - simpl. done.
  - destruct (N.eqb d 45); [|destruct (N.eqb d 43)];
      match goal with |- context [take_digits ?x] =>
        destruct (take_digits x) as [[|e es] rest'] eqn:E; [done|];
        apply take_digits_rest in E; intros [= _ <-]; simpl in *; lia
      end.
Qed.

Lemma parse_number_length (s rest : jstring) (v : jsval) :
  parse_number s = Some (v, rest) → length rest < length s.
Proof.
  unfold parse_number.
  destruct (parse_sign s) as [neg s1] eqn:E1. apply parse_sign_length in E1.
  destruct (parse_int s1) as [[ids s2]|] eqn:E2; [|done]. apply parse_int_length in E2.
  simpl.
  destruct (parse_frac s2) as [[fds s3]|] eqn:E3; [|done]. apply parse_frac_length in E3.
  simpl.
  destruct (parse_exp s3) as [[ex s4]|] eqn:E4; [|done]. apply parse_exp_length in E4.
  simpl. intros [= _ <-]. lia.
Qed.

Lemma parse_literal_length (s rest : jstring) (v : jsval) :
  parse_literal s = Some (v, rest) → length rest < length s.
Proof.
  unfold parse_literal.
  destruct (strip_prefix (lit "true") s) eqn:E1.
  { intros [= _ <-]. apply strip_prefix_length in E1. rewrite E1. simpl. lia. }
  destruct (strip_prefix (lit "false") s) eqn:E2.
  { intros [= _ <-]. apply strip_prefix_length in E2. rewrite E2. simpl. lia. }
  destruct (strip_prefix (lit "null") s) eqn:E3; [|done].
  intros [= _ <-]. apply strip_prefix_length in E3. rewrite E3. simpl. lia.
Qed.

Lemma of_option_length (o : option (jsval * jstring)) (s rest : jstring) (v : jsval) :
  (∀ v rest, o = Some (v, rest) → length rest < length s) →
  of_option o = Parsed v rest → length rest < length s.
Proof.
  destruct o as [[v' rest']|]; simpl; [|done]. intros H [= <- <-]. exact (H _ _ eq_refl).
Qed.

(** Every parser consumes at least one code unit. *)
Lemma parse_consumes (fuel : nat) :
  (∀ s v rest, parse_value fuel s = Parsed v rest → length rest < length s)
  ∧ (∀ s acc v rest, parse_elements fuel s acc = Parsed v rest → length rest < length s)
  ∧ (∀ s acc v rest, parse_members fuel s acc = Parsed v rest → length rest < length s).
Proof.
  induction fuel as [|f (IHv & IHe & IHm)]; [by repeat split|].
  repeat split.
  - intros s v rest. simpl.
    destruct (skip_ws s) as [|c r] eqn:Es; [done|]. apply skip_ws_cons in Es.
    destruct (N.eqb c 123).
    { destruct (skip_ws r) as [|d r'] eqn:Er; [done|]. apply skip_ws_cons in Er.
      destruct (N.eqb d 125); [intros [= _ <-]; lia|].
      intros H. apply IHm in H. lia. }
    destruct (N.eqb c 91).
    { destruct (skip_ws r) as [|d r'] eqn:Er; [done|]. apply skip_ws_cons in Er.
      destruct (N.eqb d 93); [intros [= _ <-]; lia|].
      intros H. apply IHe in H. lia. }
    destruct (N.eqb c 34).
    { destruct (parse_chars r) as [[str rest']|] eqn:Ec; [|done].
      apply parse_chars_length in Ec. intros [= _ <-]. lia. }
    destruct (N.eqb c 45 || is_digit c).
    + intros H. apply (of_option_length _ (c :: r)) in H; [simpl in H; lia|].
      intros v' rest'. apply parse_number_length.
    + intros H. apply (of_option_length _ (c :: r)) in H; [simpl in H; lia|].
      intros v' rest'. apply parse_literal_length.
  - intros s acc v rest. simpl.
    destruct (parse_value f s) as [v' rest'| |] eqn:Ev; try done. apply IHv in Ev.
    destruct (skip_ws rest') as [|c r] eqn:Er; [done|]. apply skip_ws_cons in Er.
    destruct (N.eqb c 44); [intros H; apply IHe in H; lia|].
    destruct (N.eqb c 93); [|done]. intros [= _ <-]. lia.
  - intros s acc v rest. simpl.
    destruct (skip_ws s) as [|c r] eqn:Es; [done|]. apply skip_ws_cons in Es.
    destruct (N.eqb c 34); [|done].
    destruct (parse_chars r) as [[k rest1]|] eqn:Ec; [|done]. apply parse_chars_length in Ec.
    destruct (skip_ws rest1) as [|d r2] eqn:E1; [done|]. apply skip_ws_cons in E1.
    destruct (N.eqb d 58); [|done].
    destruct (parse_value f r2) as [v' rest2| |] eqn:Ev; try done. apply IHv in Ev.
    destruct (skip_ws rest2) as [|e r3] eqn:E2; [done|]. apply skip_ws_cons in E2.
    destruct (N.eqb e 44); [intros H; apply IHm in H; lia|].
    destruct (N.eqb e 125); [|done]. intros [= _ <-]. lia.
Qed.

Lemma of_option_fuel (o : option (jsval * jstring)) : of_option o ≠ OutOfFuel.
Proof. by destruct o as [[? ?]|]. Qed.

(** With [2 * n + 1] units of fuel ([2 * n + 2] for the elements of an
    array) no parser runs out on a text of [n] code units. *)
Lemma parse_fuel (fuel : nat) :
  (∀ s, 2 * length s + 1 ≤ fuel → parse_value fuel s ≠ OutOfFuel)
  ∧ (∀ s acc, 2 * length s + 2 ≤ fuel → parse_elements fuel s acc ≠ OutOfFuel)
  ∧ (∀ s acc, 2 * length s + 1 ≤ fuel → parse_members fuel s acc ≠ OutOfFuel).
Proof.
  induction fuel as [|f (IHv & IHe & IHm)]; [repeat split; intros; lia|].
  pose proof (parse_consumes f) as (Cv & Ce & Cm).
  repeat split.
  - intros s Hf. simpl.
    destruct (skip_ws s) as [|c r] eqn:Es; [done|]. apply skip_ws_cons in Es.
    destruct (N.eqb c 123).
    { destruct (skip_ws r) as [|d r'] eqn:Er; [done|].
      destruct (N.eqb d 125); [done|]. apply IHm. lia. }
    destruct (N.eqb c 91).
    { destruct (skip_ws r) as [|d r'] eqn:Er; [done|].
      destruct (N.eqb d 93); [done|]. apply IHe. lia. }
    destruct (N.eqb c 34); [by destruct (parse_chars r) as [[? ?]|]|].
    destruct (N.eqb c 45 || is_digit c); apply of_option_fuel.
  - intros s acc Hf. simpl.
    pose proof (IHv s ltac:(lia)) as Hv.
    destruct (parse_value f s) as [v' rest'| |] eqn:Ev; try done. apply Cv in Ev.
    destruct (skip_ws rest') as [|c r] eqn:Er; [done|]. apply skip_ws_cons in Er.
    destruct (N.eqb c 44); [apply IHe; lia|]. by destruct (N.eqb c 93).
  - intros s acc Hf. simpl.
    destruct (skip_ws s) as [|c r] eqn:Es; [done|]. apply skip_ws_cons in Es.
    destruct (N.eqb c 34); [|done].
    destruct (parse_chars r) as [[k rest1]|] eqn:Ec; [|done]. apply parse_chars_length in Ec.
    destruct (skip_ws rest1) as [|d r2] eqn:E1; [done|]. apply skip_ws_cons in E1.
    destruct (N.eqb d 58); [|done].
    pose proof (IHv r2 ltac:(lia)) as Hv.
    destruct (parse_value f r2) as [v' rest2| |] eqn:Ev; try done. apply Cv in Ev.
    destruct (skip_ws rest2) as [|e r3] eqn:E2; [done|]. apply skip_ws_cons in E2.
    destruct (N.eqb e 44); [apply IHm; lia|]. by destruct (N.eqb e 125).
Qed.

(** An answer does not change with more fuel. *)
Lemma parse_more_fuel (fuel : nat) :
  (∀ s, parse_value fuel s ≠ OutOfFuel → parse_value (S fuel) s = parse_value fuel s)
  ∧ (∀ s acc, parse_elements fuel s acc ≠ OutOfFuel →
       parse_elements (S fuel) s acc = parse_elements fuel s acc)
  ∧ (∀ s acc, parse_members fuel s acc ≠ OutOfFuel →
       parse_members (S fuel) s acc = parse_members fuel s acc).
Proof.
  induction fuel as [|f (IHv & IHe & IHm)]; [by repeat split|].
  repeat split.
  - intros s. cbn [parse_value].
    destruct (skip_ws s) as [|c r]; [done|].
    destruct (N.eqb c 123).
    { destruct (skip_ws r) as [|d r']; [done|]. destruct (N.eqb d 125); [done|]. apply IHm. }
    destruct (N.eqb c 91).
    { destruct (skip_ws r) as [|d r']; [done|]. destruct (N.eqb d 93); [done|]. apply IHe. }
    done.
  - intros s acc. cbn [parse_elements]. intros H.
    destruct (parse_value f s) as [v' rest'| |] eqn:Ev; try done.
    + rewrite IHv, Ev by (rewrite Ev; done).
      destruct (skip_ws rest') as [|c r]; [done|].
      destruct (N.eqb c 44); [by apply IHe|done].
    + rewrite IHv, Ev by (rewrite Ev; done). done.
  - intros s acc. cbn [parse_members]. intros H.
    destruct (skip_ws s) as [|c r]; [done|].
    destruct (N.eqb c 34); [|done].
    destruct (parse_chars r) as [[k rest1]|]; [|done].
    destruct (skip_ws rest1) as [|d r2]; [done|].
    destruct (N.eqb d 58); [|done].
    destruct (parse_value f r2) as [v' rest2| |] eqn:Ev; try done.
    + rewrite IHv, Ev by (rewrite Ev; done).
      destruct (skip_ws rest2) as [|e r3]; [done|].
      destruct (N.eqb e 44); [by apply IHm|done].
    + rewrite IHv, Ev by (rewrite Ev; done). done.
Qed.

(** [JSON_parse] gives its parser enough fuel: the answer is a value or
    a syntax error, and it is the answer for every larger amount. *)
Lemma parse_value_fuel (text : jstring) (extra : nat) :
  parse_value (2 * length text + 1) text ≠ OutOfFuel
  ∧ parse_value (2 * length text + 1 + extra) text = parse_value (2 * length text + 1) text.
Proof.
  assert (H : parse_value (2 * length text + 1) text ≠ OutOfFuel)
    by (apply parse_fuel; lia).
  split; [exact H|].
  induction extra as [|k IH]; [by rewrite Nat.add_0_r|].
  rewrite Nat.add_succ_r.
  destruct (parse_more_fuel (2 * length text + 1 + k)) as (Hv & _ & _).
  rewrite Hv; [exact IH|]. by rewrite IH.
Qed.

End ParserFuel.

(** ** The task registry gate *)

Section Registry.
Import Js Json Node.

(** C9.  A task id that is no key of [QA_TASKS] makes [analyzeTask]
    reject with the unknown-task error, in both revisions, and the world
    is left as it was: no process is spawned, whatever the worker would
    have done. *)
Theorem unknown_task_rejected_before_spawn
    (cfg : config) (taskId courseId : option jstring) (userId : jsval)
    (events : list event) (w : world) :
  (Phase2.QA_TASKS !! display taskId = None →
     fold_left Phase2.analyze_on events (Phase2.analyzeTask cfg taskId courseId userId w)
     = settled w (Rejected (lit "Unknown task: " ++ display taskId)))
  ∧
  (V3.QA_TASKS !! display taskId = None →
     fold_left V3.analyze_on events (V3.analyzeTask cfg taskId courseId userId w)
     = settled w (Rejected (lit "Unknown or misconfigured task: " ++ display taskId))).
Proof.
  split; intros Hnone.
  - unfold Phase2.analyzeTask.
    destruct (field_is taskId (lit "find-duplicate-pages")) eqn:Hid.
    + (* the only case of the switch is a key of the table *)
      apply field_is_display in Hid. rewrite Hid in Hnone.
      unfold Phase2.QA_TASKS in Hnone. by rewrite lookup_singleton_eq in Hnone.
    + (* the default case: the promise is rejected, no listener exists *)
      apply settled_ignores_events, phase2_analyze_deaf.
  - unfold V3.analyzeTask, V3.scriptName. rewrite Hnone. simpl.
    apply settled_ignores_events, v3_analyze_deaf.
Qed.

Lemma phase2_unknown_task (cfg : config) (taskId courseId : option jstring) (userId : jsval)
    (events : list event) (w : world) :
  Phase2.QA_TASKS !! display taskId = None →
  fold_left Phase2.analyze_on events (Phase2.analyzeTask cfg taskId courseId userId w)
  = settled w (Rejected (lit "Unknown task: " ++ display taskId)).
Proof.
  intros Hnone. unfold Phase2.analyzeTask.
  destruct (field_is taskId (lit "find-duplicate-pages")) eqn:Hid.
  - apply field_is_display in Hid. rewrite Hid in Hnone.
    unfold Phase2.QA_TASKS in Hnone. by rewrite lookup_singleton_eq in Hnone.
  - apply settled_ignores_events, phase2_analyze_deaf.
Qed.

Lemma v3_unknown_task (cfg : config) (taskId courseId : option jstring) (userId : jsval)
    (events : list event) (w : world) :
  V3.QA_TASKS !! display taskId = None →
  fold_left V3.analyze_on events (V3.analyzeTask cfg taskId courseId userId w)
  = settled w (Rejected (lit "Unknown or misconfigured task: " ++ display taskId)).
Proof.
  intros Hnone. unfold V3.analyzeTask, V3.scriptName. rewrite Hnone. simpl.
  apply settled_ignores_events, v3_analyze_deaf.
Qed.

(** Seen from the caller: [POST /execute] with such a task id is
    answered with an error (a validation error, when the task id is empty
    or the course id is missing) and the world is left as it was. *)
Lemma unknown_task_request_fails (cfg : config) (req : request) (events : list event)
    (w : world) :
  crashed w = false →
  (Phase2.QA_TASKS !! display (taskId req) = None →
     ∃ m, Phase2.post_execute cfg req events w = (w, Some (Phase2.analysis_failed m)))
  ∧ (V3.QA_TASKS !! display (taskId req) = None →
     ∃ m, V3.post_execute cfg req events w = (w, Some (V3.analysis_failed m))).
Proof.
  intros Hw. split; intros Hnone.
  - unfold Phase2.post_execute.
    destruct (falsy_field (taskId req)); [eauto|].
    destruct (falsy_field (courseId req)); [eauto|].
    rewrite phase2_unknown_task by done. unfold respond. simpl. rewrite Hw. eauto.
  - unfold V3.post_execute.
    destruct (falsy_field (taskId req) || falsy_field (courseId req)); [eauto|].
    rewrite v3_unknown_task by done. unfold respond. simpl. rewrite Hw. eauto.
Qed.

Lemma unknown_task_rejected_before_spawn_witness :
  Phase2.QA_TASKS !! lit "no-such-task" = None
  ∧ V3.QA_TASKS !! lit "no-such-task" = None
  ∧ spawned (rworld (fold_left Phase2.analyze_on [Close (Some 0%Z)]
       (Phase2.analyzeTask Examples.cfg (Some (lit "no-such-task")) (Some (lit "101"))
          JUndefined Examples.world0))) = []
  ∧ spawned (rworld (fold_left V3.analyze_on [Close (Some 0%Z)]
       (V3.analyzeTask Examples.cfg (Some (lit "no-such-task")) (Some (lit "101"))
          JUndefined Examples.world0))) = [].
Proof.
  assert (H1 : Phase2.QA_TASKS !! display (Some (lit "no-such-task")) = None)
    by (vm_compute; reflexivity).
  assert (H2 : V3.QA_TASKS !! display (Some (lit "no-such-task")) = None)
    by (vm_compute; reflexivity).
  pose proof (unknown_task_rejected_before_spawn Examples.cfg (Some (lit "no-such-task"))
                (Some (lit "101")) JUndefined [Close (Some 0%Z)] Examples.world0) as [P V].
  split; [exact H1|]. split; [exact H2|].
  split.
  - rewrite (P H1). reflexivity.
  - rewrite (V H2). reflexivity.
Defined.

End Registry.

(** ** Promises settle once *)

Section Settling.
Import Js Json Node.

Lemma reject_settled m p : p ≠ Pending → reject m p = p.
Proof. by destruct p. Qed.

Lemma resolve_settled v p : p ≠ Pending → resolve v p = p.
Proof. by destruct p. Qed.

Lemma settle_settled o p : p ≠ Pending → settle o p = p.
Proof. destruct o; simpl; [apply resolve_settled | apply reject_settled]. Qed.

Lemma phase2_analyze_keeps_settled r e :
  rpromise r ≠ Pending → rpromise (Phase2.analyze_on r e) = rpromise r.
Proof.
  intros H. unfold Phase2.analyze_on.
  destruct (listening r); simpl; [|done].
  destruct e as [c|c|code|c m|ms]; simpl; try done.
  - destruct code as [[| |]|]; simpl; by rewrite ?settle_settled, ?reject_settled.
  - destruct (eqs c _); simpl; by rewrite reject_settled.
  - destruct (timer r && _); simpl; [by rewrite reject_settled|done].
Qed.

Lemma phase2_analyze_stays_settled events r :
  rpromise r ≠ Pending →
  rpromise (fold_left Phase2.analyze_on events r) = rpromise r.
Proof.
  revert r. induction events as [|e events IH]; intros r H; simpl; [done|].
  rewrite IH; rewrite phase2_analyze_keeps_settled; done.
Qed.

Lemma v3_analyze_keeps_settled r e :
  rpromise r ≠ Pending → rpromise (V3.analyze_on r e) = rpromise r.
Proof.
  intros H. unfold V3.analyze_on.
  destruct (listening r); simpl; [|done].
  destruct e as [c|c|code|c m|ms]; simpl; try done.
  - destruct code as [[| |]|]; simpl; by rewrite ?settle_settled, ?reject_settled.
  - destruct (eqs c _); simpl; by rewrite reject_settled.
  - destruct (timer r && _); simpl; [by rewrite reject_settled|done].
Qed.

Lemma v3_analyze_stays_settled events r :
  rpromise r ≠ Pending →
  rpromise (fold_left V3.analyze_on events r) = rpromise r.
Proof.
  revert r. induction events as [|e events IH]; intros r H; simpl; [done|].
  rewrite IH; rewrite v3_analyze_keeps_settled; done.
Qed.

(** Signals are only ever added. *)
Lemma phase2_analyze_keeps_signals r e s :
  s ∈ signals (rworld r) → s ∈ signals (rworld (Phase2.analyze_on r e)).
Proof.
  intros H. unfold Phase2.analyze_on.
  destruct (listening r); simpl; [|done].
  destruct e as [c|c|code|c m|ms]; simpl; try done.
  - by destruct code as [[| |]|].
  - by destruct (eqs c _).
  - destruct (timer r && _); simpl; [|done]. set_solver.
Qed.

Lemma phase2_analyze_signals_stay events r s :
  s ∈ signals (rworld r) → s ∈ signals (rworld (fold_left Phase2.analyze_on events r)).
Proof.
  revert r. induction events as [|e events IH]; intros r H; simpl; [done|].
  by apply IH, phase2_analyze_keeps_signals.
Qed.

(** In analyze mode the deadline ends the call: the worker is sent
    [SIGTERM], the promise is rejected with the time-out message, and
    nothing the worker prints or does afterwards changes that.  Before
    the deadline the timer does nothing. *)
Lemma phase2_analyze_deadline (r : run) (ms : Z) (later : list event) :
  (Phase2.timeoutMs ≤ ms)%Z →
  listening r = true → timer r = true → rpromise r = Pending →
  rpromise (fold_left Phase2.analyze_on later (Phase2.analyze_on r (Elapsed ms)))
  = Rejected Phase2.analysis_timeout_message
  ∧ lit "SIGTERM" ∈ signals (rworld (fold_left Phase2.analyze_on later
                                       (Phase2.analyze_on r (Elapsed ms)))).
Proof.
  intros Hms Hl Ht Hp. apply Z.leb_le in Hms.
  assert (E : Phase2.analyze_on r (Elapsed ms)
              = clearTimeout (with_promise (Rejected Phase2.analysis_timeout_message)
                  (with_world (kill (lit "SIGTERM") (rworld r)) r))).
  { unfold Phase2.analyze_on. rewrite Hl, Ht, Hms, Hp. reflexivity. }
  rewrite E. split.
  - rewrite phase2_analyze_stays_settled; simpl; done.
  - apply phase2_analyze_signals_stay. simpl. set_solver.
Qed.

Lemma analyze_before_deadline (r : run) (ms : Z) :
  (ms < 300000)%Z →
  Phase2.analyze_on r (Elapsed ms) = r ∧ V3.analyze_on r (Elapsed ms) = r.
Proof.
  intros Hms. apply Z.leb_gt in Hms.
  unfold Phase2.analyze_on, V3.analyze_on, Phase2.timeoutMs, V3.timeoutMs.
  rewrite Hms, andb_false_r. by destruct (listening r).
Qed.

(** The timer of a fresh analyze-mode call is pending while the worker
    runs: output does not clear it. *)
Lemma phase2_analyze_spawned_run (cfg : config) taskId courseId userId w :
  live (Phase2.analyzeTask cfg taskId courseId userId w) = true →
  timer (Phase2.analyzeTask cfg taskId courseId userId w) = true
  ∧ rpromise (Phase2.analyzeTask cfg taskId courseId userId w) = Pending.
Proof.
  unfold Phase2.analyzeTask.
  repeat match goal with |- context [if ?c then _ else _] => destruct c end;
    simpl; intros H; try discriminate; done.
Qed.

(** Output alone leaves an analyze-mode call as it is: listening, its
    timer pending, its promise pending. *)
Lemma phase2_analyze_output_only (before : list event) (r : run) :
  forallb is_output before = true →
  listening r = true → timer r = true → rpromise r = Pending →
  listening (fold_left Phase2.analyze_on before r) = true
  ∧ timer (fold_left Phase2.analyze_on before r) = true
  ∧ rpromise (fold_left Phase2.analyze_on before r) = Pending.
Proof.
  revert r. induction before as [|e before IH]; intros r Ho Hl Ht Hp; simpl; [done|].
  simpl in Ho. apply andb_true_iff in Ho as [He Ho].
  apply IH; [done|..]; unfold Phase2.analyze_on; rewrite Hl; by destruct e.
Qed.

(** An analyze-mode call whose worker has only printed output by the
    deadline is rejected with the time-out message, and the worker is
    sent [SIGTERM]; whatever comes later, its exit and the parsing of
    what it printed included, changes nothing. *)
Lemma phase2_analyze_times_out (cfg : config) (taskId courseId : option jstring)
    (userId : jsval) (w : world) (ms : Z) (before later : list event) :
  (Phase2.timeoutMs ≤ ms)%Z →
  listening (Phase2.analyzeTask cfg taskId courseId userId w) = true →
  forallb is_output before = true →
  rpromise (fold_left Phase2.analyze_on (before ++ Elapsed ms :: later)
              (Phase2.analyzeTask cfg taskId courseId userId w))
  = Rejected Phase2.analysis_timeout_message
  ∧ lit "SIGTERM" ∈ signals (rworld (fold_left Phase2.analyze_on
                                       (before ++ Elapsed ms :: later)
                                       (Phase2.analyzeTask cfg taskId courseId userId w))).
Proof.
  intros Hms Hl Ho.
  assert (Hlive : live (Phase2.analyzeTask cfg taskId courseId userId w) = true).
  { unfold listening in Hl. by apply andb_true_iff in Hl as [? _]. }
  destruct (phase2_analyze_spawned_run cfg taskId courseId userId w Hlive) as [Ht Hp].
  destruct (phase2_analyze_output_only before _ Ho Hl Ht Hp) as (Hl' & Ht' & Hp').
  rewrite fold_left_app. cbn [fold_left].
  by apply phase2_analyze_deadline.
Qed.

End Settling.

(** ** Validation before the worker is spawned *)

Section Validation.
Import Js Json Node Examples.

(** Without the credential no call spawns a worker, in either revision
    and in either mode. *)
Lemma no_credential_no_spawn (cfg : config) (now : Z) (taskId courseId : option jstring)
    (userId approvedActions : jsval) (events : list event) (w : world) :
  env_or cfg (lit "CANVAS_API_TOKEN") [] = [] →
  (∃ m, fold_left Phase2.analyze_on events (Phase2.analyzeTask cfg taskId courseId userId w)
        = settled w (Rejected m))
  ∧ (∃ m, fold_left (Phase2.execute_on approvedActions) events
            (Phase2.executeApprovedActions cfg now taskId courseId userId approvedActions w)
          = settled w (Rejected m))
  ∧ (∃ m, fold_left V3.analyze_on events (V3.analyzeTask cfg taskId courseId userId w)
          = settled w (Rejected m))
  ∧ (∃ m, fold_left V3.execute_on events
            (V3.executeApprovedActions cfg now taskId courseId userId approvedActions w)
          = settled w (Rejected m)).
Proof.
  intros Htoken. repeat split.
  - unfold Phase2.analyzeTask. rewrite Htoken.
    destruct (field_is taskId _); simpl; eexists;
      apply settled_ignores_events, phase2_analyze_deaf.
  - unfold Phase2.executeApprovedActions. rewrite Htoken.
    destruct (field_is taskId _); simpl; eexists;
      apply settled_ignores_events, phase2_execute_deaf.
  - unfold V3.analyzeTask. rewrite Htoken.
    destruct (V3.scriptName taskId) as [s|]; [destruct (eqs s [])|]; simpl; eexists;
      apply settled_ignores_events, v3_analyze_deaf.
  - unfold V3.executeApprovedActions. rewrite Htoken.
    destruct (V3.scriptName taskId) as [s|]; [destruct (eqs s [])|]; simpl; eexists;
      apply settled_ignores_events, v3_execute_deaf.
Qed.

(** [POST /execute] refuses a request without a course id, in both
    revisions, and so does [POST /execute-approved] of the V3 revision. *)
Lemma missing_course_is_refused (cfg : config) (now : Z) (req : request)
    (events : list event) (w : world) :
  falsy_field (courseId req) = true →
  (∃ m, Phase2.post_execute cfg req events w = (w, Some (Phase2.analysis_failed m)))
  ∧ (∃ m, V3.post_execute cfg req events w = (w, Some (V3.analysis_failed m)))
  ∧ (∃ m, V3.post_execute_approved cfg now req events w = (w, Some (V3.failed m))).
Proof.
  intros Hc. repeat split.
  - unfold Phase2.post_execute. rewrite Hc. destruct (falsy_field (taskId req)); eauto.
  - unfold V3.post_execute. rewrite Hc, orb_true_r. eauto.
  - unfold V3.post_execute_approved. rewrite Hc, orb_true_r. simpl.
    destruct (get (approvedActions req) (lit "length")); eauto.
Qed.

(** The Phase 2 revision of [executeApprovedActions] looks at the task
    id and the credential only: with those in order and any
    [approvedActions] but [undefined], be it the empty array, and any
    course id, be it absent, it stages the file and spawns the worker. *)
Lemma phase2_execute_spawns (cfg : config) (now : Z) (courseId : option jstring)
    (userId approvedActions : jsval) (w : world) :
  env_or cfg (lit "CANVAS_API_TOKEN") [] ≠ [] →
  approvedActions ≠ JUndefined →
  ∃ args r,
    Phase2.executeApprovedActions cfg now (Some (lit "find-duplicate-pages")) courseId
      userId approvedActions w = r
    ∧ spawned (rworld r) = spawned w ++ [args]
    ∧ actionsFile r ∈ paths (rworld r)
    ∧ rpromise r = Pending.
Proof.
  intros Htoken Ha. unfold Phase2.executeApprovedActions.
  change (field_is (Some (lit "find-duplicate-pages")) (lit "find-duplicate-pages")) with true.
  cbv iota. apply eqs_false in Htoken. rewrite Htoken.
  cbv zeta. rewrite phase2_staging.
  destruct approvedActions; try done;
    eexists _, _; (split; [reflexivity|]); simpl;
    (split; [by destruct (existsSync _ w)|]); (split; [|done]);
    destruct (existsSync _ w); simpl; set_solver.
Qed.

(** The deadline of the V3 revision of [analyzeTask]. *)
Lemma v3_analyze_deadline (r : run) (ms : Z) (later : list event) :
  (V3.timeoutMs ≤ ms)%Z →
  listening r = true → timer r = true → rpromise r = Pending →
  rpromise (fold_left V3.analyze_on later (V3.analyze_on r (Elapsed ms)))
  = Rejected V3.analysis_timeout_message.
Proof.
  intros Hms Hl Ht Hp. apply Z.leb_le in Hms.
  rewrite v3_analyze_stays_settled; unfold V3.analyze_on; rewrite Hl, Ht, Hms, Hp; simpl; done.
Qed.

End Validation.

(** ** The staged artifact and the execute-mode listeners *)

Section Execute.
Import Js Json Node.

(** Once the [close] listener of the Phase 2 revision has run, the
    staged file is gone. *)
Lemma phase2_close_removes_artifact (approvedActions : jsval) (r : run) (code : option Z) :
  listening r = true →
  actionsFile r ∉ paths (rworld (Phase2.execute_on approvedActions r (Close code))).
Proof.
  intros Hl. unfold Phase2.execute_on. rewrite Hl. simpl.
  unfold unlinkSync, existsSync.
  destruct (bool_decide (actionsFile r ∈ paths (rworld r))) eqn:Hin; simpl.
  - intros [_ H]%elem_of_difference. by apply H, elem_of_singleton.
  - by apply bool_decide_eq_false in Hin.
Qed.

(** No execute-mode listener creates a file, and none changes
    [actionsFile]: once deleted, the staged file stays deleted. *)
Lemma phase2_execute_step (approvedActions : jsval) (r : run) (e : event) (p : jstring) :
  actionsFile (Phase2.execute_on approvedActions r e) = actionsFile r
  ∧ (p ∉ paths (rworld r) → p ∉ paths (rworld (Phase2.execute_on approvedActions r e))).
Proof.
  unfold Phase2.execute_on. destruct (listening r); [|done].
  destruct e; simpl; try done. split; [done|].
  unfold unlinkSync. destruct (existsSync _ _); simpl; [|done].
  intros Hp [Hin _]%elem_of_difference. by apply Hp.
Qed.

Lemma phase2_artifact_stays_deleted (approvedActions : jsval) (later : list event) (r : run) :
  actionsFile r ∉ paths (rworld r) →
  actionsFile r ∉ paths (rworld (fold_left (Phase2.execute_on approvedActions) later r)).
Proof.
  revert r. induction later as [|e later IH]; intros r H; simpl; [done|].
  destruct (phase2_execute_step approvedActions r e (actionsFile r)) as [Ha Hp].
  rewrite <- Ha. apply IH. rewrite Ha. by apply Hp.
Qed.

(** After a [close] the staged file of a Phase 2 call is gone for
    good. *)
Lemma phase2_close_cleans_up (approvedActions : jsval) (r : run) (code : option Z)
    (later : list event) :
  listening r = true →
  actionsFile r ∉ paths (rworld (fold_left (Phase2.execute_on approvedActions)
                                   (Close code :: later) r)).
Proof.
  intros Hl. cbn [fold_left].
  destruct (phase2_execute_step approvedActions r (Close code) (actionsFile r)) as [Ha _].
  rewrite <- Ha. apply phase2_artifact_stays_deleted. rewrite Ha.
  by apply phase2_close_removes_artifact.
Qed.

(** The passing of time means nothing to an execute-mode call. *)
Lemma execute_ignores_deadline (approvedActions : jsval) (r : run) (ms : Z) :
  Phase2.execute_on approvedActions r (Elapsed ms) = r ∧ V3.execute_on r (Elapsed ms) = r.
Proof.
  unfold Phase2.execute_on, V3.execute_on. by destruct (listening r).
Qed.

(** No execute-mode listener ever sends a signal to the worker. *)
Lemma execute_never_kills (approvedActions : jsval) (events : list event) (r : run) :
  signals (rworld (fold_left (Phase2.execute_on approvedActions) events r))
  = signals (rworld r)
  ∧ signals (rworld (fold_left V3.execute_on events r)) = signals (rworld r).
Proof.
  split; revert r; induction events as [|e events IH]; intros r; simpl; try done; rewrite IH.
  - unfold Phase2.execute_on. destruct (listening r); [|done].
    destruct e; simpl; try done. unfold unlinkSync. by destruct (existsSync _ _).
  - unfold V3.execute_on. destruct (listening r); [|done].
    destruct e; simpl; try done. unfold unlinkSync. by destruct (existsSync _ _).
Qed.

(** C10.  In the Phase 2 revision the [close] listener settles the
    promise with a value computed from the exit code, the accumulated
    stdout and stderr and the approved actions alone: two runs that
    differ only in their worlds, so that the deletion succeeds in one and
    throws in the other, settle alike.  A deletion that throws is caught:
    it adds one warning, changes no path and ends no process. *)
Theorem cleanup_failure_never_changes_outcome
    (approvedActions : jsval) (r1 r2 : run) (code : option Z) :
  listening r1 = true → listening r2 = true →
  rpromise r1 = rpromise r2 → output r1 = output r2 → error r1 = error r2 →
  rpromise (Phase2.execute_on approvedActions r1 (Close code))
  = settle (Phase2.execution_outcome approvedActions code (output r1) (error r1)) (rpromise r1)
  ∧ rpromise (Phase2.execute_on approvedActions r1 (Close code))
    = rpromise (Phase2.execute_on approvedActions r2 (Close code))
  ∧ crashed (rworld (Phase2.execute_on approvedActions r1 (Close code))) = false
  ∧ (unlinkSync (actionsFile r1) (rworld r1) = None →
     rworld (Phase2.execute_on approvedActions r1 (Close code))
     = console_warn (lit "Could not clean up temp file: " ++ enoent_unlink (actionsFile r1))
         (rworld r1)).
Proof.
  intros H1 H2 Hp Ho He.
  unfold Phase2.execute_on. rewrite H1, H2. simpl.
  rewrite Hp, Ho, He. repeat split.
  - unfold listening in H1. apply andb_true_iff in H1 as [_ H1].
    apply negb_true_iff in H1.
    unfold unlinkSync. destruct (existsSync _ _); simpl; exact H1.
  - intros Hu. by rewrite Hu.
Qed.

End Execute.

Section ExecuteCases.
Import Js Json Node Examples.

Lemma cleanup_failure_never_changes_outcome_witness :
  unlinkSync (actionsFile phase2_execute_start) (rworld phase2_execute_start) ≠ None
  ∧ unlinkSync (actionsFile phase2_execute_start)
      (rworld (artifact_lost phase2_execute_start)) = None
  ∧ rpromise (Phase2.execute_on one_action phase2_execute_start (Close (Some 1%Z)))
    = rpromise (Phase2.execute_on one_action (artifact_lost phase2_execute_start)
                  (Close (Some 1%Z))).
Proof.
  split; [vm_compute; discriminate|].
  split; [vm_compute; reflexivity|].
  refine (proj1 (proj2 (cleanup_failure_never_changes_outcome one_action
            phase2_execute_start (artifact_lost phase2_execute_start) (Some 1%Z)
            _ _ _ _ _))); vm_compute; reflexivity.
Defined.

(** C1.  The staged file survives an execute-mode call whose worker
    cannot be started, and one whose worker is still running at the
    deadline: the only deletion is in the [close] listener, there is no
    [error] listener and no timer.  In the first case the [error] event is
    thrown and ends the process; in the second the call stays pending. *)
Theorem artifact_outlives_failed_spawn :
  let failed2 := fold_left (Phase2.execute_on one_action) spawn_fails phase2_execute_start in
  let hung2 := fold_left (Phase2.execute_on one_action) worker_hangs phase2_execute_start in
  let failed3 := fold_left V3.execute_on spawn_fails v3_execute_start in
  let hung3 := fold_left V3.execute_on worker_hangs v3_execute_start in
  actionsFile phase2_execute_start = artifact
  ∧ spawned (rworld phase2_execute_start) ≠ []
  ∧ existsSync artifact (rworld failed2) = true
  ∧ crashed (rworld failed2) = true
  ∧ existsSync artifact (rworld hung2) = true
  ∧ rpromise hung2 = Pending
  ∧ existsSync artifact (rworld failed3) = true
  ∧ crashed (rworld failed3) = true
  ∧ existsSync artifact (rworld hung3) = true
  ∧ rpromise hung3 = Pending.
Proof. vm_compute. repeat split; discriminate. Qed.

(** C3.  An execute-mode call has no deadline: with the worker still
    running after 300000 ms no signal is sent and the promise stays
    pending, in both revisions. *)
Theorem execute_mode_has_no_deadline :
  let hung2 := fold_left (Phase2.execute_on one_action) worker_hangs phase2_execute_start in
  let hung3 := fold_left V3.execute_on worker_hangs v3_execute_start in
  live phase2_execute_start = true ∧ timer phase2_execute_start = false
  ∧ signals (rworld hung2) = [] ∧ rpromise hung2 = Pending
  ∧ live v3_execute_start = true ∧ timer v3_execute_start = false
  ∧ signals (rworld hung3) = [] ∧ rpromise hung3 = Pending.
Proof. vm_compute. repeat split. Qed.

(** C7.  The error of an execute-mode call carries the whole stderr of
    the worker, whatever its length [n], and the handler passes it on as
    the [error] of the response. *)
Theorem execute_error_carries_whole_stderr (n : nat) :
  snd (Phase2.post_execute_approved cfg now (approve one_action)
         [Stderr (replicate n 120); Close (Some 1%Z)] world0)
  = Some (Response 200 (JObj [
      (lit "success", JBool false);
      (lit "error", JStr (lit "Execution failed: " ++ replicate n 120))]))
  ∧ snd (V3.post_execute_approved cfg now (approve one_action)
         [Stderr (replicate (S n) 120); Close (Some 1%Z)] world0)
  = Some (Response 500 (JObj [
      (lit "success", JBool false);
      (lit "error", JStr (lit "Execution script failed: " ++ replicate (S n) 120))]))
  ∧ length (lit "Execution failed: " ++ replicate n 120) = (18 + n)%nat.
Proof.
  split; [vm_compute; reflexivity|].
  split; [vm_compute; reflexivity|].
  rewrite length_app, length_replicate. reflexivity.
Qed.

(** C2.  In the Phase 2 revision a request with an empty
    [approvedActions] array stages a file and spawns a worker. *)
Theorem phase2_empty_batch_spawns_worker :
  let r := Phase2.executeApprovedActions cfg now (taskId (approve (JArr [])))
             (courseId (approve (JArr []))) JUndefined (JArr []) world0 in
  spawned (rworld r) = [[
    lit "/app/scripts/duplicate_page_cleaner.py";
    lit "--canvas-url"; lit "aculeo.test.instructure.com";
    lit "--api-token"; lit "secret";
    lit "--course-id"; lit "101";
    lit "--execute-approved"; artifact]]
  ∧ existsSync artifact (rworld r) = true
  ∧ length (spawned (fst (Phase2.post_execute_approved cfg now (approve (JArr []))
                            [Close (Some 0%Z)] world0))) = 1%nat.
Proof. vm_compute. repeat split. Qed.

(** In the V3 revision the handler answers such a request itself. *)
Lemma v3_empty_batch_short_circuits (cfg : config) (now : Z) (req : request)
    (events : list event) (w : world) :
  falsy_field (taskId req) = false → falsy_field (courseId req) = false →
  approvedActions req = JArr [] →
  V3.post_execute_approved cfg now req events w
  = (w, Some (Response 200 (JObj [
           (lit "success", JBool true);
           (lit "message", JStr (lit "No actions were selected for execution."))]))).
Proof.
  intros Ht Hc Ha. unfold V3.post_execute_approved. rewrite Ha, Ht, Hc. reflexivity.
Qed.

(** C8.  In the Phase 2 revision a request for approved actions that
    names no course passes: the file is staged under the name
    [undefined] and the worker is spawned with that course id. *)
Theorem phase2_execute_approved_accepts_missing_course :
  let w := fst (Phase2.post_execute_approved cfg now no_course [] world0) in
  falsy_field (courseId no_course) = true
  ∧ spawned w = [[
    lit "/app/scripts/duplicate_page_cleaner.py";
    lit "--canvas-url"; lit "aculeo.test.instructure.com";
    lit "--api-token"; lit "secret";
    lit "--course-id"; lit "undefined";
    lit "--execute-approved"; lit "/app/temp/approved_actions_undefined_1700000000000.json"]]
  ∧ existsSync (lit "/app/temp/approved_actions_undefined_1700000000000.json") w = true.
Proof. vm_compute. repeat split. Qed.

End ExecuteCases.

(** ** The greedy brace pattern *)

Section BracePattern.
Import Js Json Node.

Lemma flat_map_through_map {A B C} (f : B → list C) (h : A → B) (l : list A) :
  flat_map f (map h l) = flat_map (λ x, f (h x)) l.
Proof. induction l as [|x l IH]; simpl; [done|]. by rewrite IH. Qed.

Lemma flat_map_pushed {A C} (f g : A → list C) (p : C → C) (l : list A) :
  (∀ x, g x = map p (f x)) → flat_map g l = map p (flat_map f l).
Proof.
  intros H. induction l as [|x l IH]; simpl; [done|].
  by rewrite H, IH, map_app.
Qed.

Lemma rmatch_to_last_close (s : jstring) :
  rmatch to_last_close s = flat_map close_after (splits_greedy cls_any s).
Proof.
  unfold to_last_close. cbn [rmatch]. by rewrite flat_map_through_map.
Qed.

Lemma rmatch_close (c : N) (t : jstring) :
  rmatch (RLit (lit "}")) (c :: t) = if c =? 125 then [(lit "}", [], t)] else [].
Proof.
  cbn [rmatch]. change (lit "}") with [125]. cbn [strip_prefix].
  rewrite (N.eqb_sym 125 c). by destruct (c =? 125).
Qed.

Lemma join_push (c : N) (a : jstring) (m : match_result) :
  join (c :: a) [] m = push c (join a [] m).
Proof. by destruct m as [[b g] rest]. Qed.

Lemma rmatch_to_last_close_cons (c : N) (t : jstring) :
  rmatch to_last_close (c :: t)
  = map (push c) (rmatch to_last_close t)
    ++ (if c =? 125 then [(lit "}", [], t)] else []).
Proof.
  rewrite !rmatch_to_last_close. cbn [splits_greedy cls_any].
  rewrite flat_map_app, flat_map_through_map. f_equal.
  - apply flat_map_pushed. intros [a b]. unfold close_after. simpl.
    rewrite map_map. apply map_ext. intros m. apply join_push.
  - cbn [flat_map]. rewrite app_nil_r. unfold close_after. cbn [fst snd].
    rewrite rmatch_close. by destruct (c =? 125).
Qed.

Lemma head_rmatch_to_last_close (t : jstring) :
  head (rmatch to_last_close t)
  = (λ ab : jstring * jstring, (fst ab ++ lit "}", [], snd ab)) <$> last_close t.
Proof.
  induction t as [|c t IH].
  - reflexivity.
  - rewrite rmatch_to_last_close_cons. cbn [last_close].
    destruct (rmatch to_last_close t) as [|m ms].
    + destruct (last_close t) as [[a b]|]; [discriminate|].
      destruct (c =? 125); reflexivity.
    + destruct (last_close t) as [[a b]|]; [|discriminate].
      simpl in IH. injection IH as ->. reflexivity.
Qed.

(** What the third pattern selects. *)
Lemma re_match_jsonPattern (s : jstring) :
  re_match Phase2.jsonPattern s = (λ span, (span, [])) <$> greedy_brace_span s.
Proof.
  induction s as [|c t IH]; [reflexivity|].
  cbn [re_match greedy_brace_span].
  assert (E : rmatch Phase2.jsonPattern (c :: t)
              = if c =? 123 then map (join (lit "{") []) (rmatch to_last_close t) else []).
  { unfold Phase2.jsonPattern. cbn [rmatch]. change (lit "{") with [123].
    cbn [strip_prefix]. rewrite (N.eqb_sym 123 c).
    destruct (c =? 123); [|reflexivity]. cbn [flat_map]. by rewrite app_nil_r. }
  rewrite E. destruct (c =? 123) eqn:Hc; [|exact IH].
  apply N.eqb_eq in Hc. subst c.
  pose proof (head_rmatch_to_last_close t) as Hh.
  destruct (rmatch to_last_close t) as [|[[a g] rest] ms].
  - destruct (last_close t) as [[a b]|]; [discriminate|]. exact IH.
  - destruct (last_close t) as [[a' b]|]; [|discriminate].
    simpl in Hh. injection Hh as -> -> ->. reflexivity.
Qed.

Lemma last_close_none (s : jstring) : 125 ∉ s → last_close s = None.
Proof.
  induction s as [|c t IH]; [done|]. intros H.
  apply not_elem_of_cons in H as [Hc Ht]. simpl. rewrite (IH Ht).
  destruct (c =? 125) eqn:E; [|done]. apply N.eqb_eq in E. congruence.
Qed.

Lemma last_close_app (mid post : jstring) :
  125 ∉ post → last_close (mid ++ 125 :: post) = Some (mid, post).
Proof.
  intros H. induction mid as [|c mid IH]; simpl.
  - by rewrite (last_close_none post H).
  - by rewrite IH.
Qed.


End BracePattern.

(** ** Extraction of the analysis result *)

Section Extraction.
Import Js Json Node Examples.



(** Without an opening brace the third strategy finds nothing. *)
Lemma strategy3_needs_braces (output : jstring) :
  123 ∉ output → Phase2.strategy3 output = None.
Proof.
  intros H. unfold Phase2.strategy3. rewrite re_match_jsonPattern.
  assert (E : greedy_brace_span output = None); [|by rewrite E].
  induction output as [|c t IH]; [done|].
  apply not_elem_of_cons in H as [Hc Ht]. simpl.
  destruct (c =? 123) eqn:E; [apply N.eqb_eq in E; congruence|]. by apply IH.
Qed.




(** C5, as the claim words it, fails in the Phase 2 revision: the
    [safe_actions] of the result is not a sequence of one element. *)
Lemma sample_safe_actions_not_singleton :
  ¬ ∃ result item,
      Phase2.extract sample_stdout = Resolve result
      ∧ get result (lit "safe_actions") = Some (JArr [item]).
Proof.
  intros (result & item & Hr & Hs).
  vm_compute in Hr. injection Hr as <-. vm_compute in Hs. discriminate.
Qed.

(** C5, as the code has it.  For the sample line the Phase 2 revision
    resolves with an object whose [findings] is the parsed document; in
    that document [findings.safeActions] has exactly one element, with
    [id] 1.  The [safe_actions] of the result itself is read from
    [findings.safe_actions] and is empty; with the property names
    [safe_actions] and [requires_manual_review] in the worker line it has
    that one element.  The V3 revision resolves with the parsed
    document. *)
Theorem sample_extraction :
  ∃ result document,
    Phase2.extract sample_stdout = Resolve result
    ∧ get result (lit "findings") = Some document
    ∧ (get document (lit "findings") ≫= λ f, get f (lit "safeActions"))
      = Some (JArr [sample_item])
    ∧ get sample_item (lit "id") = Some (num 1)
    ∧ get result (lit "safe_actions") = Some (JArr [])
    ∧ V3.extract sample_stdout = Resolve document
    ∧ ∃ result', Phase2.extract sample_stdout_snake = Resolve result'
                 ∧ get result' (lit "safe_actions") = Some (JArr [sample_item]).
Proof.
  eexists _, _. split; [vm_compute; reflexivity|].
  split; [vm_compute; reflexivity|].
  repeat (split; [vm_compute; reflexivity|]).
  eexists. split; vm_compute; reflexivity.
Qed.

End Extraction.

(** ** Patterns that start with a literal *)

Section Patterns.
Import Js Json Node.

Lemma strip_prefix_Some (p s r : jstring) : strip_prefix p s = Some r ↔ s = p ++ r.
Proof.
  revert s. induction p as [|c p IH]; intros s; simpl.
  - split; congruence.
  - destruct s as [|d s]; [split; discriminate|].
    destruct (c =? d) eqn:E.
    + apply N.eqb_eq in E. subst d. rewrite IH. split; congruence.
    + apply N.eqb_neq in E. split; [discriminate|]. congruence.
Qed.

Lemma strip_prefix_same (p r : jstring) : strip_prefix p (p ++ r) = Some r.
Proof. by apply strip_prefix_Some. Qed.

(** A sentinel whose last code unit occurs nowhere else in it cannot
    start inside the text before its first occurrence and run into it. *)
Lemma sentinel_not_early (S0 : jstring) (k : N) (x tail : jstring) :
  k ∉ S0 → x ≠ [] →
  strip_prefix (S0 ++ [k]) x = None →
  strip_prefix (S0 ++ [k]) (x ++ (S0 ++ [k]) ++ tail) = None.
Proof.
  intros Hk Hx Hn.
  destruct (strip_prefix (S0 ++ [k]) (x ++ (S0 ++ [k]) ++ tail)) as [r|] eqn:E; [|done].
  exfalso. apply strip_prefix_Some in E.
  apply app_eq_inv in E as [(m & Hm & _)|(m & Hm & E)].
  { apply (strip_prefix_Some (S0 ++ [k]) x m) in Hm. congruence. }
  apply app_eq_inv in E as [(n & Hn' & _)|(n & Hn' & _)].
  - (* the sentinel is x ++ m and m ++ n *)
    assert (Hlen : length n = length x).
    { apply (f_equal length) in Hm, Hn'. rewrite !length_app in *. lia. }
    destruct m as [|m0 m] using rev_ind.
    { rewrite app_nil_r in Hm. subst x.
      pose proof (strip_prefix_same (S0 ++ [k]) []) as Hs. rewrite app_nil_r in Hs.
      congruence. }
    clear IHm.
    rewrite app_assoc in Hm. apply app_inj_tail in Hm as [Hm ->].
    destruct n as [|n0 n] using rev_ind.
    { destruct x; [done|discriminate]. }
    clear IHn.
    rewrite !app_assoc in Hn'. apply app_inj_tail in Hn' as [Hn' _].
    apply Hk. rewrite Hn'. set_solver.
  - (* m holds the whole sentinel *)
    subst m. apply (f_equal length) in Hm. rewrite !length_app in Hm.
    destruct x; [done|]. simpl in Hm. lia.
Qed.

Lemma rmatch_no_sentinel (S : jstring) (r2 : regex) (s : jstring) :
  strip_prefix S s = None → rmatch (RCat (RLit S) r2) s = [].
Proof. intros H. cbn [rmatch]. by rewrite H. Qed.

Lemma rmatch_sentinel (S : jstring) (r2 : regex) (tail : jstring) :
  rmatch (RCat (RLit S) r2) (S ++ tail) = map (join S []) (rmatch r2 tail).
Proof. cbn [rmatch]. rewrite strip_prefix_same. cbn [flat_map]. by rewrite app_nil_r. Qed.

(** The search for a pattern that starts with a sentinel skips a text
    that does not hold it. *)
Lemma re_match_skips (S0 : jstring) (k : N) (r2 : regex) (before tail : jstring) :
  k ∉ S0 → includes before (S0 ++ [k]) = false →
  re_match (RCat (RLit (S0 ++ [k])) r2) (before ++ (S0 ++ [k]) ++ tail)
  = re_match (RCat (RLit (S0 ++ [k])) r2) ((S0 ++ [k]) ++ tail).
Proof.
  intros Hk. induction before as [|c before IH]; intros Hi; [done|].
  cbn [includes] in Hi.
  destruct (strip_prefix (S0 ++ [k]) (c :: before)) eqn:E; [done|].
  change ((c :: before) ++ (S0 ++ [k]) ++ tail) with (c :: (before ++ (S0 ++ [k]) ++ tail)).
  cbn [re_match].
  change (c :: (before ++ (S0 ++ [k]) ++ tail)) with ((c :: before) ++ (S0 ++ [k]) ++ tail).
  rewrite rmatch_no_sentinel by (by apply sentinel_not_early).
  by apply IH.
Qed.

Lemma splits_greedy_head (p : N → bool) (a rest : jstring) :
  forallb p a = true →
  match rest with [] => true | c :: _ => negb (p c) end = true →
  ∃ tl, splits_greedy p (a ++ rest) = (a, rest) :: tl.
Proof.
  intros Ha Hr. induction a as [|c a IH]; simpl.
  - destruct rest as [|c rest]; [by eexists|]. simpl.
    apply negb_true_iff in Hr. rewrite Hr. by eexists.
  - simpl in Ha. apply andb_true_iff in Ha as [Hc Ha]. rewrite Hc.
    destruct (IH Ha) as [tl ->]. simpl. by eexists.
Qed.

End Patterns.

(** ** Classification of a failed worker *)

Section Classification.
Import Js Json Node Examples.

Lemma strip_prefix_app (a b s : jstring) :
  is_Some (strip_prefix (a ++ b) s) → is_Some (strip_prefix a s).
Proof.
  revert s. induction a as [|c a IH]; intros s; simpl; [by eauto|].
  destruct s as [|d s]; [done|]. destruct (c =? d); [apply IH|done].
Qed.

(** A text that holds [a ++ b] holds [a]. *)
Lemma includes_app (s a b : jstring) :
  includes s (a ++ b) = true → includes s a = true.
Proof.
  induction s as [|d s IH]; simpl.
  - destruct (strip_prefix (a ++ b) []) eqn:E; [|done]. intros _.
    destruct (strip_prefix_app a b [] (mk_is_Some _ _ E)) as [r ->]. done.
  - destruct (strip_prefix (a ++ b) (d :: s)) eqn:E.
    + intros _. destruct (strip_prefix_app a b (d :: s) (mk_is_Some _ _ E)) as [r ->]. done.
    + intros H. destruct (strip_prefix a (d :: s)); [done|]. by apply IH.
Qed.

(** The pattern for the module name, on a stderr text that names a
    module between quotes for the first time. *)
Lemma re_match_module_name (pre name post : jstring) :
  includes pre (lit "No module named '") = false →
  name ≠ [] → forallb cls_not_quote name = true →
  re_match Phase2.missingModule_re (pre ++ lit "No module named '" ++ name ++ lit "'" ++ post)
  = Some (lit "No module named '" ++ name ++ lit "'", [name]).
Proof.
  intros Hpre Hne Hn. unfold Phase2.missingModule_re.
  change (lit "No module named '") with (lit "No module named " ++ [39]) in *.
  rewrite (re_match_skips (lit "No module named ") 39 _ pre _) by
    (done || (apply (bool_decide_unpack _); vm_compute; exact I)).
  destruct name as [|c ns]; [done|]. clear Hne.
  simpl in Hn. apply andb_true_iff in Hn as [Hc Hn].
  destruct (splits_greedy_head cls_not_quote ns (lit "'" ++ post) Hn eq_refl) as [tl Htl].
  assert (H : ∃ ms,
             rmatch (RCat (RLit (lit "No module named " ++ [39]))
                       (RCat (RGroup (RPlus cls_not_quote)) (RLit (lit "'"))))
               ((lit "No module named " ++ [39]) ++ (c :: ns) ++ lit "'" ++ post)
             = ((lit "No module named " ++ [39]) ++ (c :: ns) ++ lit "'", [c :: ns], post)
               :: ms).
  { rewrite rmatch_sentinel. cbn [rmatch].
    change ((c :: ns) ++ lit "'" ++ post) with (c :: (ns ++ lit "'" ++ post)).
    cbn iota. rewrite Hc, Htl. cbn [map flat_map fst snd].
    change (lit "'" ++ post) with (39 :: post). change (lit "'") with [39].
    cbn [strip_prefix]. rewrite N.eqb_refl. cbn [map app join]. by eexists. }
  destruct H as [ms H].
  destruct ((lit "No module named " ++ [39]) ++ (c :: ns) ++ lit "'" ++ post) eqn:E;
    cbn [re_match]; by rewrite H.
Qed.

(** C6, as the code has it.  For every exit code and stderr text the
    Phase 2 classifier follows the order of the specification: missing
    module (with the module name when the text names one), then 401 or
    Unauthorized, then 403 or Forbidden, then 404, then timeout or
    ConnectionError; after these it has a branch of its own for
    ImportError, with a fixed message, and only then the generic error
    with the first 200 code units of stderr or, when stderr is empty, the
    exit code.  The V3 classifier has no branch for network time-outs and
    none for ImportError, and carries 300 code units.  Every message is
    the one written here.  A stderr text that holds [401 Unauthorized]
    and no [ModuleNotFoundError] is an authentication failure in both,
    and the [close] listener rejects with the message of the
    classifier. *)
Theorem classifier_cascade (code : option Z) (stderrText : jstring) :
  Phase2.errorMessage code stderrText
  = (if includes stderrText (lit "ModuleNotFoundError") then
       match group1 <$> re_match Phase2.missingModule_re stderrText with
       | Some name =>
           lit "Missing Python package: " ++ name
           ++ lit ". Please install it with: pip3 install " ++ name
       | None => lit "Missing Python packages. Please install required dependencies."
       end
     else
       match Spec.first_rule Spec.phase2_rules stderrText with
       | Some message => message
       | None =>
           if eqs stderrText []
           then lit "Analysis failed with exit code " ++ Spec.exit_code_text code
           else lit "Python script error: " ++ take 200 stderrText
       end)
  ∧ V3.errorMessage code stderrText
    = (if includes stderrText (lit "ModuleNotFoundError") then
         match group1 <$> re_match Phase2.missingModule_re stderrText with
         | Some name =>
             lit "Missing Python package: " ++ name ++ lit ". Please run: pip install " ++ name
         | None => lit "Missing Python dependencies."
         end
       else
         match Spec.first_rule Spec.v3_rules stderrText with
         | Some message => message
         | None =>
             if eqs stderrText []
             then lit "Analysis script failed with exit code " ++ Spec.exit_code_text code
                  ++ lit "."
             else lit "The script encountered an error: " ++ take 300 stderrText ++ lit "..."
         end)
  ∧ (∀ pre name post,
       includes stderrText (lit "ModuleNotFoundError") = true →
       stderrText = pre ++ lit "No module named '" ++ name ++ lit "'" ++ post →
       includes pre (lit "No module named '") = false →
       name ≠ [] → forallb cls_not_quote name = true →
       Phase2.errorMessage code stderrText
       = lit "Missing Python package: " ++ name
         ++ lit ". Please install it with: pip3 install " ++ name
       ∧ V3.errorMessage code stderrText
         = lit "Missing Python package: " ++ name ++ lit ". Please run: pip install " ++ name)
  ∧ (includes stderrText (lit "401 Unauthorized") = true →
     includes stderrText (lit "ModuleNotFoundError") = false →
     Phase2.errorMessage code stderrText
     = lit "Canvas API authentication failed. Please check your API token."
     ∧ V3.errorMessage code stderrText
       = lit "Canvas API authentication failed (401). Please check your API token.")
  ∧ (∀ r, listening r = true → rpromise r = Pending → error r = stderrText →
          code ≠ Some 0%Z →
          rpromise (Phase2.analyze_on r (Close code))
          = Rejected (Phase2.errorMessage code stderrText)).
Proof.
  assert (E2 : Phase2.errorMessage code stderrText
    = (if includes stderrText (lit "ModuleNotFoundError") then
         match group1 <$> re_match Phase2.missingModule_re stderrText with
         | Some name =>
             lit "Missing Python package: " ++ name
             ++ lit ". Please install it with: pip3 install " ++ name
         | None => lit "Missing Python packages. Please install required dependencies."
         end
       else
         match Spec.first_rule Spec.phase2_rules stderrText with
         | Some message => message
         | None =>
             if eqs stderrText []
             then lit "Analysis failed with exit code " ++ Spec.exit_code_text code
             else lit "Python script error: " ++ take 200 stderrText
         end)).
  { unfold Phase2.errorMessage, Phase2.classify, Spec.first_rule, Spec.phase2_rules.
    destruct (includes stderrText (lit "ModuleNotFoundError"));
      [by destruct (group1 <$> re_match Phase2.missingModule_re stderrText)|].
    cbn [List.find existsb fst snd].
    destruct (includes stderrText (lit "401")); [done|].
    destruct (includes stderrText (lit "Unauthorized")); [done|].
    destruct (includes stderrText (lit "403")); [done|].
    destruct (includes stderrText (lit "Forbidden")); [done|].
    destruct (includes stderrText (lit "404")); [done|].
    destruct (includes stderrText (lit "timeout")); [done|].
    destruct (includes stderrText (lit "ConnectionError")); [done|].
    destruct (includes stderrText (lit "ImportError")); [done|].
    cbn [orb fmap option_fmap option_map].
    by destruct (eqs stderrText []), code. }
  assert (E3 : V3.errorMessage code stderrText
    = (if includes stderrText (lit "ModuleNotFoundError") then
         match group1 <$> re_match Phase2.missingModule_re stderrText with
         | Some name =>
             lit "Missing Python package: " ++ name ++ lit ". Please run: pip install " ++ name
         | None => lit "Missing Python dependencies."
         end
       else
         match Spec.first_rule Spec.v3_rules stderrText with
         | Some message => message
         | None =>
             if eqs stderrText []
             then lit "Analysis script failed with exit code " ++ Spec.exit_code_text code
                  ++ lit "."
             else lit "The script encountered an error: " ++ take 300 stderrText ++ lit "..."
         end)).
  { unfold V3.errorMessage, V3.classify, Spec.first_rule, Spec.v3_rules.
    destruct (includes stderrText (lit "ModuleNotFoundError"));
      [by destruct (group1 <$> re_match Phase2.missingModule_re stderrText)|].
    cbn [List.find existsb fst snd].
    destruct (includes stderrText (lit "401")); [done|].
    destruct (includes stderrText (lit "Unauthorized")); [done|].
    destruct (includes stderrText (lit "403")); [done|].
    destruct (includes stderrText (lit "Forbidden")); [done|].
    destruct (includes stderrText (lit "404")); [done|].
    cbn [orb fmap option_fmap option_map].
    by destruct (eqs stderrText []), code. }
  split; [exact E2|]. split; [exact E3|]. split; [|split].
  - intros pre name post Hmod -> Hpre Hne Hn.
    rewrite E2, E3, Hmod, (re_match_module_name pre name post Hpre Hne Hn). done.
  - intros H401 Hmod.
    assert (H : includes stderrText (lit "401") = true)
      by exact (includes_app stderrText (lit "401") (lit " Unauthorized") H401).
    rewrite E2, E3, Hmod. unfold Spec.first_rule, Spec.phase2_rules, Spec.v3_rules.
    cbn [List.find existsb fst snd]. by rewrite H.
  - intros r Hl Hp He Hcode. unfold Phase2.analyze_on. rewrite Hl. simpl.
    rewrite Hp, He.
    destruct code as [[| |]|]; simpl; done.
Qed.

Lemma classifier_cascade_witness :
  Phase2.errorMessage (Some 1%Z) (lit "HTTPError: 401 Unauthorized")
  = lit "Canvas API authentication failed. Please check your API token."
  ∧ V3.errorMessage (Some 1%Z) (lit "HTTPError: 401 Unauthorized")
    = lit "Canvas API authentication failed (401). Please check your API token."
  ∧ rpromise (Phase2.analyze_on
                (with_error (lit "HTTPError: 401 Unauthorized") phase2_analyze_start)
                (Close (Some 1%Z)))
    = Rejected (lit "Canvas API authentication failed. Please check your API token.")
  ∧ Phase2.errorMessage (Some 1%Z)
      (lit "ModuleNotFoundError: No module named 'requests'")
    = lit "Missing Python package: requests. Please install it with: pip3 install requests".
Proof.
  assert (H1 : includes (lit "HTTPError: 401 Unauthorized") (lit "401 Unauthorized") = true)
    by (vm_compute; reflexivity).
  assert (H2 : includes (lit "HTTPError: 401 Unauthorized") (lit "ModuleNotFoundError") = false)
    by (vm_compute; reflexivity).
  pose proof (classifier_cascade (Some 1%Z) (lit "HTTPError: 401 Unauthorized"))
    as (_ & _ & _ & Hauth & Hclose).
  destruct (Hauth H1 H2) as [A2 A3].
  split; [exact A2|]. split; [exact A3|]. split.
  - rewrite (Hclose (with_error (lit "HTTPError: 401 Unauthorized") phase2_analyze_start)
               eq_refl eq_refl eq_refl); [|discriminate].
    by rewrite A2.
  - pose proof (classifier_cascade (Some 1%Z)
                  (lit "ModuleNotFoundError: No module named 'requests'"))
      as (_ & _ & Hname & _).
    apply (Hname (lit "ModuleNotFoundError: ") (lit "requests") []);
      [reflexivity|reflexivity|reflexivity|discriminate|reflexivity].
Defined.

(** C6, as the claim words it, fails.  A stderr text with [ImportError]
    and none of the five patterns is not classified as the generic error
    that carries stderr: the message is fixed.  In the V3 revision a
    connection error is no network time-out. *)
Lemma import_error_has_a_branch_of_its_own :
  Spec.classify 200 (lit "ImportError: cannot import name x")
  = Spec.GenericWorkerError (lit "ImportError: cannot import name x")
  ∧ Phase2.classify (Some 1%Z) (lit "ImportError: cannot import name x") = Phase2.ImportError
  ∧ Phase2.errorMessage (Some 1%Z) (lit "ImportError: cannot import name x")
    = lit "Python script import error. Please check script dependencies."
  ∧ Spec.kind_of_phase2 (Phase2.classify (Some 1%Z) (lit "ImportError: cannot import name x"))
    ≠ Spec.classify 200 (lit "ImportError: cannot import name x")
  ∧ Spec.classify 300 (lit "ConnectionError: timeout") = Spec.NetworkTimeout
  ∧ V3.classify (Some 1%Z) (lit "ConnectionError: timeout")
    = V3.ScriptError (lit "ConnectionError: timeout").
Proof. vm_compute. repeat split. discriminate. Qed.

(** The module name is captured when stderr names the module. *)
Lemma missing_module_is_named :
  Phase2.errorMessage (Some 1%Z)
    (lit "ModuleNotFoundError: No module named 'requests'")
  = lit "Missing Python package: requests. Please install it with: pip3 install requests".
Proof. vm_compute. reflexivity. Qed.

End Classification.

(** * Further properties of the orchestrator *)

Section Listeners.
Import Js Json Node Trace Examples.

(** The listeners never start a process, and those of analyze mode
    never touch the file system or end the Node process. *)
Lemma phase2_analyze_step_world r e :
  spawned (rworld (Phase2.analyze_on r e)) = spawned (rworld r)
  ∧ paths (rworld (Phase2.analyze_on r e)) = paths (rworld r)
  ∧ listening (Phase2.analyze_on r e) = listening r.
Proof.
  unfold Phase2.analyze_on. destruct (listening r) eqn:Hl; [|done].
  unfold listening in *.
  destruct e as [c|c|code|c m|ms]; simpl; try done.
  - by destruct code as [[| |]|].
  - by destruct (eqs c _).
  - by destruct (timer r && _).
Qed.

Lemma v3_analyze_step_world r e :
  spawned (rworld (V3.analyze_on r e)) = spawned (rworld r)
  ∧ paths (rworld (V3.analyze_on r e)) = paths (rworld r)
  ∧ listening (V3.analyze_on r e) = listening r.
Proof.
  unfold V3.analyze_on. destruct (listening r) eqn:Hl; [|done].
  unfold listening in *.
  destruct e as [c|c|code|c m|ms]; simpl; try done.
  - by destruct code as [[| |]|].
  - by destruct (eqs c _).
  - by destruct (timer r && _).
Qed.

Lemma phase2_execute_step_spawned a r e :
  spawned (rworld (Phase2.execute_on a r e)) = spawned (rworld r).
Proof.
  unfold Phase2.execute_on. destruct (listening r); [|done].
  destruct e; simpl; try done. unfold unlinkSync. by destruct (existsSync _ _).
Qed.

Lemma v3_execute_step_spawned r e :
  spawned (rworld (V3.execute_on r e)) = spawned (rworld r).
Proof.
  unfold V3.execute_on. destruct (listening r); [|done].
  destruct e; simpl; try done. unfold unlinkSync. by destruct (existsSync _ _).
Qed.

Lemma fold_invariant {A B} (step : run → A → run) (f : run → B) (events : list A) (r : run) :
  (∀ r e, f (step r e) = f r) → f (fold_left step events r) = f r.
Proof.
  intros Hstep. revert r. induction events as [|e events IH]; intros r; simpl; [done|].
  by rewrite IH, Hstep.
Qed.

Lemma phase2_analyze_start_world cfg taskId courseId userId w :
  paths (rworld (Phase2.analyzeTask cfg taskId courseId userId w)) = paths w
  ∧ (spawned (rworld (Phase2.analyzeTask cfg taskId courseId userId w)) = spawned w
     ∨ ∃ args, last args = Some (lit "--analyze-only")
               ∧ spawned (rworld (Phase2.analyzeTask cfg taskId courseId userId w))
                 = spawned w ++ [args]).
Proof.
  unfold Phase2.analyzeTask.
  repeat match goal with |- context [if ?c then _ else _] => destruct c end;
    simpl; (split; [done|]);
    first [by left | right; eexists; split; [|reflexivity]; reflexivity].
Qed.

Lemma v3_analyze_start_world cfg taskId courseId userId w :
  paths (rworld (V3.analyzeTask cfg taskId courseId userId w)) = paths w
  ∧ (spawned (rworld (V3.analyzeTask cfg taskId courseId userId w)) = spawned w
     ∨ ∃ args, last args = Some (lit "--analyze-only")
               ∧ spawned (rworld (V3.analyzeTask cfg taskId courseId userId w))
                 = spawned w ++ [args]).
Proof.
  unfold V3.analyzeTask. destruct (V3.scriptName taskId); [|simpl; eauto].
  repeat match goal with |- context [if ?c then _ else _] => destruct c end;
    simpl; (split; [done|]);
    first [by left | right; eexists; split; [|reflexivity]; reflexivity].
Qed.

(** X2.  Analysis is read-only on the side of the orchestrator.  Whatever
    the request and whatever the worker does, a call of [analyzeTask]
    leaves the file system as it was and starts at most one process,
    whose last argument is [--analyze-only]; this holds for both
    revisions. *)
Theorem analysis_is_preview_only (cfg : config) (taskId courseId : option jstring)
    (userId : jsval) (events : list event) (w : world) :
  let run2 := fold_left Phase2.analyze_on events (Phase2.analyzeTask cfg taskId courseId userId w) in
  let run3 := fold_left V3.analyze_on events (V3.analyzeTask cfg taskId courseId userId w) in
  paths (rworld run2) = paths w
  ∧ (spawned (rworld run2) = spawned w
     ∨ ∃ args, last args = Some (lit "--analyze-only")
               ∧ spawned (rworld run2) = spawned w ++ [args])
  ∧ paths (rworld run3) = paths w
  ∧ (spawned (rworld run3) = spawned w
     ∨ ∃ args, last args = Some (lit "--analyze-only")
               ∧ spawned (rworld run3) = spawned w ++ [args]).
Proof.
  cbv zeta.
  rewrite (fold_invariant Phase2.analyze_on (λ r, paths (rworld r)))
    by (intros; apply phase2_analyze_step_world).
  rewrite (fold_invariant Phase2.analyze_on (λ r, spawned (rworld r)))
    by (intros; apply phase2_analyze_step_world).
  rewrite (fold_invariant V3.analyze_on (λ r, paths (rworld r)))
    by (intros; apply v3_analyze_step_world).
  rewrite (fold_invariant V3.analyze_on (λ r, spawned (rworld r)))
    by (intros; apply v3_analyze_step_world).
  destruct (phase2_analyze_start_world cfg taskId courseId userId w) as [P2 S2].
  destruct (v3_analyze_start_world cfg taskId courseId userId w) as [P3 S3].
  done.
Qed.

End Listeners.

Section Answers.
Import Js Json Node Trace Examples.

Lemma settle_not_pending o : settle o Pending ≠ Pending.
Proof. by destruct o. Qed.

Lemma phase2_analyze_close_answers r code :
  listening r = true → rpromise (Phase2.analyze_on r (Close code)) ≠ Pending.
Proof.
  intros Hl. unfold Phase2.analyze_on. rewrite Hl. simpl.
  destruct (rpromise r) eqn:Hp.
  - destruct code as [[| |]|]; simpl; rewrite ?Hp; try done. apply settle_not_pending.
  - destruct code as [[| |]|]; simpl; rewrite ?Hp; try done.
    by destruct (Phase2.extract _).
  - destruct code as [[| |]|]; simpl; rewrite ?Hp; try done.
    by destruct (Phase2.extract _).
Qed.

Lemma v3_analyze_close_answers r code :
  listening r = true → rpromise (V3.analyze_on r (Close code)) ≠ Pending.
Proof.
  intros Hl. unfold V3.analyze_on. rewrite Hl. simpl.
  destruct (rpromise r) eqn:Hp.
  - destruct code as [[| |]|]; simpl; rewrite ?Hp; try done. apply settle_not_pending.
  - destruct code as [[| |]|]; simpl; rewrite ?Hp; try done.
    by destruct (V3.extract _).
  - destruct code as [[| |]|]; simpl; rewrite ?Hp; try done.
    by destruct (V3.extract _).
Qed.

Lemma phase2_analyze_start_cases cfg taskId courseId userId w :
  (∃ m, Phase2.analyzeTask cfg taskId courseId userId w = settled w (Rejected m))
  ∨ (∃ args, Phase2.analyzeTask cfg taskId courseId userId w
             = Run (spawn args w) Pending true [] [] true []).
Proof.
  unfold Phase2.analyzeTask.
  repeat match goal with |- context [if ?c then _ else _] => destruct c end; eauto.
Qed.

Lemma v3_analyze_start_cases cfg taskId courseId userId w :
  (∃ m, V3.analyzeTask cfg taskId courseId userId w = settled w (Rejected m))
  ∨ (∃ args, V3.analyzeTask cfg taskId courseId userId w
             = Run (spawn args w) Pending true [] [] true []).
Proof.
  unfold V3.analyzeTask. destruct (V3.scriptName taskId); [|eauto].
  repeat match goal with |- context [if ?c then _ else _] => destruct c end; eauto.
Qed.

(** Once the worker has closed, the promise of [analyzeTask] is
    settled, in a process that is alive. *)
Lemma phase2_analysis_settles (cfg : config) (taskId courseId : option jstring)
    (userId : jsval) (w : world) (before later : list event) (code : option Z) :
  crashed w = false →
  rpromise (fold_left Phase2.analyze_on (before ++ Close code :: later)
              (Phase2.analyzeTask cfg taskId courseId userId w)) ≠ Pending.
Proof.
  intros Hw.
  destruct (phase2_analyze_start_cases cfg taskId courseId userId w) as [[m ->]|[args ->]].
  - rewrite settled_ignores_events by apply phase2_analyze_deaf. done.
  - rewrite fold_left_app. cbn [fold_left].
    rewrite phase2_analyze_stays_settled;
      apply phase2_analyze_close_answers;
      rewrite (fold_invariant Phase2.analyze_on listening)
        by (intros; apply phase2_analyze_step_world);
      unfold listening; simpl; by rewrite Hw.
Qed.

Lemma v3_analysis_settles (cfg : config) (taskId courseId : option jstring)
    (userId : jsval) (w : world) (before later : list event) (code : option Z) :
  crashed w = false →
  rpromise (fold_left V3.analyze_on (before ++ Close code :: later)
              (V3.analyzeTask cfg taskId courseId userId w)) ≠ Pending.
Proof.
  intros Hw.
  destruct (v3_analyze_start_cases cfg taskId courseId userId w) as [[m ->]|[args ->]].
  - rewrite settled_ignores_events by apply v3_analyze_deaf. done.
  - rewrite fold_left_app. cbn [fold_left].
    rewrite v3_analyze_stays_settled;
      apply v3_analyze_close_answers;
      rewrite (fold_invariant V3.analyze_on listening)
        by (intros; apply v3_analyze_step_world);
      unfold listening; simpl; by rewrite Hw.
Qed.

(** X3.  No analysis is left without an answer once its worker has
    closed.  In a process that is alive, whatever the request, whatever
    came before the [close] and whatever comes after it, the promise of
    [analyzeTask] is settled at the end, in both revisions. *)
Theorem analysis_answers_after_close (cfg : config) (taskId courseId : option jstring)
    (userId : jsval) (w : world) (before later : list event) (code : option Z) :
  crashed w = false →
  rpromise (fold_left Phase2.analyze_on (before ++ Close code :: later)
              (Phase2.analyzeTask cfg taskId courseId userId w)) ≠ Pending
  ∧ rpromise (fold_left V3.analyze_on (before ++ Close code :: later)
                (V3.analyzeTask cfg taskId courseId userId w)) ≠ Pending.
Proof.
  intros Hw. split.
  - by apply phase2_analysis_settles.
  - by apply v3_analysis_settles.
Qed.

Lemma analysis_answers_after_close_witness :
  crashed world0 = false
  ∧ rpromise (fold_left Phase2.analyze_on
                ([Stdout (lit "no result here"); Elapsed 1000] ++ Close None :: [Elapsed 300000])
                (Phase2.analyzeTask cfg (Some (lit "find-duplicate-pages")) (Some (lit "101"))
                   JUndefined world0)) ≠ Pending.
Proof.
  split; [reflexivity|].
  apply (analysis_answers_after_close cfg (Some (lit "find-duplicate-pages"))
           (Some (lit "101")) JUndefined world0
           [Stdout (lit "no result here"); Elapsed 1000] [Elapsed 300000] None).
  reflexivity.
Defined.

(** Output only fills the two buffers. *)
Lemma phase2_analyze_buffers (events : list event) (r : run) :
  forallb is_output events = true → listening r = true →
  fold_left Phase2.analyze_on events r
  = with_error (error r ++ stderr_text events) (with_output (output r ++ stdout_text events) r).
Proof.
  revert r. induction events as [|e events IH]; intros r Ho Hl; simpl.
  - rewrite !app_nil_r. by destruct r.
  - simpl in Ho. apply andb_true_iff in Ho as [He Ho].
    destruct e as [c|c| | |]; try done.
    + rewrite IH; [|done|].
      * unfold Phase2.analyze_on. rewrite Hl. simpl. by rewrite <- app_assoc.
      * unfold Phase2.analyze_on. by rewrite Hl.
    + rewrite IH; [|done|].
      * unfold Phase2.analyze_on. rewrite Hl. simpl. by rewrite <- app_assoc.
      * unfold Phase2.analyze_on. by rewrite Hl.
Qed.

Lemma v3_analyze_buffers (events : list event) (r : run) :
  forallb is_output events = true → listening r = true →
  fold_left V3.analyze_on events r
  = with_error (error r ++ stderr_text events) (with_output (output r ++ stdout_text events) r).
Proof.
  revert r. induction events as [|e events IH]; intros r Ho Hl; simpl.
  - rewrite !app_nil_r. by destruct r.
  - simpl in Ho. apply andb_true_iff in Ho as [He Ho].
    destruct e as [c|c| | |]; try done.
    + rewrite IH; [|done|].
      * unfold V3.analyze_on. rewrite Hl. simpl. by rewrite <- app_assoc.
      * unfold V3.analyze_on. by rewrite Hl.
    + rewrite IH; [|done|].
      * unfold V3.analyze_on. rewrite Hl. simpl. by rewrite <- app_assoc.
      * unfold V3.analyze_on. by rewrite Hl.
Qed.

(** X4.  The listeners of an analysis only collect.  Each [data] event
    carries the text [data.toString()] gives for its chunk (a character
    that a chunk boundary cuts in two is decoded chunk by chunk, and is
    not put together again).  When a worker was spawned, printed and then
    closed, the promise is settled from the exit code and from the two
    concatenations of these texts, in the order of arrival, alone: the
    result document may span several events, and how the events of
    stdout and stderr interleave plays no role.  Each revision, for every
    task it starts a worker for. *)
Theorem analysis_reads_whole_output (cfg : config) (taskId courseId : option jstring)
    (userId : jsval) (w : world) (events : list event) (code : option Z) :
  forallb is_output events = true →
  (listening (Phase2.analyzeTask cfg taskId courseId userId w) = true →
   rpromise (fold_left Phase2.analyze_on (events ++ [Close code])
               (Phase2.analyzeTask cfg taskId courseId userId w))
   = match code with
     | Some 0%Z => settle (Phase2.extract (stdout_text events)) Pending
     | _ => Rejected (Phase2.errorMessage code (stderr_text events))
     end)
  ∧ (listening (V3.analyzeTask cfg taskId courseId userId w) = true →
     rpromise (fold_left V3.analyze_on (events ++ [Close code])
                 (V3.analyzeTask cfg taskId courseId userId w))
     = match code with
       | Some 0%Z => settle (V3.extract (stdout_text events)) Pending
       | _ => Rejected (V3.errorMessage code (stderr_text events))
       end).
Proof.
  intros Ho. split.
  - intros L2.
    destruct (phase2_analyze_start_cases cfg taskId courseId userId w) as [[m E]|[args E]];
      rewrite E in *; [discriminate|].
    rewrite fold_left_app, (phase2_analyze_buffers events _ Ho L2). cbn [fold_left].
    unfold Phase2.analyze_on, listening in *. simpl in *. rewrite L2.
    by destruct code as [[| |]|].
  - intros L3.
    destruct (v3_analyze_start_cases cfg taskId courseId userId w) as [[m E]|[args E]];
      rewrite E in *; [discriminate|].
    rewrite fold_left_app, (v3_analyze_buffers events _ Ho L3). cbn [fold_left].
    unfold V3.analyze_on, listening in *. simpl in *. rewrite L3.
    by destruct code as [[| |]|].
Qed.

Lemma analysis_reads_whole_output_witness :
  rpromise (fold_left Phase2.analyze_on (Scenarios.chunked_output ++ [Close (Some 0%Z)])
              phase2_analyze_start)
  = settle (Phase2.extract sample_stdout_snake) Pending
  ∧ rpromise (fold_left V3.analyze_on (Scenarios.chunked_output ++ [Close (Some 1%Z)])
                (V3.analyzeTask cfg (Some (lit "find-duplicate-pages")) (Some (lit "101"))
                   JUndefined world0))
    = Rejected (V3.errorMessage (Some 1%Z) (lit "DeprecationWarning: pkg_resources")).
Proof.
  split.
  - destruct (analysis_reads_whole_output cfg (Some (lit "find-duplicate-pages"))
                (Some (lit "101")) JUndefined world0 Scenarios.chunked_output (Some 0%Z))
      as [H _]; [reflexivity|].
    apply H. reflexivity.
  - destruct (analysis_reads_whole_output cfg (Some (lit "find-duplicate-pages"))
                (Some (lit "101")) JUndefined world0 Scenarios.chunked_output (Some 1%Z))
      as [_ H]; [reflexivity|].
    apply H. reflexivity.
Defined.

End Answers.

Section Footprint.
Import Js Json Node Trace Examples.

Lemma phase2_execute_start_cases cfg now taskId courseId userId approvedActions w :
  let file := path_join [dirname cfg; lit "temp";
    lit "approved_actions_" ++ display courseId ++ lit "_" ++ of_Z now ++ lit ".json"] in
  let w' := if existsSync (path_dirname file) w then w else mkdirSync (path_dirname file) w in
  (∃ m, Phase2.executeApprovedActions cfg now taskId courseId userId approvedActions w
        = settled w (Rejected m))
  ∨ (∃ m, Phase2.executeApprovedActions cfg now taskId courseId userId approvedActions w
          = settled w' (Rejected m))
  ∨ (∃ args, Phase2.executeApprovedActions cfg now taskId courseId userId approvedActions w
             = Run (spawn args (set_paths ({[file]} ∪ paths w') w')) Pending true [] []
                 false file).
Proof.
  cbv zeta. unfold Phase2.executeApprovedActions.
  destruct (field_is taskId _); [|eauto].
  destruct (eqs (env_or cfg _ _) []); [eauto|].
  cbv zeta. rewrite phase2_staging.
  destruct approvedActions; eauto.
Qed.

Lemma v3_execute_start_cases cfg now taskId courseId userId approvedActions w :
  let dir := path_join [dirname cfg; lit "temp"] in
  let file := path_join [dir;
    lit "approved_actions_" ++ display courseId ++ lit "_" ++ of_Z now ++ lit ".json"] in
  let w' := if existsSync dir w then w else mkdirSync dir w in
  (∃ m, V3.executeApprovedActions cfg now taskId courseId userId approvedActions w
        = settled w (Rejected m))
  ∨ (∃ m, V3.executeApprovedActions cfg now taskId courseId userId approvedActions w
          = settled w' (Rejected m))
  ∨ (∃ args, V3.executeApprovedActions cfg now taskId courseId userId approvedActions w
             = Run (spawn args (set_paths ({[file]} ∪ paths w') w')) Pending true [] []
                 false file).
Proof.
  cbv zeta. unfold V3.executeApprovedActions.
  destruct (V3.scriptName taskId) as [s|]; [|eauto].
  destruct (eqs s []); [eauto|].
  destruct (eqs (env_or cfg _ _) []); [eauto|].
  cbv zeta. unfold writeFileSync.
  destruct (has_directory _ _); destruct approvedActions; eauto.
Qed.

(** A listener of execute mode changes no path but [actionsFile]. *)
Lemma phase2_execute_step_paths a r e p :
  p ≠ actionsFile r →
  (p ∈ paths (rworld (Phase2.execute_on a r e)) ↔ p ∈ paths (rworld r)).
Proof.
  intros Hp. unfold Phase2.execute_on. destruct (listening r); [|done].
  destruct e; simpl; try done.
  unfold unlinkSync. destruct (existsSync _ _); simpl; [|done]. set_solver.
Qed.

Lemma v3_execute_step r e p :
  actionsFile (V3.execute_on r e) = actionsFile r
  ∧ (p ≠ actionsFile r → (p ∈ paths (rworld (V3.execute_on r e)) ↔ p ∈ paths (rworld r))).
Proof.
  unfold V3.execute_on. destruct (listening r); [|done].
  destruct e; simpl; try done.
  unfold unlinkSync. destruct (existsSync _ _); simpl; [|done].
  split; [done|]. set_solver.
Qed.

Lemma phase2_execute_fold_paths a events r p :
  p ≠ actionsFile r →
  (p ∈ paths (rworld (fold_left (Phase2.execute_on a) events r)) ↔ p ∈ paths (rworld r)).
Proof.
  revert r. induction events as [|e events IH]; intros r Hp; simpl; [done|].
  destruct (phase2_execute_step a r e p) as [Ha _].
  rewrite IH by (by rewrite Ha). by apply phase2_execute_step_paths.
Qed.

Lemma v3_execute_fold_paths events r p :
  p ≠ actionsFile r →
  (p ∈ paths (rworld (fold_left V3.execute_on events r)) ↔ p ∈ paths (rworld r)).
Proof.
  revert r. induction events as [|e events IH]; intros r Hp; simpl; [done|].
  destruct (v3_execute_step r e p) as (Ha & Hs).
  rewrite IH by (by rewrite Ha). by apply Hs.
Qed.

(** A course id with dot segments: the file is staged where
    [path.join] says, outside [temp]; and a course id with a slash makes
    the V3 revision ask for a directory that nobody created, so that
    [writeFileSync] throws and no worker is started. *)
Lemma phase2_stages_at_the_normalised_path :
  actionsFile (Phase2.executeApprovedActions cfg now (Some (lit "find-duplicate-pages"))
                 (Some (lit "a/../../b")) JUndefined one_action world0)
  = lit "/app/b_1700000000000.json"
  ∧ lit "/app/b_1700000000000.json"
    ∈ paths (rworld (Phase2.executeApprovedActions cfg now (Some (lit "find-duplicate-pages"))
                       (Some (lit "a/../../b")) JUndefined one_action world0)).
Proof. split; [vm_compute; reflexivity|]. apply (bool_decide_unpack _). vm_compute. exact I. Qed.

Lemma v3_rejects_a_missing_directory :
  rpromise (V3.executeApprovedActions cfg now (Some (lit "find-duplicate-pages"))
              (Some (lit "a/b")) JUndefined one_action world0)
  = Rejected (lit
      "ENOENT: no such file or directory, open '/app/temp/approved_actions_a/b_1700000000000.json'")
  ∧ spawned (rworld (V3.executeApprovedActions cfg now (Some (lit "find-duplicate-pages"))
                       (Some (lit "a/b")) JUndefined one_action world0)) = [].
Proof. split; vm_compute; reflexivity. Qed.

(** What staging does to a path that is neither the file nor a
    directory on the way to [dir]. *)
Lemma staging_keeps (p file dir : jstring) (w : world) :
  p ≠ file → p ∉ directories dir →
  (p ∈ paths (if existsSync dir w then w else mkdirSync dir w) ↔ p ∈ paths w)
  ∧ (p ∈ ({[file]} ∪ paths (if existsSync dir w then w else mkdirSync dir w) : gset jstring)
     ↔ p ∈ paths w).
Proof.
  intros Hf Hd.
  assert (H : p ∈ paths (if existsSync dir w then w else mkdirSync dir w) ↔ p ∈ paths w).
  { destruct (existsSync dir w); [done|]. simpl.
    rewrite elem_of_union, elem_of_list_to_set. tauto. }
  split; [exact H|]. rewrite elem_of_union, elem_of_singleton. tauto.
Qed.

(** X5.  What executing approved actions can do to the file system and
    to the process table.  Whatever the request (the course id may hold
    slashes and dot segments) and whatever the worker prints or does to
    its process, a call of [executeApprovedActions] changes no path other
    than the file it stages, at the normalised path [path.join] returns,
    and the directories on the way to the directory it asks
    [mkdirSync] to create with [recursive: true]; and it starts at most
    one process; in both revisions. *)
Theorem execution_footprint (cfg : config) (now : Z) (taskId courseId : option jstring)
    (userId approvedActions : jsval) (events : list event) (w : world) (p : jstring) :
  let name := lit "approved_actions_" ++ display courseId ++ lit "_" ++ of_Z now ++ lit ".json" in
  let file2 := path_join [dirname cfg; lit "temp"; name] in
  let dir3 := path_join [dirname cfg; lit "temp"] in
  let file3 := path_join [dir3; name] in
  let run2 := fold_left (Phase2.execute_on approvedActions) events
                (Phase2.executeApprovedActions cfg now taskId courseId userId approvedActions w) in
  let run3 := fold_left V3.execute_on events
                (V3.executeApprovedActions cfg now taskId courseId userId approvedActions w) in
  (p ≠ file2 → p ∉ directories (path_dirname file2) →
   (p ∈ paths (rworld run2) ↔ p ∈ paths w))
  ∧ (p ≠ file3 → p ∉ directories dir3 → (p ∈ paths (rworld run3) ↔ p ∈ paths w))
  ∧ (spawned (rworld run2) = spawned w ∨ ∃ args, spawned (rworld run2) = spawned w ++ [args])
  ∧ (spawned (rworld run3) = spawned w ∨ ∃ args, spawned (rworld run3) = spawned w ++ [args]).
Proof.
  cbv zeta. split; [|split; [|split]].
  - intros Hf Hd. destruct (staging_keeps p _ _ w Hf Hd) as [K1 K2].
    destruct (phase2_execute_start_cases cfg now taskId courseId userId approvedActions w)
      as [[m ->]|[[m ->]|[args ->]]].
    + by rewrite settled_ignores_events by apply phase2_execute_deaf.
    + rewrite settled_ignores_events by apply phase2_execute_deaf. exact K1.
    + rewrite phase2_execute_fold_paths by done. exact K2.
  - intros Hf Hd. destruct (staging_keeps p _ _ w Hf Hd) as [K1 K2].
    destruct (v3_execute_start_cases cfg now taskId courseId userId approvedActions w)
      as [[m ->]|[[m ->]|[args ->]]].
    + by rewrite settled_ignores_events by apply v3_execute_deaf.
    + rewrite settled_ignores_events by apply v3_execute_deaf. exact K1.
    + rewrite v3_execute_fold_paths by done. exact K2.
  - rewrite (fold_invariant (Phase2.execute_on approvedActions) (λ r, spawned (rworld r)))
      by (intros; apply phase2_execute_step_spawned).
    destruct (phase2_execute_start_cases cfg now taskId courseId userId approvedActions w)
      as [[m ->]|[[m ->]|[args ->]]]; simpl.
    + by left.
    + left. by destruct (existsSync _ w).
    + right. exists args. by destruct (existsSync _ w).
  - rewrite (fold_invariant V3.execute_on (λ r, spawned (rworld r)))
      by (intros; apply v3_execute_step_spawned).
    destruct (v3_execute_start_cases cfg now taskId courseId userId approvedActions w)
      as [[m ->]|[[m ->]|[args ->]]]; simpl.
    + by left.
    + left. by destruct (existsSync _ w).
    + right. exists args. by destruct (existsSync _ w).
Qed.

Lemma execution_footprint_witness :
  (Scenarios.worker_script
     ∈ paths (rworld (fold_left (Phase2.execute_on one_action) [Close (Some 1%Z)]
                        (Phase2.executeApprovedActions cfg now
                           (Some (lit "find-duplicate-pages")) (Some (lit "a/../../b"))
                           JUndefined one_action world0)))
   ↔ Scenarios.worker_script ∈ paths world0)
  ∧ (Scenarios.worker_script
       ∈ paths (rworld (fold_left V3.execute_on [Close (Some 1%Z)]
                          (V3.executeApprovedActions cfg now
                             (Some (lit "find-duplicate-pages")) (Some (lit "a/../../b"))
                             JUndefined one_action world0)))
     ↔ Scenarios.worker_script ∈ paths world0).
Proof.
  destruct (execution_footprint cfg now (Some (lit "find-duplicate-pages"))
              (Some (lit "a/../../b")) JUndefined one_action [Close (Some 1%Z)] world0
              Scenarios.worker_script) as (H2 & H3 & _).
  split.
  - apply H2; [vm_compute; discriminate|].
    apply (bool_decide_unpack _). vm_compute. exact I.
  - apply H3; [vm_compute; discriminate|].
    apply (bool_decide_unpack _). vm_compute. exact I.
Defined.

End Footprint.

Section Signals.
Import Js Json Node Trace Examples.

Lemma phase2_analyze_early r e :
  before_deadline e = true →
  signals (rworld (Phase2.analyze_on r e)) = signals (rworld r).
Proof.
  intros He. unfold Phase2.analyze_on. destruct (listening r); [|done].
  destruct e as [c|c|code|c m|ms]; simpl in *; try done.
  apply Z.ltb_lt in He. unfold Phase2.timeoutMs.
  destruct (Z.leb_spec 300000 ms); [lia|]. by rewrite andb_false_r.
Qed.

Lemma v3_analyze_early r e :
  before_deadline e = true →
  signals (rworld (V3.analyze_on r e)) = signals (rworld r).
Proof.
  intros He. unfold V3.analyze_on. destruct (listening r); [|done].
  destruct e as [c|c|code|c m|ms]; simpl in *; try done.
  apply Z.ltb_lt in He. unfold V3.timeoutMs.
  destruct (Z.leb_spec 300000 ms); [lia|]. by rewrite andb_false_r.
Qed.

Lemma fold_early (step : run → event → run) (events : list event) (r : run) :
  (∀ r e, before_deadline e = true → signals (rworld (step r e)) = signals (rworld r)) →
  forallb before_deadline events = true →
  signals (rworld (fold_left step events r)) = signals (rworld r).
Proof.
  intros Hstep. revert r. induction events as [|e events IH]; intros r H; simpl; [done|].
  simpl in H. apply andb_true_iff in H as [He H]. by rewrite IH, Hstep.
Qed.

(** Once the timer is cleared, no listener of [analyzeTask] sends a
    signal, and the timer stays cleared. *)
Lemma phase2_analyze_cleared r e :
  timer r = false →
  timer (Phase2.analyze_on r e) = false
  ∧ signals (rworld (Phase2.analyze_on r e)) = signals (rworld r).
Proof.
  intros Ht. unfold Phase2.analyze_on. destruct (listening r); [|done].
  destruct e as [c|c|code|c m|ms]; simpl; try done.
  - by destruct code as [[| |]|].
  - by destruct (eqs c _).
  - by rewrite Ht.
Qed.

Lemma v3_analyze_cleared r e :
  timer r = false →
  timer (V3.analyze_on r e) = false
  ∧ signals (rworld (V3.analyze_on r e)) = signals (rworld r).
Proof.
  intros Ht. unfold V3.analyze_on. destruct (listening r); [|done].
  destruct e as [c|c|code|c m|ms]; simpl; try done.
  - by destruct code as [[| |]|].
  - by destruct (eqs c _).
  - by rewrite Ht.
Qed.

Lemma fold_cleared (step : run → event → run) (events : list event) (r : run) :
  (∀ r e, timer r = false →
          timer (step r e) = false ∧ signals (rworld (step r e)) = signals (rworld r)) →
  timer r = false →
  signals (rworld (fold_left step events r)) = signals (rworld r).
Proof.
  intros Hstep. revert r. induction events as [|e events IH]; intros r H; simpl; [done|].
  destruct (Hstep r e H) as [Ht Hs]. by rewrite IH, Hs.
Qed.

Lemma phase2_analyze_end_clears r e :
  is_end e = true →
  (timer (Phase2.analyze_on r e) = false ∨ listening r = false)
  ∧ signals (rworld (Phase2.analyze_on r e)) = signals (rworld r).
Proof.
  intros He. unfold Phase2.analyze_on. destruct (listening r); [|by split; [right|]].
  destruct e as [c|c|code|c m|ms]; simpl in *; try done.
  - destruct code as [[| |]|]; (split; [by left|done]).
  - destruct (eqs c _); (split; [by left|done]).
Qed.

Lemma v3_analyze_end_clears r e :
  is_end e = true →
  (timer (V3.analyze_on r e) = false ∨ listening r = false)
  ∧ signals (rworld (V3.analyze_on r e)) = signals (rworld r).
Proof.
  intros He. unfold V3.analyze_on. destruct (listening r); [|by split; [right|]].
  destruct e as [c|c|code|c m|ms]; simpl in *; try done.
  - destruct code as [[| |]|]; (split; [by left|done]).
  - destruct (eqs c _); (split; [by left|done]).
Qed.

Lemma fold_deaf_signals (step : run → event → run) (events : list event) (r : run) :
  (∀ r e, listening r = false → step r e = r) →
  listening r = false →
  signals (rworld (fold_left step events r)) = signals (rworld r).
Proof. intros Hstep Hl. by rewrite fold_left_fixed by (intros; by apply Hstep). Qed.

(** X6.  No signal is sent to a worker that has ended.  When the worker
    closes, or fails to start, before the deadline of 300000 ms, a call of
    [analyzeTask] never sends a signal: the timer is cleared, and a later
    tick of the clock finds nothing to do.  Both revisions. *)
Theorem no_signal_once_the_worker_ended (cfg : config) (taskId courseId : option jstring)
    (userId : jsval) (w : world) (before later : list event) (ending : event) :
  forallb before_deadline before = true →
  is_end ending = true →
  signals (rworld (fold_left Phase2.analyze_on (before ++ ending :: later)
                     (Phase2.analyzeTask cfg taskId courseId userId w))) = signals w
  ∧ signals (rworld (fold_left V3.analyze_on (before ++ ending :: later)
                       (V3.analyzeTask cfg taskId courseId userId w))) = signals w.
Proof.
  intros Hb He. split.
  - rewrite fold_left_app. cbn [fold_left].
    set (r := fold_left Phase2.analyze_on before _).
    assert (Hr : signals (rworld r) = signals w).
    { unfold r. rewrite (fold_early Phase2.analyze_on before _ phase2_analyze_early Hb).
      by destruct (phase2_analyze_start_cases cfg taskId courseId userId w)
        as [[m ->]|[args ->]]. }
    destruct (phase2_analyze_end_clears r ending He) as [[Ht|Hl] Hs].
    + rewrite (fold_cleared Phase2.analyze_on later _ phase2_analyze_cleared Ht).
      by rewrite Hs.
    + rewrite (phase2_analyze_deaf r ending Hl).
      by rewrite (fold_deaf_signals Phase2.analyze_on later r phase2_analyze_deaf Hl).
  - rewrite fold_left_app. cbn [fold_left].
    set (r := fold_left V3.analyze_on before _).
    assert (Hr : signals (rworld r) = signals w).
    { unfold r. rewrite (fold_early V3.analyze_on before _ v3_analyze_early Hb).
      by destruct (v3_analyze_start_cases cfg taskId courseId userId w)
        as [[m ->]|[args ->]]. }
    destruct (v3_analyze_end_clears r ending He) as [[Ht|Hl] Hs].
    + rewrite (fold_cleared V3.analyze_on later _ v3_analyze_cleared Ht).
      by rewrite Hs.
    + rewrite (v3_analyze_deaf r ending Hl).
      by rewrite (fold_deaf_signals V3.analyze_on later r v3_analyze_deaf Hl).
Qed.

Lemma no_signal_once_the_worker_ended_witness :
  signals (rworld (fold_left Phase2.analyze_on
                     ([Stdout sample_stdout; Elapsed 299999] ++ Close (Some 0%Z)
                        :: [Elapsed 300000; Elapsed 600000])
                     (Phase2.analyzeTask cfg (Some (lit "find-duplicate-pages"))
                        (Some (lit "101")) JUndefined world0))) = signals world0.
Proof.
  apply (no_signal_once_the_worker_ended cfg (Some (lit "find-duplicate-pages"))
           (Some (lit "101")) JUndefined world0
           [Stdout sample_stdout; Elapsed 299999] [Elapsed 300000; Elapsed 600000]
           (Close (Some 0%Z))); reflexivity.
Defined.

End Signals.

Section OneSignal.
Import Js Json Node Trace Examples.

(** The two states of an analyze-mode call, seen from the worker: not
    signalled, with the promise pending as long as the timer is; or
    signalled once, by the timer, with the promise rejected. *)
Lemma phase2_analyze_signal_step (base : list jstring) (r : run) (e : event) :
  (signals (rworld r) = base ∧ (timer r = true → rpromise r = Pending))
  ∨ (signals (rworld r) = base ++ [lit "SIGTERM"] ∧ timer r = false
     ∧ rpromise r = Rejected Phase2.analysis_timeout_message) →
  (signals (rworld (Phase2.analyze_on r e)) = base
   ∧ (timer (Phase2.analyze_on r e) = true → rpromise (Phase2.analyze_on r e) = Pending))
  ∨ (signals (rworld (Phase2.analyze_on r e)) = base ++ [lit "SIGTERM"]
     ∧ timer (Phase2.analyze_on r e) = false
     ∧ rpromise (Phase2.analyze_on r e) = Rejected Phase2.analysis_timeout_message).
Proof.
  intros [[Hs Hp]|(Hs & Ht & Hp)].
  - unfold Phase2.analyze_on. destruct (listening r); [|by left].
    destruct e as [c|c|code|c m|ms]; cbn [negb]; try (by left).
    + left. by destruct code as [[| |]|].
    + left. by destruct (eqs c _).
    + destruct (timer r && (Phase2.timeoutMs <=? ms)%Z) eqn:Hb; [|by left].
      apply andb_true_iff in Hb as [Ht _].
      right. simpl. rewrite Hs, (Hp Ht). done.
  - right. destruct (phase2_analyze_cleared r e Ht) as [Ht' Hs'].
    rewrite Ht', Hs', Hs. repeat split.
    rewrite phase2_analyze_keeps_settled; [done|]. by rewrite Hp.
Qed.

Lemma v3_analyze_signal_step (base : list jstring) (r : run) (e : event) :
  (signals (rworld r) = base ∧ (timer r = true → rpromise r = Pending))
  ∨ (signals (rworld r) = base ++ [lit "SIGTERM"] ∧ timer r = false
     ∧ rpromise r = Rejected V3.analysis_timeout_message) →
  (signals (rworld (V3.analyze_on r e)) = base
   ∧ (timer (V3.analyze_on r e) = true → rpromise (V3.analyze_on r e) = Pending))
  ∨ (signals (rworld (V3.analyze_on r e)) = base ++ [lit "SIGTERM"]
     ∧ timer (V3.analyze_on r e) = false
     ∧ rpromise (V3.analyze_on r e) = Rejected V3.analysis_timeout_message).
Proof.
  intros [[Hs Hp]|(Hs & Ht & Hp)].
  - unfold V3.analyze_on. destruct (listening r); [|by left].
    destruct e as [c|c|code|c m|ms]; cbn [negb]; try (by left).
    + left. by destruct code as [[| |]|].
    + left. by destruct (eqs c _).
    + destruct (timer r && (V3.timeoutMs <=? ms)%Z) eqn:Hb; [|by left].
      apply andb_true_iff in Hb as [Ht _].
      right. simpl. rewrite Hs, (Hp Ht). done.
  - right. destruct (v3_analyze_cleared r e Ht) as [Ht' Hs'].
    rewrite Ht', Hs', Hs. repeat split.
    rewrite v3_analyze_keeps_settled; [done|]. by rewrite Hp.
Qed.

Lemma fold_signal_states (step : run → event → run) (P : run → Prop) (events : list event)
    (r : run) :
  (∀ r e, P r → P (step r e)) → P r → P (fold_left step events r).
Proof.
  intros Hstep. revert r. induction events as [|e events IH]; intros r H; simpl; [done|].
  by apply IH, Hstep.
Qed.

(** X17.  A worker is signalled at most once, and only by the timer.
    Whatever the request and whatever the worker does, a call of
    [analyzeTask] either sends no signal, or sends one [SIGTERM] and
    rejects with the time-out message; in both revisions. *)
Theorem signal_means_timeout (cfg : config) (taskId courseId : option jstring)
    (userId : jsval) (w : world) (events : list event) :
  let run2 := fold_left Phase2.analyze_on events (Phase2.analyzeTask cfg taskId courseId userId w) in
  let run3 := fold_left V3.analyze_on events (V3.analyzeTask cfg taskId courseId userId w) in
  (signals (rworld run2) = signals w
   ∨ signals (rworld run2) = signals w ++ [lit "SIGTERM"]
     ∧ rpromise run2 = Rejected Phase2.analysis_timeout_message)
  ∧ (signals (rworld run3) = signals w
     ∨ signals (rworld run3) = signals w ++ [lit "SIGTERM"]
       ∧ rpromise run3 = Rejected V3.analysis_timeout_message).
Proof.
  cbv zeta. split.
  - pose proof (fold_signal_states Phase2.analyze_on _ events
                  (Phase2.analyzeTask cfg taskId courseId userId w)
                  (phase2_analyze_signal_step (signals w))) as H.
    destruct H as [[Hs _]|(Hs & _ & Hp)]; [|by left|by right].
    left. by destruct (phase2_analyze_start_cases cfg taskId courseId userId w)
      as [[m ->]|[args ->]].
  - pose proof (fold_signal_states V3.analyze_on _ events
                  (V3.analyzeTask cfg taskId courseId userId w)
                  (v3_analyze_signal_step (signals w))) as H.
    destruct H as [[Hs _]|(Hs & _ & Hp)]; [|by left|by right].
    left. by destruct (v3_analyze_start_cases cfg taskId courseId userId w)
      as [[m ->]|[args ->]].
Qed.

End OneSignal.

Section Bounds.
Import Js Json Node Trace Examples.
Local Open Scope nat_scope.

Lemma length_substring0 (n : nat) (s : jstring) : length (substring0 n s) ≤ n.
Proof. unfold substring0. rewrite length_take. lia. Qed.

(** X7.  What analyze mode tells the user about a failed worker is
    bounded.  When stderr is not empty and does not name a
    [ModuleNotFoundError], the message built from the exit code and stderr
    has at most 221 code units (336 in the V3 revision), however much the
    worker wrote; and the message that rejects an unrecognised output, in
    [qa-automation-lti.js], has at most 571. *)
Theorem analysis_failure_message_is_bounded (code : option Z) (error output : jstring) :
  includes error (lit "ModuleNotFoundError") = false →
  error ≠ [] →
  length (Phase2.errorMessage code error) ≤ 221
  ∧ length (V3.errorMessage code error) ≤ 336
  ∧ match Phase2.extract output with
    | Reject m => length m ≤ 571
    | Resolve _ => True
    end.
Proof.
  intros Hm He. apply eqs_false in He.
  split; [|split].
  - unfold Phase2.errorMessage, Phase2.classify. rewrite Hm, He. cbn [negb].
    repeat match goal with
           | |- context [if ?b then _ else _] => destruct b
           end; cbn [negb Phase2.message_of];
      try (apply Nat.leb_le; vm_compute; reflexivity).
    rewrite length_app. pose proof (length_substring0 200 error).
    change (length (lit "Python script error: ")) with 21. lia.
  - unfold V3.errorMessage, V3.classify. rewrite Hm, He. cbn [negb].
    repeat match goal with
           | |- context [if ?b then _ else _] => destruct b
           end; cbn [negb V3.message_of];
      try (apply Nat.leb_le; vm_compute; reflexivity).
    rewrite !length_app. pose proof (length_substring0 300 error).
    change (length (lit "The script encountered an error: ")) with 33.
    change (length (lit "...")) with 3. lia.
  - unfold Phase2.extract.
    destruct (Phase2.strategy1 output); [done|].
    destruct (Phase2.strategy2 output); [done|].
    destruct (Phase2.strategy3 output); [done|].
    destruct (Phase2.strategy4 output); [done|].
    rewrite length_app. pose proof (length_substring0 500 output).
    change (length (lit _)) with 71. lia.
Qed.

Lemma analysis_failure_message_is_bounded_witness :
  length (Phase2.errorMessage (Some 1%Z) (lit "Traceback: boom")) ≤ 221
  ∧ length (V3.errorMessage (Some 1%Z) (lit "Traceback: boom")) ≤ 336
  ∧ match Phase2.extract two_blobs with
    | Reject m => length m ≤ 571
    | Resolve _ => True
    end.
Proof.
  apply (analysis_failure_message_is_bounded (Some 1%Z) (lit "Traceback: boom") two_blobs).
  - vm_compute. reflexivity.
  - vm_compute. discriminate.
Defined.

End Bounds.

Section ExecutionAnswer.
Import Js Json Node Trace Examples.





End ExecutionAnswer.

Section Checks.
Import Js Json Node Trace Examples.

Lemma is_zero_length (l : list jsval) (len : jsval) :
  get (JArr l) (lit "length") = Some len → is_zero len = false → ∃ a l', l = a :: l'.
Proof.
  destruct l as [|a l']; [|by eauto].
  vm_compute. intros [= <-]. done.
Qed.

(** X15.  A worker is started for checked requests only.  Whatever the
    request and the state of the process, each handler either starts no
    process at all, or the request passed every check on the way to
    [spawn]: [POST /execute] needs a course id, the task of the registry,
    the credential and the script on disk, in both revisions;
    [POST /execute-approved] of the V3 revision needs a course id, a known
    task, the credential and a non-empty array of actions; that of
    [qa-automation-lti.js] needs the task and the credential only. *)
Theorem worker_starts_only_for_checked_requests (cfg : config) (now : Z) (req : request)
    (events : list event) (w : world) :
  (spawned (fst (Phase2.post_execute cfg req events w)) = spawned w
   ∨ (falsy_field (courseId req) = false
      ∧ taskId req = Some (lit "find-duplicate-pages")
      ∧ env_or cfg (lit "CANVAS_API_TOKEN") [] ≠ []
      ∧ existsSync (Phase2.scriptPath cfg) w = true))
  ∧ (spawned (fst (V3.post_execute cfg req events w)) = spawned w
     ∨ (falsy_field (courseId req) = false
        ∧ (∃ s, V3.scriptName (taskId req) = Some s
                ∧ existsSync (path_join [dirname cfg; lit "scripts"; s]) w = true)
        ∧ env_or cfg (lit "CANVAS_API_TOKEN") [] ≠ []))
  ∧ (spawned (fst (V3.post_execute_approved cfg now req events w)) = spawned w
     ∨ (falsy_field (courseId req) = false
        ∧ is_Some (V3.scriptName (taskId req))
        ∧ env_or cfg (lit "CANVAS_API_TOKEN") [] ≠ []
        ∧ ∃ a l, approvedActions req = JArr (a :: l)))
  ∧ (spawned (fst (Phase2.post_execute_approved cfg now req events w)) = spawned w
     ∨ (taskId req = Some (lit "find-duplicate-pages")
        ∧ env_or cfg (lit "CANVAS_API_TOKEN") [] ≠ []
        ∧ approvedActions req ≠ JUndefined)).
Proof.
  split; [|split; [|split]].
  - unfold Phase2.post_execute.
    destruct (falsy_field (taskId req)); [by left|].
    destruct (falsy_field (courseId req)) eqn:Hc; [by left|].
    cbn [fst].
    rewrite (fold_invariant Phase2.analyze_on (λ r, spawned (rworld r)))
      by (intros; apply phase2_analyze_step_world).
    unfold Phase2.analyzeTask.
    destruct (field_is (taskId req) _) eqn:Ht; [|by left].
    destruct (eqs (env_or cfg (lit "CANVAS_API_TOKEN") []) []) eqn:Hk; [by left|].
    destruct (eqs (env_or cfg (lit "CANVAS_URL") _) []); [by left|].
    destruct (existsSync (Phase2.scriptPath cfg) w) eqn:Hs; [|by left].
    right. apply eqs_false in Hk. repeat split; try done.
    destruct (taskId req) as [s|]; [|done]. simpl in Ht. by apply eqs_true in Ht as ->.
  - unfold V3.post_execute.
    destruct (falsy_field (taskId req)); [by left|].
    destruct (falsy_field (courseId req)) eqn:Hc; [by left|].
    cbn [orb fst].
    rewrite (fold_invariant V3.analyze_on (λ r, spawned (rworld r)))
      by (intros; apply v3_analyze_step_world).
    unfold V3.analyzeTask.
    destruct (V3.scriptName (taskId req)) as [s|] eqn:Hn; [|by left].
    destruct (eqs s []); [by left|].
    destruct (eqs (env_or cfg (lit "CANVAS_API_TOKEN") []) []) eqn:Hk; [by left|].
    destruct (existsSync _ w) eqn:Hs; [|by left].
    right. apply eqs_false in Hk. repeat split; try done. by exists s.
  - unfold V3.post_execute_approved.
    destruct (get (approvedActions req) (lit "length")) as [len|] eqn:Hlen; [|by left].
    destruct (falsy_field (taskId req)); [by left|].
    destruct (falsy_field (courseId req)) eqn:Hc; [by left|].
    destruct (is_array (approvedActions req)) eqn:Ha; [|by left].
    cbn [orb negb].
    destruct (is_zero len) eqn:Hz; [by left|].
    cbn [fst].
    rewrite (fold_invariant V3.execute_on (λ r, spawned (rworld r)))
      by (intros; apply v3_execute_step_spawned).
    unfold V3.executeApprovedActions.
    destruct (V3.scriptName (taskId req)) as [s|] eqn:Hn; [|by left].
    destruct (eqs s []); [by left|].
    destruct (eqs (env_or cfg (lit "CANVAS_API_TOKEN") []) []) eqn:Hk; [by left|].
    right. apply eqs_false in Hk. repeat split; try done.
    destruct (approvedActions req) as [| | | | |l|]; try done.
    destruct (is_zero_length l len Hlen Hz) as (a & l' & ->). by exists a, l'.
  - unfold Phase2.post_execute_approved. cbn [fst].
    rewrite (fold_invariant (Phase2.execute_on (approvedActions req)) (λ r, spawned (rworld r)))
      by (intros; apply phase2_execute_step_spawned).
    unfold Phase2.executeApprovedActions.
    destruct (field_is (taskId req) _) eqn:Ht; [|by left].
    destruct (eqs (env_or cfg (lit "CANVAS_API_TOKEN") []) []) eqn:Hk; [by left|].
    assert (Hid : taskId req = Some (lit "find-duplicate-pages")).
    { destruct (taskId req) as [s|]; [|done]. simpl in Ht. by apply eqs_true in Ht as ->. }
    apply eqs_false in Hk.
    destruct (approvedActions req) eqn:Ha; try (by right).
    left. simpl. by destruct (existsSync _ w).
Qed.

End Checks.

Section Responses.
Import Js Json Node Trace Examples.

Lemma phase2_analyze_step_crashed r e :
  crashed (rworld (Phase2.analyze_on r e)) = crashed (rworld r).
Proof.
  unfold Phase2.analyze_on. destruct (listening r); [|done].
  destruct e as [c|c|code|c m|ms]; simpl; try done.
  - by destruct code as [[| |]|].
  - by destruct (eqs c _).
  - by destruct (timer r && _).
Qed.

Lemma v3_analyze_step_crashed r e :
  crashed (rworld (V3.analyze_on r e)) = crashed (rworld r).
Proof.
  unfold V3.analyze_on. destruct (listening r); [|done].
  destruct e as [c|c|code|c m|ms]; simpl; try done.
  - by destruct code as [[| |]|].
  - by destruct (eqs c _).
  - by destruct (timer r && _).
Qed.

Lemma phase2_analyze_start_crashed cfg taskId courseId userId w :
  crashed (rworld (Phase2.analyzeTask cfg taskId courseId userId w)) = crashed w.
Proof.
  by destruct (phase2_analyze_start_cases cfg taskId courseId userId w) as [[m ->]|[args ->]].
Qed.

Lemma v3_analyze_start_crashed cfg taskId courseId userId w :
  crashed (rworld (V3.analyzeTask cfg taskId courseId userId w)) = crashed w.
Proof.
  by destruct (v3_analyze_start_cases cfg taskId courseId userId w) as [[m ->]|[args ->]].
Qed.

(** X16.  Every [POST /execute] is answered once its worker has closed.
    In a process that is alive, whatever the request and whatever the
    worker printed before the [close] or does after it, the handler sends
    one response, and its status agrees with its body: 200 with
    [success: true], or 500 with [success: false]; in both revisions. *)
Theorem execute_request_is_answered (cfg : config) (req : request) (w : world)
    (before later : list event) (code : option Z) :
  crashed w = false →
  (∃ resp, snd (Phase2.post_execute cfg req (before ++ Close code :: later) w) = Some resp
           ∧ (status resp = 200%Z ∧ get (body resp) (lit "success") = Some (JBool true)
              ∨ status resp = 500%Z ∧ get (body resp) (lit "success") = Some (JBool false)))
  ∧ (∃ resp, snd (V3.post_execute cfg req (before ++ Close code :: later) w) = Some resp
             ∧ (status resp = 200%Z ∧ get (body resp) (lit "success") = Some (JBool true)
                ∨ status resp = 500%Z ∧ get (body resp) (lit "success") = Some (JBool false))).
Proof.
  intros Hw. split.
  - unfold Phase2.post_execute.
    destruct (falsy_field (taskId req)); [eexists; split; [done|by right]|].
    destruct (falsy_field (courseId req)); [eexists; split; [done|by right]|].
    cbn [snd]. unfold respond.
    rewrite (fold_invariant Phase2.analyze_on (λ r, crashed (rworld r)))
      by (intros; apply phase2_analyze_step_crashed).
    rewrite phase2_analyze_start_crashed, Hw.
    pose proof (phase2_analysis_settles cfg (taskId req) (courseId req) (userId req) w
                  before later code Hw) as Hp.
    destruct (rpromise _) as [|v|m]; [done| |]; eexists; (split; [done|]).
    + by left.
    + by right.
  - unfold V3.post_execute.
    destruct (falsy_field (taskId req) || falsy_field (courseId req));
      [eexists; split; [done|by right]|].
    cbn [snd]. unfold respond.
    rewrite (fold_invariant V3.analyze_on (λ r, crashed (rworld r)))
      by (intros; apply v3_analyze_step_crashed).
    rewrite v3_analyze_start_crashed, Hw.
    pose proof (v3_analysis_settles cfg (taskId req) (courseId req) (userId req) w
                  before later code Hw) as Hp.
    destruct (rpromise _) as [|v|m]; [done| |]; eexists; (split; [done|]).
    + by left.
    + by right.
Qed.

Lemma execute_request_is_answered_witness :
  ∃ resp, snd (Phase2.post_execute cfg (approve JUndefined)
                 ([Stdout sample_stdout_snake] ++ Close (Some 0%Z) :: []) world0) = Some resp
          ∧ (status resp = 200%Z ∧ get (body resp) (lit "success") = Some (JBool true)
             ∨ status resp = 500%Z ∧ get (body resp) (lit "success") = Some (JBool false)).
Proof.
  destruct (execute_request_is_answered cfg (approve JUndefined) world0
              [Stdout sample_stdout_snake] [] (Some 0%Z)) as [H _]; [reflexivity|].
  exact H.
Defined.

End Responses.

Section Sentinel.
Import Js Json Node Lines Examples.

(** White space, then the rest of the pattern. *)
Lemma rmatch_after_space (r3 : regex) (gap rest : jstring) (m : match_result) (ms : list match_result) :
  forallb cls_space gap = true →
  match rest with [] => true | c :: _ => negb (cls_space c) end = true →
  rmatch r3 rest = m :: ms →
  ∃ tl, rmatch (RCat (RStar cls_space) r3) (gap ++ rest) = join gap [] m :: tl.
Proof.
  intros Hg Hr Hm. cbn [rmatch].
  destruct (splits_greedy_head cls_space gap rest Hg Hr) as [tl ->].
  cbn [map flat_map fst snd]. rewrite Hm. cbn [map app]. by eexists.
Qed.

Lemma rmatch_line (c : N) (line after : jstring) :
  forallb cls_dot (c :: line) = true → ends_line after = true →
  ∃ tl, rmatch (RGroup (RPlus cls_dot)) (c :: line ++ after)
        = (c :: line, [c :: line], after) :: tl.
Proof.
  intros Hl Ha. simpl in Hl. apply andb_true_iff in Hl as [Hc Hl].
  cbn [rmatch]. rewrite Hc.
  destruct (splits_greedy_head cls_dot line after Hl) as [tl ->].
  { destruct after as [|d after]; [done|]. simpl in Ha. unfold cls_dot.
    by rewrite Ha. }
  cbn [map fst snd]. by eexists.
Qed.

(** The pattern [/<sentinel>\s*(.+)/] on an output that holds the
    sentinel once, followed by a line. *)
Lemma re_match_result_line (S0 : jstring) (k : N) (before gap : jstring) (c : N)
    (line after : jstring) :
  k ∉ S0 → includes before (S0 ++ [k]) = false →
  forallb cls_space gap = true → cls_space c = false →
  forallb cls_dot (c :: line) = true → ends_line after = true →
  re_match (RCat (RLit (S0 ++ [k])) (RCat (RStar cls_space) (RGroup (RPlus cls_dot))))
    (before ++ (S0 ++ [k]) ++ gap ++ c :: line ++ after)
  = Some ((S0 ++ [k]) ++ gap ++ c :: line, [c :: line]).
Proof.
  intros Hk Hb Hg Hc Hl Ha.
  rewrite (re_match_skips S0 k _ before _ Hk Hb).
  destruct (rmatch_line c line after Hl Ha) as [tl1 H1].
  destruct (rmatch_after_space _ gap (c :: line ++ after) _ _ Hg
              ltac:(simpl; by rewrite Hc) H1) as [tl2 H2].
  assert (H3 : rmatch (RCat (RLit (S0 ++ [k])) (RCat (RStar cls_space) (RGroup (RPlus cls_dot))))
                 ((S0 ++ [k]) ++ gap ++ c :: line ++ after)
               = ((S0 ++ [k]) ++ gap ++ c :: line, [c :: line], after)
                 :: map (join (S0 ++ [k]) []) tl2).
  { rewrite rmatch_sentinel, H2. reflexivity. }
  destruct ((S0 ++ [k]) ++ gap ++ c :: line ++ after) eqn:E; cbn [re_match]; by rewrite H3.
Qed.

(** X9.  The result line of a worker is found wherever it stands.  When
    the output holds the sentinel [ENHANCED_ANALYSIS_JSON:] for the first
    time, followed by white space and a line, strategy 1 of
    [qa-automation-lti.js] parses exactly that line: what the worker
    printed before the sentinel and after the end of the line plays no
    role, and when the line is a document the dashboard can show, the
    analysis resolves with it. *)
Theorem result_line_is_found (before gap : jstring) (c : N) (line after : jstring) :
  includes before (lit "ENHANCED_ANALYSIS_JSON:") = false →
  forallb cls_space gap = true →
  cls_space c = false →
  forallb cls_dot (c :: line) = true →
  ends_line after = true →
  let output := before ++ lit "ENHANCED_ANALYSIS_JSON:" ++ gap ++ c :: line ++ after in
  Phase2.strategy1 output = JSON_parse (c :: line) ≫= Phase2.enhanced_result
  ∧ match JSON_parse (c :: line) ≫= Phase2.enhanced_result with
    | Some v => Phase2.extract output = Resolve v
    | None => True
    end.
Proof.
  intros Hb Hg Hc Hl Ha output.
  assert (E : Phase2.strategy1 output = JSON_parse (c :: line) ≫= Phase2.enhanced_result).
  { unfold Phase2.strategy1, Phase2.enhanced_re, output.
    change (lit "ENHANCED_ANALYSIS_JSON:") with (lit "ENHANCED_ANALYSIS_JSON" ++ [58]) in *.
    rewrite (re_match_result_line _ 58 before gap c line after); try done.
    vm_compute. set_solver. }
  split; [exact E|].
  destruct (JSON_parse (c :: line) ≫= Phase2.enhanced_result) as [v|] eqn:Ev; [|done].
  unfold Phase2.extract. by rewrite E.
Qed.

Lemma result_line_is_found_witness :
  Phase2.strategy1 (Scenarios.progress_lines ++ lit "ENHANCED_ANALYSIS_JSON:" ++ lit " "
                    ++ Scenarios.result_document ++ Scenarios.closing_lines)
  = JSON_parse Scenarios.result_document ≫= Phase2.enhanced_result.
Proof.
  destruct (result_line_is_found Scenarios.progress_lines (lit " ") 123
              (tail Scenarios.result_document) Scenarios.closing_lines) as [H _];
    [vm_compute; reflexivity ..|].
  exact H.
Defined.

Lemma no_close_not_in (s : jstring) : no_close s = true → 125 ∉ s.
Proof.
  unfold no_close. induction s as [|c s IH]; simpl; [set_solver|].
  intros H. apply andb_true_iff in H as [Hc Hs]. apply negb_true_iff, N.eqb_neq in Hc.
  apply not_elem_of_cons. split; [congruence|by apply IH].
Qed.

(** The group of the V3 pattern on a text that starts with a brace. *)
Lemma rmatch_braces (mid after : jstring) :
  125 ∉ after →
  ∃ tl, rmatch (RGroup Phase2.jsonPattern) (123 :: mid ++ 125 :: after)
        = (123 :: mid ++ [125], [123 :: mid ++ [125]], after) :: tl.
Proof.
  intros Ha.
  assert (E : rmatch Phase2.jsonPattern (123 :: mid ++ 125 :: after)
              = map (join (lit "{") []) (rmatch to_last_close (mid ++ 125 :: after))).
  { unfold Phase2.jsonPattern. cbn [rmatch]. change (lit "{") with [123].
    cbn [strip_prefix]. rewrite N.eqb_refl. cbn [flat_map]. by rewrite app_nil_r. }
  pose proof (head_rmatch_to_last_close (mid ++ 125 :: after)) as Hh.
  rewrite (last_close_app mid after Ha) in Hh.
  destruct (rmatch to_last_close (mid ++ 125 :: after)) as [|m ms] eqn:Hm; [discriminate|].
  simpl in Hh. injection Hh as ->.
  cbn [rmatch]. rewrite E. simpl. by eexists.
Qed.

(** X10.  In the V3 revision the result document runs from the brace
    after the first sentinel to the last closing brace of the whole
    output.  It may span lines; text after it is harmless as long as it
    holds no closing brace; and what stands between the two braces is
    parsed as one document, so that the call rejects when it is no JSON. *)
Theorem v3_result_runs_to_last_brace (before gap mid after : jstring) :
  includes before (lit "ENHANCED_ANALYSIS_JSON:") = false →
  forallb cls_space gap = true →
  no_close after = true →
  V3.extract (before ++ lit "ENHANCED_ANALYSIS_JSON:" ++ gap
              ++ lit "{" ++ mid ++ lit "}" ++ after)
  = match JSON_parse (lit "{" ++ mid ++ lit "}") with
    | Some v => Resolve v
    | None => Reject (lit "Analysis completed but result processing failed.")
    end.
Proof.
  intros Hb Hg Ha. apply no_close_not_in in Ha.
  destruct (rmatch_braces mid after Ha) as [tl1 H1].
  destruct (rmatch_after_space _ gap (123 :: mid ++ 125 :: after) _ _ Hg eq_refl H1)
    as [tl2 H2].
  assert (E : re_match V3.analysis_re
                (before ++ lit "ENHANCED_ANALYSIS_JSON:" ++ gap
                 ++ lit "{" ++ mid ++ lit "}" ++ after)
              = Some (lit "ENHANCED_ANALYSIS_JSON:" ++ gap ++ 123 :: mid ++ [125],
                      [123 :: mid ++ [125]])).
  { unfold V3.analysis_re.
    change (lit "ENHANCED_ANALYSIS_JSON:") with (lit "ENHANCED_ANALYSIS_JSON" ++ [58]) in *.
    rewrite (re_match_skips _ 58 _ before _) by (done || (vm_compute; set_solver)).
    change (lit "{" ++ mid ++ lit "}" ++ after) with (123 :: mid ++ 125 :: after).
    assert (H3 : rmatch (RCat (RLit (lit "ENHANCED_ANALYSIS_JSON" ++ [58]))
                           (RCat (RStar cls_space) (RGroup Phase2.jsonPattern)))
                   ((lit "ENHANCED_ANALYSIS_JSON" ++ [58]) ++ gap ++ 123 :: mid ++ 125 :: after)
                 = ((lit "ENHANCED_ANALYSIS_JSON" ++ [58]) ++ gap ++ 123 :: mid ++ [125],
                    [123 :: mid ++ [125]], after)
                   :: map (join (lit "ENHANCED_ANALYSIS_JSON" ++ [58]) []) tl2).
    { rewrite rmatch_sentinel, H2. reflexivity. }
    change (RGroup (RCat (RLit (lit "{")) (RCat (RStar cls_any) (RLit (lit "}")))))
      with (RGroup Phase2.jsonPattern).
    destruct ((lit "ENHANCED_ANALYSIS_JSON" ++ [58]) ++ gap ++ 123 :: mid ++ 125 :: after)
      eqn:E'; cbn [re_match]; by rewrite H3. }
  unfold V3.extract. rewrite E. reflexivity.
Qed.

Lemma v3_result_runs_to_last_brace_witness :
  V3.extract (Scenarios.progress_lines ++ lit "ENHANCED_ANALYSIS_JSON:" ++ [10]
              ++ lit "{" ++ ([10] ++ dq " 'summary': {'pages': 3}" ++ [10]) ++ lit "}"
              ++ Scenarios.closing_lines)
  = match JSON_parse (lit "{" ++ ([10] ++ dq " 'summary': {'pages': 3}" ++ [10]) ++ lit "}") with
    | Some v => Resolve v
    | None => Reject (lit "Analysis completed but result processing failed.")
    end.
Proof.
  apply (v3_result_runs_to_last_brace Scenarios.progress_lines [10]
           ([10] ++ dq " 'summary': {'pages': 3}" ++ [10]) Scenarios.closing_lines);
    vm_compute; reflexivity.
Defined.

End Sentinel.

Section Launch.
Import Js Json Node Lti Examples.

Lemma existsb_same_elements {A} (f : A → bool) (l l' : list A) :
  (∀ x, x ∈ l ↔ x ∈ l') → existsb f l = existsb f l'.
Proof.
  intros H. apply eq_true_iff_eq. rewrite !existsb_exists.
  split; intros (x & Hx & Hf); exists x; (split; [|done]);
    apply list_elem_of_In; apply H; by apply list_elem_of_In.
Qed.

(** X11.  The role the dashboard shows depends on which roles the token
    lists, not on their order or on repetitions, in both revisions: the
    priority among roles is that of the code, never that of the platform. *)
Theorem role_ignores_order (t t' : token) (rs rs' : list jstring) :
  roles t = Some rs → roles t' = Some rs' →
  (∀ r, r ∈ rs ↔ r ∈ rs') →
  Phase2Launch.getUserRole t = Phase2Launch.getUserRole t'
  ∧ V3Launch.getUserRole t = V3Launch.getUserRole t'.
Proof.
  intros Ht Ht' H.
  unfold Phase2Launch.getUserRole, V3Launch.getUserRole, some_includes.
  rewrite Ht, Ht'. cbn [default].
  by rewrite !(existsb_same_elements _ rs rs' H).
Qed.

Lemma role_ignores_order_witness :
  Phase2Launch.getUserRole Scenarios.canvas_launch
  = Phase2Launch.getUserRole Scenarios.canvas_launch_reordered
  ∧ V3Launch.getUserRole Scenarios.canvas_launch
    = V3Launch.getUserRole Scenarios.canvas_launch_reordered.
Proof.
  apply (role_ignores_order Scenarios.canvas_launch Scenarios.canvas_launch_reordered
           _ _ eq_refl eq_refl).
  intros r. simpl. rewrite !elem_of_cons. tauto.
Defined.

(** What the pattern of a course URL captures: one digit or more. *)
Lemma rmatch_digits_group (s : jstring) (m : match_result) :
  m ∈ rmatch (RGroup (RPlus is_digit)) s →
  ∃ c a rest, m = (c :: a, [c :: a], rest) ∧ forallb is_digit (c :: a) = true.
Proof.
  cbn [rmatch]. destruct s as [|c s]; [set_solver|].
  destruct (is_digit c) eqn:Hc; [|set_solver].
  rewrite map_map. intros Hm. apply list_elem_of_fmap in Hm as ([a rest] & -> & Hin).
  exists c, a, rest. split; [done|]. simpl. rewrite Hc. simpl.
  clear Hc. revert a rest Hin. induction s as [|d s IH]; intros a rest Hin; simpl in Hin.
  - apply list_elem_of_singleton in Hin. by injection Hin as -> ->.
  - destruct (is_digit d) eqn:Hd.
    + apply elem_of_app in Hin as [Hin|Hin].
      * apply list_elem_of_fmap in Hin as ([a' rest'] & [= -> ->] & Hin).
        simpl. rewrite Hd. by apply (IH a' rest').
      * apply list_elem_of_singleton in Hin. by injection Hin as -> ->.
    + apply list_elem_of_singleton in Hin. by injection Hin as -> ->.
Qed.

Lemma rmatch_courses (s : jstring) (m : match_result) :
  m ∈ rmatch courses_re s →
  ∃ c a, snd (fst m) = [c :: a] ∧ forallb is_digit (c :: a) = true.
Proof.
  unfold courses_re. cbn [rmatch].
  destruct (strip_prefix (lit "/courses/") s) as [rest|]; [|set_solver].
  cbn [flat_map]. rewrite app_nil_r. intros Hm.
  apply list_elem_of_fmap in Hm as (m2 & -> & Hm2).
  apply list_elem_of_In, in_flat_map in Hm2 as ([[a g] r] & Hg & Hm2).
  apply list_elem_of_In in Hg, Hm2.
  change (rmatch (RGroup (RPlus is_digit)) rest) with
    (map (λ m : match_result, let '(a, g, rest) := m in (a, a :: g, rest))
       (rmatch (RPlus is_digit) rest)) in Hg.
  apply (rmatch_digits_group rest) in Hg as (c & d & r' & [= -> -> ->] & Hd).
  apply list_elem_of_fmap in Hm2 as ([[b g2] r2] & -> & Hm2).
  destruct (strip_prefix (lit "/") r') as [r3|]; [|set_solver].
  apply list_elem_of_singleton in Hm2. injection Hm2 as -> -> ->.
  exists c, d. by split.
Qed.

Lemma re_match_courses (s : jstring) (m : jstring * list jstring) :
  re_match courses_re s = Some m →
  ∃ c a, group1 m = c :: a ∧ forallb is_digit (c :: a) = true.
Proof.
  induction s as [|d s IH]; cbn [re_match].
  - destruct (rmatch courses_re []) as [|[[a g] r] ms] eqn:E; [done|].
    intros [= <-]. destruct (rmatch_courses [] (a, g, r)) as (c & x & Hg & Hx).
    { rewrite E. set_solver. }
    simpl in Hg. subst g. by exists c, x.
  - destruct (rmatch courses_re (d :: s)) as [|[[a g] r] ms] eqn:E; [exact IH|].
    intros [= <-]. destruct (rmatch_courses (d :: s) (a, g, r)) as (c & x & Hg & Hx).
    { rewrite E. set_solver. }
    simpl in Hg. subst g. by exists c, x.
Qed.

Lemma course_in_digits (url : option jstring) (id : jstring) :
  course_in url = Some id → all_digits id = true.
Proof.
  unfold course_in. destruct url as [u|]; [|done].
  destruct (eqs u []); [done|].
  destruct (re_match courses_re u) as [m|] eqn:E; [|done].
  intros [= <-]. destruct (re_match_courses u m E) as (c & a & -> & Hd).
  unfold all_digits. by rewrite Hd.
Qed.

Lemma all_digits_truthy (s : jstring) : all_digits s = true → falsy_field (Some s) = false.
Proof. unfold all_digits. simpl. by destruct (eqs s []). Qed.

Lemma or_text_truthy (a : option jstring) (b : jstring) :
  b ≠ [] → falsy_field (Some (or_text a b)) = false.
Proof.
  intros Hb. simpl. unfold or_text.
  destruct a as [s|]; [destruct (eqs s []) eqn:E|]; try by apply eqs_false.
  done.
Qed.

(** X12.  A launch always yields a course id.  Whatever the token holds,
    [getRealCourseId] returns a non-empty text in both revisions, so that
    the request the dashboard builds from it passes the check
    [!courseId] of the handlers; in [qa-automation-lti.js] the id consists
    of digits unless it is the custom parameter [canvas_course_id]. *)
Theorem course_id_is_never_missing (t : token) :
  falsy_field (Some (Phase2Launch.getRealCourseId t)) = false
  ∧ falsy_field (Some (V3Launch.getRealCourseId t)) = false
  ∧ negb (falsy_field (canvas_course_id t))
    || all_digits (Phase2Launch.getRealCourseId t) = true.
Proof.
  assert (H : negb (falsy_field (canvas_course_id t))
              || all_digits (Phase2Launch.getRealCourseId t) = true
              ∧ falsy_field (Some (Phase2Launch.getRealCourseId t)) = false).
  { unfold Phase2Launch.getRealCourseId.
    destruct (course_in (return_url t)) as [id|] eqn:E1.
    { apply course_in_digits in E1. rewrite E1, orb_true_r. by split; [|apply all_digits_truthy]. }
    destruct (course_in (launch_url t)) as [id|] eqn:E2.
    { apply course_in_digits in E2. rewrite E2, orb_true_r. by split; [|apply all_digits_truthy]. }
    destruct (falsy_field (canvas_course_id t)) eqn:E3; simpl.
    - destruct (falsy_field (context_id t)) eqn:E4; simpl; [done|].
      destruct (all_digits (display (context_id t))) eqn:E5; [|done].
      split; [done|]. destruct (context_id t); [exact E4|done].
    - split; [done|]. destruct (canvas_course_id t); [exact E3|done]. }
  destruct H as [H1 H2]. split; [exact H2|]. split; [|exact H1].
  unfold V3Launch.getRealCourseId. by apply or_text_truthy.
Qed.

(** Where a pattern that starts with a literal matches at a place that
    runs into the first occurrence of the literal, the text after the
    match starts inside that occurrence. *)
Lemma literal_overlap (S x tail r : jstring) :
  x ≠ [] → strip_prefix S x = None →
  strip_prefix S (x ++ S ++ tail) = Some r →
  ∃ c r', r = c :: r' ∧ c ∈ S.
Proof.
  intros Hx Hn E. apply strip_prefix_Some in E.
  apply app_eq_inv in E as [(m & Hm & _)|(m & Hm & E)].
  { apply (strip_prefix_Some S x m) in Hm. congruence. }
  apply app_eq_inv in E as [(n & Hn' & ->)|(n & Hn' & _)].
  - assert (Hlen : length n = length x).
    { apply (f_equal length) in Hm, Hn'. rewrite !length_app in *. lia. }
    destruct n as [|c n]; [by destruct x|].
    exists c, (n ++ tail). split; [done|]. rewrite Hn'. set_solver.
  - subst m. apply (f_equal length) in Hm. rewrite !length_app in Hm.
    destruct x; [done|]. simpl in Hm. lia.
Qed.

Lemma re_match_skips_class (S : jstring) (p : N → bool) (r3 : regex) (before tail : jstring) :
  forallb (λ c, negb (p c)) S = true → includes before S = false →
  re_match (RCat (RLit S) (RCat (RGroup (RPlus p)) r3)) (before ++ S ++ tail)
  = re_match (RCat (RLit S) (RCat (RGroup (RPlus p)) r3)) (S ++ tail).
Proof.
  intros Hp. induction before as [|c before IH]; intros Hi; [done|].
  cbn [includes] in Hi.
  destruct (strip_prefix S (c :: before)) eqn:E; [done|].
  change ((c :: before) ++ S ++ tail) with (c :: (before ++ S ++ tail)).
  cbn [re_match].
  change (c :: (before ++ S ++ tail)) with ((c :: before) ++ S ++ tail).
  assert (Hnone : rmatch (RCat (RLit S) (RCat (RGroup (RPlus p)) r3))
                    ((c :: before) ++ S ++ tail) = []).
  { cbn [rmatch].
    destruct (strip_prefix S ((c :: before) ++ S ++ tail)) as [r|] eqn:E'; [|done].
    destruct (literal_overlap S (c :: before) tail r) as (d & r' & -> & Hd); [done..|].
    rewrite forallb_forall in Hp. apply list_elem_of_In, Hp, negb_true_iff in Hd.
    cbn [flat_map]. by rewrite Hd. }
  rewrite Hnone. by apply IH.
Qed.

(** The pattern of a course URL on a text that holds [/courses/] once,
    followed by digits and a slash. *)
Lemma re_match_course_url (before digits rest : jstring) :
  includes before (lit "/courses/") = false → all_digits digits = true →
  re_match courses_re (before ++ lit "/courses/" ++ digits ++ lit "/" ++ rest)
  = Some (lit "/courses/" ++ digits ++ lit "/", [digits]).
Proof.
  intros Hb Hd. unfold courses_re.
  rewrite (re_match_skips_class (lit "/courses/") is_digit _ before _ eq_refl Hb).
  unfold all_digits in Hd. apply andb_true_iff in Hd as [Hne Hd].
  destruct digits as [|c ds]; [done|]. clear Hne.
  simpl in Hd. apply andb_true_iff in Hd as [Hc Hd].
  destruct (splits_greedy_head is_digit ds (lit "/" ++ rest) Hd eq_refl) as [tl Htl].
  assert (H : rmatch (RCat (RLit (lit "/courses/")) (RCat (RGroup (RPlus is_digit)) (RLit (lit "/"))))
                (lit "/courses/" ++ (c :: ds) ++ lit "/" ++ rest)
              = (lit "/courses/" ++ (c :: ds) ++ lit "/", [c :: ds], rest)
                :: map (join (lit "/courses/") [])
                     (flat_map (λ m1 : match_result,
                                  let '(a, g1, rest) := m1 in
                                  map (join a g1) (rmatch (RLit (lit "/")) rest))
                        (map (λ m : match_result, let '(a, g, rest) := m in (a, a :: g, rest))
                           (map (λ ab, (c :: fst ab, [], snd ab)) tl)))).
  { rewrite rmatch_sentinel. cbn [rmatch].
    change ((c :: ds) ++ lit "/" ++ rest) with (c :: (ds ++ lit "/" ++ rest)).
    cbn iota. rewrite Hc, Htl. cbn [map flat_map fst snd].
    change (lit "/" ++ rest) with (47 :: rest). cbn [strip_prefix N_of_ascii].
    change (lit "/") with [47]. cbn [strip_prefix]. rewrite N.eqb_refl.
    cbn [map app join]. reflexivity. }
  destruct (lit "/courses/" ++ (c :: ds) ++ lit "/" ++ rest) eqn:E; cbn [re_match];
    by rewrite H.
Qed.

(** X13.  The course id is read from the URLs of the platform.  When the
    return URL of the launch holds [/courses/] for the first time followed
    by digits and a slash, [getRealCourseId] of [qa-automation-lti.js]
    returns exactly those digits, whatever else the token holds or lacks;
    the V3 revision does the same with the line items URL, whatever else
    the token holds or lacks. *)
Theorem course_id_comes_from_the_url (t : token) (before digits rest : jstring) :
  includes before (lit "/courses/") = false →
  all_digits digits = true →
  (return_url t = Some (before ++ lit "/courses/" ++ digits ++ lit "/" ++ rest) →
   Phase2Launch.getRealCourseId t = digits)
  ∧ (lineitems t = Some (before ++ lit "/courses/" ++ digits ++ lit "/" ++ rest) →
     V3Launch.getRealCourseId t = digits).
Proof.
  intros Hb Hd.
  assert (Hin : course_in (Some (before ++ lit "/courses/" ++ digits ++ lit "/" ++ rest))
                = Some digits).
  { unfold course_in. rewrite (re_match_course_url before digits rest Hb Hd).
    by destruct before. }
  split.
  - intros Hr. unfold Phase2Launch.getRealCourseId. by rewrite Hr, Hin.
  - intros Hl. unfold V3Launch.getRealCourseId. rewrite Hl, Hin.
    pose proof (all_digits_truthy digits Hd) as Ht. rewrite Ht. cbn [andb].
    unfold or_field. rewrite Ht. unfold or_text.
    simpl in Ht. by rewrite Ht.
Qed.

Lemma course_id_comes_from_the_url_witness :
  Phase2Launch.getRealCourseId Scenarios.return_url_only = lit "280"
  ∧ V3Launch.getRealCourseId Scenarios.canvas_launch = lit "280".
Proof.
  split.
  - apply (course_id_comes_from_the_url Scenarios.return_url_only
             (lit "https://canvas.test")
             (lit "280") (lit "external_content/success/external_tool_redirect"));
      reflexivity.
  - apply (course_id_comes_from_the_url Scenarios.canvas_launch
             (lit "https://canvas.test/api/lti") (lit "280") (lit "line_items"));
      reflexivity.
Defined.

Lemma full_name_falsy (a b : option jstring) :
  falsy_field a = true → falsy_field b = true → full_name a b = [].
Proof. unfold full_name. by intros -> ->. Qed.

Lemma full_name_truthy (a b : option jstring) :
  negb (falsy_field a) || negb (falsy_field b) = true → full_name a b ≠ [].
Proof.
  unfold full_name.
  destruct a as [a|], b as [b|]; simpl;
    repeat match goal with
           | |- context [eqs ?s []] =>
               let E := fresh in destruct (eqs s []) eqn:E; [|apply eqs_false in E]
           end; simpl; try done.
  intros _. by destruct a.
Qed.

(** X14.  The audit name is never blank.  Whatever the token holds,
    [getRealUserName] of the V3 revision resolves with a non-empty name;
    and when the token names the user in [userInfo], with a display name
    or with a given or family name, the name is built from [userInfo]
    alone. *)
Theorem user_name_is_never_blank (t : token) :
  V3Launch.getRealUserName t ≠ []
  ∧ (negb (falsy_field (userInfo_name t)) || negb (falsy_field (userInfo_given_name t))
     || negb (falsy_field (userInfo_family_name t)) = true →
     V3Launch.getRealUserName t
     = or_text (userInfo_name t) (full_name (userInfo_given_name t) (userInfo_family_name t))).
Proof.
  unfold V3Launch.getRealUserName.
  destruct (falsy_field (userInfo_name t)) eqn:E1; cbn [negb orb].
  - destruct (negb (falsy_field (userInfo_given_name t))
              || negb (falsy_field (userInfo_family_name t))) eqn:E2.
    + pose proof (full_name_truthy _ _ E2) as Hf. apply eqs_false in Hf.
      rewrite Hf. cbn [negb]. apply eqs_false in Hf. split; [done|]. intros _.
      unfold or_text. destruct (userInfo_name t) as [s|]; [|done].
      simpl in E1. by rewrite E1.
    + change (eqs [] []) with true. cbn [negb]. split; [|done].
      apply eqs_false. generalize (or_text_truthy
        (or_field (Some (full_name (given_name t) (family_name t)))
           (or_field (name t) (or_field (nickname t) (or_field (preferred_username t)
              (or_field (if negb (falsy_field (email t))
                         then Some (before_at (display (email t))) else None)
                 (person_sourcedid t))))))
        (lit "User")). simpl. intros H. by apply H.
  - split.
    + destruct (userInfo_name t) as [s|]; [|done]. simpl in *. by apply eqs_false.
    + intros _. unfold or_text. destruct (userInfo_name t) as [s|]; [|done].
      simpl in E1. by rewrite E1.
Qed.

Lemma user_name_is_never_blank_witness :
  V3Launch.getRealUserName Scenarios.canvas_launch = lit "Ada".
Proof.
  destruct (user_name_is_never_blank Scenarios.canvas_launch) as [_ H].
  rewrite H; reflexivity.
Defined.

End Launch.
